(** * zoozoo: routing and safety-filtering core, embedded in Rocq

    A shallow embedding of the Python agents
    (emergency_agent.py, faq_agent.py, ticketing_agent.py,
    bedrock_integration.py, supervisor_integration.py,
    multi_agent_system.py, guardrails_integration.py,
    secure_multi_agent_system.py).

    Python values are a small inductive type, exceptions are data, and every
    call to an AWS client goes through a record of collaborators acting on an
    abstract environment; each such call is appended to a trace, so that
    "is called", "is never called" and "is called once" are statements about
    the trace. *)

From Stdlib Require Import ZArith Ascii String List Bool Lia Sorting.Sorted.
From stdpp Require Import gmap strings list fin_maps.

Local Open Scope string_scope.
Local Open Scope Z_scope.
Local Open Scope list_scope.

(** ** Python [str] operations *)

Module Text.

(** A character is a code point below 256. *)
Definition code (c : ascii) : N := N_of_ascii c.

(** [str.isspace] on code points below 256. *)
Definition is_space (c : ascii) : bool :=
  let n := code c in
  (((9 <=? n) && (n <=? 13)) || ((28 <=? n) && (n <=? 32))
   || (n =? 133) || (n =? 160))%N.

(** [str.lower] on one code point below 256. *)
Definition lower_char (c : ascii) : ascii :=
  let n := code c in
  if (((65 <=? n) && (n <=? 90))
      || ((192 <=? n) && (n <=? 222) && negb (n =? 215)))%N
  then ascii_of_N (n + 32) else c.

Fixpoint lower (s : string) : string :=
  match s with
  | EmptyString => EmptyString
  | String c s' => String (lower_char c) (lower s')
  end.

Definition flush (cur : list ascii) : list string :=
  match cur with
  | [] => []
  | _ => [string_of_list_ascii (rev cur)]
  end.

(** [str.split()] with no argument: maximal runs of non-space characters.
    [cur] is the current word, reversed. *)
Fixpoint split_from (cur : list ascii) (s : string) : list string :=
  match s with
  | EmptyString => flush cur
  | String c s' =>
      if is_space c then flush cur ++ split_from [] s'
      else split_from (c :: cur) s'
  end.

Definition split (s : string) : list string := split_from [] s.

(** [needle in hay] on strings. *)
Fixpoint contains (needle hay : string) : bool :=
  String.prefix needle hay ||
  match hay with
  | EmptyString => false
  | String _ hay' => contains needle hay'
  end.

(** [s.find(c)] for a one-character [c], counting from [i]. *)
Fixpoint find_from (c : ascii) (s : string) (i : Z) : Z :=
  match s with
  | EmptyString => -1
  | String d s' => if Ascii.eqb d c then i else find_from c s' (i + 1)
  end.

Definition find (c : ascii) (s : string) : Z := find_from c s 0.

(** [s.rfind(c)]: [last] is the answer so far. *)
Fixpoint rfind_from (c : ascii) (s : string) (i last : Z) : Z :=
  match s with
  | EmptyString => last
  | String d s' => rfind_from c s' (i + 1) (if Ascii.eqb d c then i else last)
  end.

Definition rfind (c : ascii) (s : string) : Z := rfind_from c s 0 (-1).

(** [s[a:b]] for [0 <= a <= b]; the callers check this before slicing. *)
Definition slice (s : string) (a b : Z) : string :=
  String.substring (Z.to_nat a) (Z.to_nat (b - a)) s.

Definition endswith (s suffix : string) : bool :=
  let n := String.length s in
  let m := String.length suffix in
  (m <=? n)%nat && String.eqb (String.substring (n - m) m s) suffix.

(** The double quote, and a quoted word. *)
Definition dq : string := String (ascii_of_nat 34) EmptyString.
Definition quoted (s : string) : string := dq +:+ s +:+ dq.

End Text.

(** ** Python values and exceptions *)

#[warnings="-register-all"]
Inductive value : Type :=
| VNone
| VBool (b : bool)
| VInt (z : Z)
| VStr (s : string)
| VList (l : list value)
| VDict (d : list (string * value)).

(** A [dict] with string keys, in insertion order, keys unique. *)
Abbreviation dict := (list (string * value)).

Module Dict.

Fixpoint get (k : string) (d : dict) : option value :=
  match d with
  | [] => None
  | (k', v) :: d' => if String.eqb k' k then Some v else get k d'
  end.

(** [d.get(k, default)] *)
Definition get_or (k : string) (default : value) (d : dict) : value :=
  match get k d with
  | Some v => v
  | None => default
  end.

(** [k in d] *)
Definition mem (k : string) (d : dict) : bool :=
  match get k d with
  | Some _ => true
  | None => false
  end.

(** [d[k] = v]: overwrite in place, or append a new key. *)
Fixpoint set (k : string) (v : value) (d : dict) : dict :=
  match d with
  | [] => [(k, v)]
  | (k', v') :: d' =>
      if String.eqb k' k then (k, v) :: d' else (k', v') :: set k v d'
  end.

End Dict.

(** Python truthiness ([if x:], [not x], [x and y]). *)
Definition truthy (v : value) : bool :=
  match v with
  | VNone => false
  | VBool b => b
  | VInt z => negb (z =? 0)
  | VStr s => negb (String.eqb s "")
  | VList l => match l with [] => false | _ => true end
  | VDict d => match d with [] => false | _ => true end
  end.

(** [v == s] for a string literal [s]. *)
Definition is_str (s : string) (v : value) : bool :=
  match v with
  | VStr s' => String.eqb s' s
  | _ => false
  end.

Inductive exn_class : Type :=
| ClientError
| JSONDecodeError
| ValueError
| TypeError
| KeyError
| IndexError
| AttributeError
| OtherException.

(** An exception: its class and [str(e)]. *)
Record exn : Type := Exn { exn_class_of : exn_class; exn_str : string }.

(** [except ClientError] *)
Definition is_ClientError (e : exn) : bool :=
  match exn_class_of e with ClientError => true | _ => false end.

(** [except (json.JSONDecodeError, ValueError)]; [JSONDecodeError] is a
    subclass of [ValueError]. *)
Definition is_ValueError (e : exn) : bool :=
  match exn_class_of e with
  | JSONDecodeError | ValueError => true
  | _ => false
  end.

(** [except json.JSONDecodeError] *)
Definition is_JSONDecodeError (e : exn) : bool :=
  match exn_class_of e with JSONDecodeError => true | _ => false end.

Inductive result (A : Type) : Type :=
| Ok (a : A)
| Raised (e : exn).
Arguments Ok {A} a.
Arguments Raised {A} e.

Definition returns {A} (r : result A) : Prop := exists a, r = Ok a.

(** ** Calls to collaborators *)

(** The three prompt templates, with what is interpolated into them. *)
Inductive prompt : Type :=
| EmergencyPrompt (message : string)
| IntentPrompt (user_input : string)
| AnswerPrompt (context query : string).

Inductive direction : Type := Input | Output.

(** [UpdateItem] request: the SET clauses of the update expression in
    order ([path = :placeholder]), the attribute-name placeholders and the
    attribute values. *)
Record update_request : Type := UpdateRequest {
  upd_key : value;
  upd_set : list (string * string);
  upd_names : list (string * string);
  upd_values : list (string * value)
}.

(** [invoke_agent] request *)
Record agent_request : Type := AgentRequest {
  inputText : string;
  agentId : string;
  agentAliasId : string;
  req_sessionId : option string
}.

(** The reply of the agent runtime: the events of the completion stream, each
    with the bytes of its chunk when it has one, and the session id when the
    reply has one. *)
Record agent_reply : Type := AgentReply {
  completion : list (option string);
  reply_sessionId : option value
}.

Inductive event : Type :=
| InvokeModel (p : prompt)
| Publish (topic subject message : string)
| InvokeAgent (r : agent_request)
| ListObjects (bucket : option string) (prefix : string)
| GetObject (bucket : option string) (key : string)
| PutItem (item : dict)
| GetItem (ticket_id : value)
| UpdateItem (r : update_request)
| ApplyGuardrail (guardrail_id guardrail_version : string) (d : direction)
    (text : value).

(** What the outside world answers. [E] is the state of the world; a call may
    change it, so the same call may be answered differently the next
    time. *)
Record collaborators (E : Type) : Type := Collaborators {
  (* bedrock_runtime.invoke_model(...).get('body').read() *)
  invoke_model : prompt -> E -> result string * E;
  (* sns.publish(TopicArn, Subject, Message) *)
  publish : string -> string -> string -> E -> result unit * E;
  (* bedrock_agent_runtime.invoke_agent, called with the request *)
  invoke_agent_runtime : agent_request -> E -> result agent_reply * E;
  (* s3.list_objects_v2: the keys of 'Contents', or None without 'Contents' *)
  list_objects_v2 :
    option string -> string -> E -> result (option (list string)) * E;
  (* s3.get_object(...)['Body'].read().decode('utf-8') *)
  get_object : option string -> string -> E -> result string * E;
  (* table.put_item(Item) *)
  put_item : dict -> E -> result unit * E;
  (* table.get_item(Key): the 'Item' of the response, if any *)
  get_item : value -> E -> result (option value) * E;
  (* table.update_item(...) *)
  update_item : update_request -> E -> result unit * E;
  (* bedrock_runtime.apply_guardrail(...)['body'].read() *)
  apply_guardrail :
    string -> string -> direction -> value -> E -> result string * E;
  (* datetime.utcnow().isoformat() *)
  utcnow : E -> string * E;
  (* str(uuid.uuid4()) *)
  uuid4 : E -> string * E
}.
Arguments invoke_model {E} _ _ _.
Arguments publish {E} _ _ _ _ _.
Arguments invoke_agent_runtime {E} _ _ _.
Arguments list_objects_v2 {E} _ _ _ _.
Arguments get_object {E} _ _ _ _.
Arguments put_item {E} _ _ _.
Arguments get_item {E} _ _ _.
Arguments update_item {E} _ _ _.
Arguments apply_guardrail {E} _ _ _ _ _ _.
Arguments utcnow {E} _ _.
Arguments uuid4 {E} _ _.

(** The world: the environment and the calls made so far, oldest first. *)
Record world (E : Type) : Type := World { env : E; trace : list event }.
Arguments World {E} _ _.
Arguments env {E} _.
Arguments trace {E} _.

(** ** The monad of the agents: state of the world, and exceptions *)

Definition M (E A : Type) : Type := world E -> result A * world E.

Definition ret {E A} (a : A) : M E A := fun w => (Ok a, w).

Definition raise {E A} (e : exn) : M E A := fun w => (Raised e, w).

Definition bind {E A B} (m : M E A) (k : A -> M E B) : M E B :=
  fun w =>
    match m w with
    | (Ok a, w') => k a w'
    | (Raised e, w') => (Raised e, w')
    end.

(** [try: body except <catches> as e: handler e] *)
Definition try_except {E A} (body : M E A) (catches : exn -> bool)
    (handler : exn -> M E A) : M E A :=
  fun w =>
    match body w with
    | (Ok a, w') => (Ok a, w')
    | (Raised e, w') => if catches e then handler e w' else (Raised e, w')
    end.

(** [except Exception]: every class of [exn_class] derives from it. *)
Definition any_exception (e : exn) : bool := true.

(** Lift a computation without effects that may raise. *)
Definition lift {E A} (r : result A) : M E A := fun w => (r, w).

(** One call to a collaborator: log it, then let the world answer. *)
Definition call {E A} (ev : event) (f : E -> result A * E) : M E A :=
  fun w =>
    let (r, e') := f (env w) in
    (r, World e' (trace w ++ [ev])).

(** A reading of the clock or of the uuid source: no call is logged. *)
Definition ask {E A} (f : E -> A * E) : M E A :=
  fun w =>
    let (a, e') := f (env w) in
    (Ok a, World e' (trace w)).

Declare Scope agent_scope.
Delimit Scope agent_scope with agent.
Notation "x <- c1 ;; c2" := (bind c1 (fun x => c2))
  (at level 100, c1 at next level, right associativity) : agent_scope.
Notation "c1 ;; c2" := (bind c1 (fun _ => c2))
  (at level 100, right associativity) : agent_scope.
Local Open Scope agent_scope.

(** The calls a computation makes from world [w]. *)
Definition calls_of {E A} (m : M E A) (w : world E) : list event :=
  drop (length (trace w)) (trace (snd (m w))).

(** ** Reading a model reply *)

(** Pure steps that may raise, as in Python. *)
Module Py.

(** [type(v).__name__] *)
Definition type_name (v : value) : string :=
  match v with
  | VNone => "NoneType"
  | VBool _ => "bool"
  | VInt _ => "int"
  | VStr _ => "str"
  | VList _ => "list"
  | VDict _ => "dict"
  end.

(** [v.name] when the type of [v] has no attribute [name]. *)
Definition attribute_error (v : value) (name : string) : exn :=
  Exn AttributeError
    ("'" +:+ type_name v +:+ "' object has no attribute '" +:+ name +:+ "'").

(** [v[i]] when [v] cannot be indexed. *)
Definition not_subscriptable (v : value) : exn :=
  Exn TypeError ("'" +:+ type_name v +:+ "' object is not subscriptable").

(** [for x in v] when [v] cannot be iterated. *)
Definition not_iterable (v : value) : exn :=
  Exn TypeError ("'" +:+ type_name v +:+ "' object is not iterable").

(** [x in v] when [v] is not a container. *)
Definition not_a_container (v : value) : exn :=
  Exn TypeError
    ("argument of type '" +:+ type_name v +:+ "' is not iterable").

(** [v.get(k, default)]: only a dict has [get]. *)
Definition get (v : value) (k : string) (default : value) : result value :=
  match v with
  | VDict d => Ok (Dict.get_or k default d)
  | _ => Raised (attribute_error v "get")
  end.

(** [v[0]] *)
Definition first (v : value) : result value :=
  match v with
  | VList (x :: _) => Ok x
  | VList [] => Raised (Exn IndexError "list index out of range")
  | VStr (String c _) => Ok (VStr (String c EmptyString))
  | VStr EmptyString => Raised (Exn IndexError "string index out of range")
  | VDict _ => Raised (Exn KeyError "0")
  | _ => Raised (not_subscriptable v)
  end.

(** A value used as a [str]: the method [name] of [str] is called on
    it. *)
Definition as_str (name : string) (v : value) : result string :=
  match v with
  | VStr s => Ok s
  | _ => Raised (attribute_error v name)
  end.

Definition bind {A B} (r : result A) (k : A -> result B) : result B :=
  match r with
  | Ok a => k a
  | Raised e => Raised e
  end.

End Py.

(** ** Library functions taken as given *)

(** [json.loads] answers a value or the text of a [JSONDecodeError];
    [json.dumps] and [repr] are total. *)
Record pylib : Type := PyLib {
  json_loads : string -> value + string;
  json_dumps : value -> string;
  py_repr : value -> string
}.

Module Json.
Section WithLib.
Context (L : pylib).

Definition loads (s : string) : result value :=
  match json_loads L s with
  | inl v => Ok v
  | inr msg => Raised (Exn JSONDecodeError msg)
  end.

(** [str(v)] inside an f-string *)
Definition str (v : value) : string :=
  match v with
  | VStr s => s
  | _ => py_repr L v
  end.

(** [json.loads(body)], then
    [response_body.get('content', [{}])[0].get('text', default)] *)
Definition reply_text (body default : string) : result value :=
  Py.bind (loads body) (fun response_body =>
  Py.bind (Py.get response_body "content" (VList [VDict []])) (fun c =>
  Py.bind (Py.first c) (fun x =>
  Py.get x "text" (VStr default)))).

(** [content[start_idx:end_idx]] from the first opening brace to the last
    closing one, when [start_idx >= 0 and end_idx > start_idx]. *)
Definition brace_slice (content : string) : option string :=
  let start_idx := Text.find "{"%char content in
  let end_idx := Text.rfind "}"%char content + 1 in
  if (start_idx >=? 0) && (end_idx >? start_idx)
  then Some (Text.slice content start_idx end_idx)
  else None.

(** A value on which [.get] is called. *)
Definition as_dict (v : value) : result dict :=
  match v with
  | VDict d => Ok d
  | _ => Raised (Py.attribute_error v "get")
  end.

End WithLib.
End Json.

(** ** emergency_agent.py *)

Module EmergencyAgent.

Record config : Type := Config { sns_topic_arn : option string }.

(** [not self.sns_topic_arn] *)
Definition configured_topic (cfg : config) : option string :=
  match sns_topic_arn cfg with
  | Some t => if String.eqb t "" then None else Some t
  | None => None
  end.

Definition safe_default (reasoning : string) : dict :=
  [("is_emergency", VBool false);
   ("severity", VStr "unknown");
   ("recommended_actions", VList []);
   ("reasoning", VStr reasoning)].

(** [evaluation.get('severity') in ['high', 'critical']] *)
Definition severity_is_high (evaluation : dict) : bool :=
  let s := Dict.get_or "severity" VNone evaluation in
  is_str "high" s || is_str "critical" s.

Definition is_emergency (evaluation : dict) : bool :=
  truthy (Dict.get_or "is_emergency" (VBool false) evaluation).

Definition alert_subject (L : pylib) (evaluation : dict) : string :=
  "EMERGENCY ALERT - "
    +:+ Json.str L (Dict.get_or "severity" (VStr "high") evaluation)
    +:+ " severity".

Definition notification (timestamp message : string) (evaluation : dict)
    : value :=
  VDict [("timestamp", VStr timestamp);
         ("original_message", VStr message);
         ("severity", Dict.get_or "severity" VNone evaluation);
         ("recommended_actions",
           Dict.get_or "recommended_actions" (VList []) evaluation);
         ("reasoning", Dict.get_or "reasoning" (VStr "") evaluation)].

Section WithWorld.
Context {E : Type} (C : collaborators E) (L : pylib) (cfg : config).

Definition _escalate_emergency (message : string) (evaluation : dict)
    : M E unit :=
  match configured_topic cfg with
  | None => ret tt
  | Some topic =>
      try_except
        (timestamp <- ask (utcnow C) ;;
         let subject := alert_subject L evaluation in
         let body := json_dumps L (notification timestamp message evaluation) in
         call (Publish topic subject body) (publish C topic subject body))
        any_exception
        (fun _ => ret tt)
  end.

Definition evaluate_emergency (message : string) : M E dict :=
  try_except
    (body <- call (InvokeModel (EmergencyPrompt message))
               (invoke_model C (EmergencyPrompt message)) ;;
     content_v <- lift (Json.reply_text L body "{}") ;;
     content <- lift (Py.as_str "find" content_v) ;;
     match Json.brace_slice content with
     | Some json_str =>
         evaluation_v <- lift (Json.loads L json_str) ;;
         evaluation <- lift (Json.as_dict evaluation_v) ;;
         (if is_emergency evaluation && severity_is_high evaluation
          then _escalate_emergency message evaluation
          else ret tt) ;;
         ret evaluation
     | None => ret (safe_default "Failed to evaluate the situation")
     end)
    any_exception
    (fun e => ret (safe_default ("Error: " +:+ exn_str e))).

Definition handle_emergency_request (message : string) : M E dict :=
  evaluation <- evaluate_emergency message ;;
  if is_emergency evaluation then
    if severity_is_high evaluation then
      ret [("status", VStr "emergency_escalated");
           ("message", VStr "This situation has been identified as a serious emergency and has been escalated to the appropriate team. Please follow these immediate actions:");
           ("actions", Dict.get_or "recommended_actions" (VList []) evaluation);
           ("severity", Dict.get_or "severity" VNone evaluation)]
    else
      ret [("status", VStr "emergency_identified");
           ("message", VStr "This situation has been identified as a potential emergency. Please consider these recommended actions:");
           ("actions", Dict.get_or "recommended_actions" (VList []) evaluation);
           ("severity", Dict.get_or "severity" VNone evaluation)]
  else
    ret [("status", VStr "not_emergency");
         ("message", VStr "This situation has not been identified as an emergency.");
         ("reasoning", Dict.get_or "reasoning" (VStr "") evaluation);
         ("severity", Dict.get_or "severity" (VStr "low") evaluation)].

End WithWorld.
End EmergencyAgent.

(** ** faq_agent.py *)

Module FAQAgent.

Record config : Type := Config {
  s3_bucket : option string;
  s3_prefix : string
}.

(** An entry of [relevant_docs]. *)
Record doc : Type := Doc {
  content : string;
  source : string;
  relevance : nat
}.

(** [set(text.lower().split())] *)
Definition terms (text : string) : gset string :=
  list_to_set (Text.split (Text.lower text)).

(** [len(query_terms.intersection(content_terms))] *)
Definition overlap (query_terms content_terms : gset string) : nat :=
  size (query_terms ∩ content_terms).

Definition supported (key : string) : bool :=
  Text.endswith key ".txt" || Text.endswith key ".md"
  || Text.endswith key ".json".

(** [relevant_docs.sort(key=lambda x: x['relevance'], reverse=True)]:
    Python's sort is stable, also with [reverse=True]. [insert_doc] puts
    [x], which came before every entry of [l], in front of the first entry
    that is not more relevant. *)
Fixpoint insert_doc (x : doc) (l : list doc) : list doc :=
  match l with
  | [] => [x]
  | y :: l' =>
      if (relevance x <? relevance y)%nat then y :: insert_doc x l'
      else x :: y :: l'
  end.

Fixpoint sort_by_relevance (l : list doc) : list doc :=
  match l with
  | [] => []
  | x :: l' => insert_doc x (sort_by_relevance l')
  end.

(** [l[:n]] for a Python integer [n] *)
Definition slice_to {A} (l : list A) (n : Z) : list A :=
  if n <? 0 then take (Z.to_nat (Z.of_nat (length l) + n)) l
  else take (Z.to_nat n) l.

Definition newline : string := String (ascii_of_nat 10) EmptyString.

Definition refusal : string :=
  "I couldn't find any relevant information in the knowledge base.".

Definition doc_block (d : doc) : string :=
  "Document from " +:+ source d +:+ ":" +:+ newline +:+ content d.

Section WithWorld.
Context {E : Type} (C : collaborators E) (L : pylib) (cfg : config).

(** The [for obj in response.get('Contents', [])] loop. *)
Fixpoint scan (query_terms : gset string) (max_docs : Z)
    (keys : list string) (relevant_docs : list doc) : M E (list doc) :=
  match keys with
  | [] => ret relevant_docs
  | key :: rest =>
      if Z.of_nat (length relevant_docs) >=? max_docs then ret relevant_docs
      else if negb (supported key) then
        scan query_terms max_docs rest relevant_docs
      else
        text <- call (GetObject (s3_bucket cfg) key)
                  (get_object C (s3_bucket cfg) key) ;;
        let n := overlap query_terms (terms text) in
        if (0 <? n)%nat
        then scan query_terms max_docs rest (relevant_docs ++ [Doc text key n])
        else scan query_terms max_docs rest relevant_docs
  end.

Definition retrieve_relevant_documents (query : string) (max_docs : Z)
    : M E (list doc) :=
  try_except
    (response <- call (ListObjects (s3_bucket cfg) (s3_prefix cfg))
                   (list_objects_v2 C (s3_bucket cfg) (s3_prefix cfg)) ;;
     match response with
     | None => ret []
     | Some keys =>
         relevant_docs <- scan (terms query) max_docs keys [] ;;
         ret (slice_to (sort_by_relevance relevant_docs) max_docs)
     end)
    is_ClientError
    (fun _ => ret []).

Definition answer_question (query : string) : M E dict :=
  relevant_docs <- retrieve_relevant_documents query 3 ;;
  match relevant_docs with
  | [] => ret [("answer", VStr refusal); ("sources", VList [])]
  | _ =>
      let context :=
        String.concat (newline +:+ newline) (map doc_block relevant_docs) in
      let sources := VList (map (fun d => VStr (source d)) relevant_docs) in
      try_except
        (body <- call (InvokeModel (AnswerPrompt context query))
                   (invoke_model C (AnswerPrompt context query)) ;;
         answer <- lift (Json.reply_text L body "") ;;
         ret [("answer", answer); ("sources", sources)])
        any_exception
        (fun _ =>
           ret [("answer",
                 VStr "I encountered an error while trying to answer your question.");
                ("sources", VList [])])
  end.

End WithWorld.
End FAQAgent.


(** ** ticketing_agent.py *)

Module TicketingAgent.

(** The update that [cancel_ticket] sends. *)
Definition cancel_request (ticket_id reason : value) (timestamp : string)
    : update_request :=
  let update_expression :=
    [("#status", ":status"); ("updated_at", ":updated")] in
  let expression_values :=
    [(":status", VStr "cancelled"); (":updated", VStr timestamp)] in
  if truthy reason then
    UpdateRequest ticket_id
      (update_expression ++ [("cancellation_reason", ":reason")])
      [("#status", "status")]
      (Dict.set ":reason" reason expression_values)
  else
    UpdateRequest ticket_id update_expression [("#status", "status")]
      expression_values.

(** The parameters of [create_ticket] without a default. *)
Definition required : list string :=
  ["subject"; "description"; "user_id"; "emergency"].

Definition missing (kwargs : dict) : list string :=
  filter (fun p => negb (Dict.mem p kwargs)) required.

Definition quote (name : string) : string := "'" +:+ name +:+ "'".

(** Three names or more: ['a', 'b', and 'c']. *)
Fixpoint listed (names : list string) : string :=
  match names with
  | [] => ""
  | [name] => "and " +:+ quote name
  | name :: rest => quote name +:+ ", " +:+ listed rest
  end.

(** The text of the [TypeError] for parameters left unbound; there are at
    most four of them. *)
Definition missing_text (names : list string) : string :=
  "TicketingAgent.create_ticket() missing "
    +:+ String (ascii_of_nat (48 + length names)) EmptyString
    +:+ match names with
        | [name] => " required positional argument: " +:+ quote name
        | [a; b] =>
            " required positional arguments: " +:+ quote a +:+ " and "
              +:+ quote b
        | _ => " required positional arguments: " +:+ listed names
        end.

Section WithWorld.
Context {E : Type} (C : collaborators E).

Definition create_ticket
    (subject description user_id emergency priority assigned_to : value)
    : M E value :=
  ticket_id <- ask (uuid4 C) ;;
  timestamp <- ask (utcnow C) ;;
  let ticket :=
    [("ticket_id", VStr ticket_id);
     ("subject", subject);
     ("user_id", user_id);
     ("assigned_to", assigned_to);
     ("description", description);
     ("status", VStr "open");
     ("priority", priority);
     ("created_at", VStr timestamp);
     ("updated_at", VStr timestamp);
     ("emergency", emergency)] in
  let ticket :=
    if truthy assigned_to then Dict.set "assigned_to" assigned_to ticket
    else ticket in
  try_except
    (call (PutItem ticket) (put_item C ticket) ;; ret (VDict ticket))
    is_ClientError
    (fun _ => ret VNone).

(** A call [create_ticket(k1=v1, ...)] with keyword arguments: Python binds
    them to the parameters of
    [def create_ticket(self, subject, description, user_id, emergency,
    priority="medium", assigned_to=None)] and raises [TypeError] when a
    parameter without default is left unbound. *)
Definition create_ticket_call (kwargs : dict) : M E value :=
  match missing kwargs with
  | [] =>
      create_ticket
        (Dict.get_or "subject" VNone kwargs)
        (Dict.get_or "description" VNone kwargs)
        (Dict.get_or "user_id" VNone kwargs)
        (Dict.get_or "emergency" VNone kwargs)
        (Dict.get_or "priority" (VStr "medium") kwargs)
        (Dict.get_or "assigned_to" VNone kwargs)
  | names =>
      raise (Exn TypeError (missing_text names))
  end.

Definition get_ticket_status (ticket_id : value) : M E value :=
  try_except
    (response <- call (GetItem ticket_id) (get_item C ticket_id) ;;
     match response with
     | Some item => ret item
     | None => ret VNone
     end)
    is_ClientError
    (fun _ => ret VNone).

Definition cancel_ticket (ticket_id reason : value) : M E bool :=
  timestamp <- ask (utcnow C) ;;
  let r := cancel_request ticket_id reason timestamp in
  try_except
    (call (UpdateItem r) (update_item C r) ;; ret true)
    is_ClientError
    (fun _ => ret false).

End WithWorld.
End TicketingAgent.

(** ** bedrock_integration.py *)

Module BedrockTicketingAgent.

Definition unknown_intent : value := VDict [("action", VStr "unknown")].

(** [intent['action']] *)
Definition action_of (intent : value) : result value :=
  match intent with
  | VDict d =>
      match Dict.get "action" d with
      | Some v => Ok v
      | None => Raised (Exn KeyError "'action'")
      end
  | VStr _ =>
      Raised (Exn TypeError "string indices must be integers, not 'str'")
  | VList _ =>
      Raised (Exn TypeError
                "list indices must be integers or slices, not str")
  | _ => Raised (Py.not_subscriptable intent)
  end.

Section WithWorld.
Context {E : Type} (C : collaborators E) (L : pylib).

Definition _determine_intent (user_input : string) : M E value :=
  body <- call (InvokeModel (IntentPrompt user_input))
            (invoke_model C (IntentPrompt user_input)) ;;
  content_v <- lift (Json.reply_text L body "{}") ;;
  try_except
    (content <- lift (Py.as_str "find" content_v) ;;
     match Json.brace_slice content with
     | Some json_str => lift (Json.loads L json_str)
     | None => ret unknown_intent
     end)
    is_ValueError
    (fun _ => ret unknown_intent).

Definition process_request (user_input : string) : M E dict :=
  intent_v <- _determine_intent user_input ;;
  action <- lift (action_of intent_v) ;;
  intent <- lift (Json.as_dict intent_v) ;;
  if is_str "create_ticket" action then
    ticket <- TicketingAgent.create_ticket_call C
      [("subject", Dict.get_or "subject" (VStr "No subject provided") intent);
       ("description",
         Dict.get_or "description" (VStr "No description provided") intent);
       ("priority", Dict.get_or "priority" (VStr "medium") intent);
       ("assigned_to", Dict.get_or "assigned_to" VNone intent)] ;;
    ret [("action", VStr "create_ticket");
         ("success", VBool (match ticket with VNone => false | _ => true end));
         ("ticket", ticket)]
  else if is_str "get_ticket_status" action then
    let ticket_id := Dict.get_or "ticket_id" VNone intent in
    if negb (truthy ticket_id) then
      ret [("action", VStr "get_ticket_status");
           ("success", VBool false);
           ("error", VStr "No ticket ID provided")]
    else
      ticket <- TicketingAgent.get_ticket_status C ticket_id ;;
      ret [("action", VStr "get_ticket_status");
           ("success", VBool (match ticket with VNone => false | _ => true end));
           ("ticket", ticket)]
  else if is_str "cancel_ticket" action then
    let ticket_id := Dict.get_or "ticket_id" VNone intent in
    if negb (truthy ticket_id) then
      ret [("action", VStr "cancel_ticket");
           ("success", VBool false);
           ("error", VStr "No ticket ID provided")]
    else
      success <- TicketingAgent.cancel_ticket C ticket_id
                   (Dict.get_or "reason" VNone intent) ;;
      ret [("action", VStr "cancel_ticket");
           ("success", VBool success);
           ("ticket_id", ticket_id)]
  else
    ret [("action", VStr "unknown");
         ("success", VBool false);
         ("error", VStr "Could not determine the requested action")].

End WithWorld.
End BedrockTicketingAgent.

(** ** supervisor_integration.py *)

Module SupervisorAgentClient.

Record config : Type := Config {
  agent_id : option string;
  agent_alias_id : option string
}.

(** [x] when [x] is truthy *)
Definition present (x : option string) : option string :=
  match x with
  | Some s => if String.eqb s "" then None else Some s
  | None => None
  end.

Section WithWorld.
Context {E : Type} (C : collaborators E) (L : pylib) (cfg : config).

(** The loop over [response.get("completion")]. *)
Fixpoint collect (events : list (option string)) (messages : list value)
    : result (list value) :=
  match events with
  | [] => Ok messages
  | None :: rest => collect rest messages
  | Some bytes :: rest =>
      Py.bind (Json.loads L bytes) (fun message_chunk =>
      collect rest (messages ++ [message_chunk]))
  end.

Definition invoke_agent (message : string) (session_id : option string)
    : M E dict :=
  match present (agent_id cfg), present (agent_alias_id cfg) with
  | Some aid, Some alias =>
      let request := AgentRequest message aid alias (present session_id) in
      try_except
        (response <- call (InvokeAgent request)
                       (invoke_agent_runtime C request) ;;
         messages <- lift (collect (completion response) []) ;;
         let result := [("messages", VList messages)] in
         match reply_sessionId response with
         | Some sid => ret (Dict.set "sessionId" sid result)
         | None => ret result
         end)
        any_exception
        (fun e => ret [("error", VStr (exn_str e))])
  | _, _ =>
      raise (Exn ValueError "Agent ID and Agent Alias ID must be provided")
  end.

End WithWorld.
End SupervisorAgentClient.

(** ** multi_agent_system.py *)

Module MultiAgentSystem.

Record config : Type := Config {
  supervisor_cfg : SupervisorAgentClient.config;
  faq_cfg : FAQAgent.config;
  emergency_cfg : EmergencyAgent.config
}.

Definition emergency_keywords : list string :=
  ["emergency"; "accident"; "injury"; "fire"; "urgent"; "help"; "danger"].

(** [any(keyword in user_input.lower() for keyword in emergency_keywords)] *)
Definition mentions_emergency (user_input : string) : bool :=
  existsb (fun keyword => Text.contains keyword (Text.lower user_input))
    emergency_keywords.

(** The text [{"agent":] that announces a structured routing decision. *)
Definition agent_marker : string := "{" +:+ Text.quoted "agent" +:+ ":".

(** [for x in v] *)
Definition iterate (v : value) : result (list value) :=
  match v with
  | VList l => Ok l
  | VStr s =>
      Ok (map (fun c => VStr (String c EmptyString)) (list_ascii_of_string s))
  | VDict d => Ok (map (fun kv => VStr (fst kv)) d)
  | _ => Raised (Py.not_iterable v)
  end.

(** ['agent' in routing_info] *)
Definition has_agent (routing_info : value) : result bool :=
  match routing_info with
  | VDict d => Ok (Dict.mem "agent" d)
  | VList l => Ok (existsb (is_str "agent") l)
  | VStr s => Ok (Text.contains "agent" s)
  | _ => Raised (Py.not_a_container routing_info)
  end.

(** The keyword fallback on one fragment: the agent it names, if any. *)
Definition keyword_agent (content_lower : string) : option string :=
  if Text.contains "ticket" content_lower
     || Text.contains "create ticket" content_lower
     || Text.contains "cancel ticket" content_lower
  then Some "ticketing"
  else if Text.contains "question" content_lower
          || Text.contains "faq" content_lower
          || Text.contains "knowledge base" content_lower
  then Some "faq"
  else if Text.contains "emergency" content_lower
          || Text.contains "urgent" content_lower
  then Some "emergency"
  else None.

(** [message.get('content', '')], used as a string right away: the
    membership test raises [TypeError] on a scalar; on a list or a dict it
    is answered, and then [find] (when the marker is a member) or [lower]
    raises [AttributeError]. *)
Definition content_of (message : value) : result string :=
  Py.bind (Py.get message "content" (VStr "")) (fun content =>
  match content with
  | VStr s => Ok s
  | VList l =>
      Raised (Py.attribute_error content
                (if existsb (is_str agent_marker) l then "find"
                 else "lower"))
  | VDict d =>
      Raised (Py.attribute_error content
                (if Dict.mem agent_marker d then "find" else "lower"))
  | _ => Raised (Py.not_a_container content)
  end).

Section Pure.
Context (L : pylib).

(** The [try] block of the loop body: [Some routing_info] when the function
    returns from inside it. A [JSONDecodeError] is swallowed. *)
Definition structured (content : string) : result (option value) :=
  if Text.contains agent_marker content then
    match Json.brace_slice content with
    | Some json_str =>
        match Json.loads L json_str with
        | Ok routing_info =>
            Py.bind (has_agent routing_info) (fun b =>
            Ok (if b then Some routing_info else None))
        | Raised e => if is_JSONDecodeError e then Ok None else Raised e
        end
    | None => Ok None
    end
  else Ok None.

(** The loop of [_extract_routing_decision]; [decision] is
    [decision['agent']]. *)
Fixpoint route_messages (messages : list value) (decision : string)
    : result value :=
  match messages with
  | [] => Ok (VDict [("agent", VStr decision)])
  | message :: rest =>
      Py.bind (content_of message) (fun content =>
      Py.bind (structured content) (fun found =>
      match found with
      | Some routing_info => Ok routing_info
      | None =>
          match keyword_agent (Text.lower content) with
          | Some agent => route_messages rest agent
          | None => route_messages rest decision
          end
      end))
  end.

Definition _extract_routing_decision (supervisor_response : dict)
    : result value :=
  Py.bind (iterate (Dict.get_or "messages" (VList []) supervisor_response))
    (fun messages => route_messages messages "supervisor").

Definition _extract_supervisor_message (supervisor_response : dict)
    : result value :=
  let messages := Dict.get_or "messages" (VList []) supervisor_response in
  if truthy messages then
    Py.bind (Py.first messages) (fun m => Py.get m "content" (VStr ""))
  else Ok (VStr "").

End Pure.

Section WithWorld.
Context {E : Type} (C : collaborators E) (L : pylib) (cfg : config).

(** What follows the emergency check in [process_request]. *)
Definition ask_supervisor (user_input : string) (session_id : option string)
    : M E dict :=
  supervisor_response <-
    SupervisorAgentClient.invoke_agent C L (supervisor_cfg cfg)
      user_input session_id ;;
  routing_decision <- lift (_extract_routing_decision L supervisor_response) ;;
  agent <- lift (Py.get routing_decision "agent" VNone) ;;
  if is_str "ticketing" agent then
    BedrockTicketingAgent.process_request C L user_input
  else if is_str "faq" agent then
    FAQAgent.answer_question C L (faq_cfg cfg) user_input
  else if is_str "emergency" agent then
    EmergencyAgent.handle_emergency_request C L (emergency_cfg cfg) user_input
  else
    text <- lift (_extract_supervisor_message supervisor_response) ;;
    ret [("response", text);
         ("session_id", Dict.get_or "sessionId" VNone supervisor_response)].

Definition process_request (user_input : string) (session_id : option string)
    : M E dict :=
  if mentions_emergency user_input then
    emergency_evaluation <-
      EmergencyAgent.evaluate_emergency C L (emergency_cfg cfg) user_input ;;
    if EmergencyAgent.is_emergency emergency_evaluation then
      EmergencyAgent.handle_emergency_request C L (emergency_cfg cfg)
        user_input
    else ask_supervisor user_input session_id
  else ask_supervisor user_input session_id.

End WithWorld.
End MultiAgentSystem.

(** ** guardrails_integration.py *)

Module GuardrailsManager.

Record config : Type := Config {
  guardrail_id : option string;
  guardrail_version : option string
}.

(** The result of a pass; [field] is ['filtered_input'] or
    ['filtered_output']. *)
Definition pass_through (field : string) (text : value) : dict :=
  [("is_blocked", VBool false); (field, text); ("blocked_reasons", VList [])].

(** [result.get('assessment', {}).get('topicPolicy', {})] *)
Definition topic_policy (res : value) : result value :=
  Py.bind (Py.get res "assessment" (VDict [])) (fun a =>
  Py.get a "topicPolicy" (VDict [])).

(** The dict built from the parsed reply of the guardrail. *)
Definition read (field : string) (text res : value) : result dict :=
  Py.bind (topic_policy res) (fun p1 =>
  Py.bind (Py.get p1 "blocked" (VBool false)) (fun blocked =>
  Py.bind (Py.get res "output" text) (fun output =>
  Py.bind (topic_policy res) (fun p2 =>
  Py.bind (Py.get p2 "topics" (VList [])) (fun topics =>
  Ok [("is_blocked", blocked); (field, output);
      ("blocked_reasons", topics)]))))).

Section WithWorld.
Context {E : Type} (C : collaborators E) (L : pylib) (cfg : config).

Definition apply (d : direction) (field : string) (text : value)
    : M E dict :=
  match SupervisorAgentClient.present (guardrail_id cfg),
        SupervisorAgentClient.present (guardrail_version cfg) with
  | Some gid, Some version =>
      try_except
        (body <- call (ApplyGuardrail gid version d text)
                   (apply_guardrail C gid version d text) ;;
         res <- lift (Json.loads L body) ;;
         lift (read field text res))
        any_exception
        (fun _ => ret (pass_through field text))
  | _, _ => ret (pass_through field text)
  end.

Definition apply_guardrails (input_text : value) : M E dict :=
  apply Input "filtered_input" input_text.

Definition apply_guardrails_to_output (output_text : value) : M E dict :=
  apply Output "filtered_output" output_text.

End WithWorld.
End GuardrailsManager.

(** ** secure_multi_agent_system.py *)

Module SecureMultiAgentSystem.

Record config : Type := Config {
  system_cfg : MultiAgentSystem.config;
  guardrails_cfg : GuardrailsManager.config
}.

Definition blocked_response (reasons : value) : dict :=
  [("status", VStr "blocked_by_guardrails");
   ("message", VStr "I'm sorry, but I cannot process this request as it violates our content policies.");
   ("blocked_reasons", reasons)].

Definition output_blocked_response (reasons : value) : dict :=
  [("status", VStr "output_blocked_by_guardrails");
   ("message", VStr "I'm sorry, but I cannot provide the generated response as it violates our content policies.");
   ("blocked_reasons", reasons)].

(** The router only returns dicts, so the [isinstance(response, dict)]
    branch is the one taken. *)
Definition _extract_response_text (L : pylib) (response : dict) : value :=
  match Dict.get "message" response with
  | Some v => v
  | None =>
      match Dict.get "answer" response with
      | Some v => v
      | None =>
          match Dict.get "response" response with
          | Some v => v
          | None => VStr (json_dumps L (VDict response))
          end
      end
  end.

Definition _update_response_text (response : dict) (filtered_text : value)
    : dict :=
  if Dict.mem "message" response then Dict.set "message" filtered_text response
  else if Dict.mem "answer" response then Dict.set "answer" filtered_text response
  else if Dict.mem "response" response
  then Dict.set "response" filtered_text response
  else Dict.set "filtered_response" filtered_text response.

Section WithWorld.
Context {E : Type} (C : collaborators E) (L : pylib) (cfg : config).

(** The call [self.multi_agent_system.process_request(filtered_input, ...)]:
    the router starts with [user_input.lower()], which only a string
    has. *)
Definition route (filtered_input : value) (session_id : option string)
    : M E dict :=
  match filtered_input with
  | VStr s => MultiAgentSystem.process_request C L (system_cfg cfg) s session_id
  | _ => raise (Py.attribute_error filtered_input "lower")
  end.

(** The second half of [process_request]: the output pass over the
    router's response. *)
Definition filter_output (response : dict) : M E dict :=
  let response_text := _extract_response_text L response in
  output_guardrail_result <-
    GuardrailsManager.apply_guardrails_to_output C L (guardrails_cfg cfg)
      response_text ;;
  if truthy (Dict.get_or "is_blocked" (VBool false) output_guardrail_result)
  then
    ret (output_blocked_response
           (Dict.get_or "blocked_reasons" (VList [])
              output_guardrail_result))
  else
    ret (_update_response_text response
           (Dict.get_or "filtered_output" response_text
              output_guardrail_result)).

Definition process_request (user_input : string) (session_id : option string)
    : M E dict :=
  input_guardrail_result <-
    GuardrailsManager.apply_guardrails C L (guardrails_cfg cfg)
      (VStr user_input) ;;
  if truthy (Dict.get_or "is_blocked" (VBool false) input_guardrail_result)
  then
    ret (blocked_response
           (Dict.get_or "blocked_reasons" (VList []) input_guardrail_result))
  else
    let filtered_input :=
      Dict.get_or "filtered_input" (VStr user_input) input_guardrail_result in
    response <- route filtered_input session_id ;;
    filter_output response.

End WithWorld.
End SecureMultiAgentSystem.

(** ** A DynamoDB table, for the effect of an update *)

Module Table.

(** Items by key; an item maps attribute names to values. *)
Abbreviation item := (gmap string value).
Abbreviation table := (gmap string item).

(** The attribute a SET path names: a [#name] placeholder is looked up in
    the attribute names. *)
Definition resolve (names : list (string * string)) (path : string)
    : string :=
  match List.find (fun kv => String.eqb (fst kv) path) names with
  | Some kv => snd kv
  | None => path
  end.

(** Apply the SET clauses to an item, in order. A placeholder without a
    value makes the request invalid. *)
Fixpoint apply_set (names : list (string * string)) (values : dict)
    (clauses : list (string * string)) (it : item) : option item :=
  match clauses with
  | [] => Some it
  | (path, placeholder) :: rest =>
      match Dict.get placeholder values with
      | Some v => apply_set names values rest (<[resolve names path := v]> it)
      | None => None
      end
  end.

(** [UpdateItem] without a condition: the item is updated, or created with
    its key when absent. The key of the table is the string
    [ticket_id]. *)
Definition update (r : update_request) (t : table) : option table :=
  match upd_key r with
  | VStr k =>
      let old := default {["ticket_id" := VStr k]} (t !! k) in
      match apply_set (upd_names r) (upd_values r) (upd_set r) old with
      | Some new => Some (<[k := new]> t)
      | None => None
      end
  | _ => None
  end.

End Table.

(** ** Scripted collaborators, for running the agents on concrete inputs *)

Module Sample.

Definition backslash : string := String (ascii_of_nat 92) EmptyString.

(** A string inside a JSON text: the double quotes are escaped. *)
Fixpoint escape (s : string) : string :=
  match s with
  | EmptyString => EmptyString
  | String c s' =>
      if Ascii.eqb c (ascii_of_nat 34)
      then backslash +:+ Text.dq +:+ escape s'
      else String c (escape s')
  end.

(** The body of a model reply with one text block. *)
Definition body_of (text : string) : string :=
  "{" +:+ Text.quoted "content" +:+ ": [{" +:+ Text.quoted "text" +:+ ": "
    +:+ Text.dq +:+ escape text +:+ Text.dq +:+ "}]}".

Definition body_value (text : string) : value :=
  VDict [("content", VList [VDict [("text", VStr text)]])].

(** A JSON object whose values are strings, but for the boolean
    [is_emergency]. *)
Definition field (k v : string) : string :=
  Text.quoted k +:+ ": " +:+ Text.quoted v.

Definition assessment_text (emergency : bool) (severity : string) : string :=
  "{" +:+ Text.quoted "is_emergency" +:+ ": "
    +:+ (if emergency then "true" else "false") +:+ ", "
    +:+ field "severity" severity +:+ ", "
    +:+ Text.quoted "recommended_actions" +:+ ": ["
    +:+ Text.quoted "Evacuate" +:+ "], "
    +:+ field "reasoning" "Fire reported" +:+ "}".

Definition assessment_value (emergency : bool) (severity : string) : value :=
  VDict [("is_emergency", VBool emergency);
         ("severity", VStr severity);
         ("recommended_actions", VList [VStr "Evacuate"]);
         ("reasoning", VStr "Fire reported")].

Definition create_text : string :=
  "{" +:+ field "action" "create_ticket" +:+ ", "
    +:+ field "subject" "Printer" +:+ "}".

Definition create_value : value :=
  VDict [("action", VStr "create_ticket"); ("subject", VStr "Printer")].

Definition cancel_text : string :=
  "{" +:+ field "action" "cancel_ticket" +:+ ", "
    +:+ field "ticket_id" "t-1" +:+ "}".

Definition cancel_value : value :=
  VDict [("action", VStr "cancel_ticket"); ("ticket_id", VStr "t-1")].

(** A chunk of the supervisor's reply. *)
Definition chunk_text (content : string) : string :=
  "{" +:+ Text.quoted "content" +:+ ": "
    +:+ Text.dq +:+ escape content +:+ Text.dq +:+ "}".

Definition chunk_value (content : string) : value :=
  VDict [("content", VStr content)].

Definition agent_text (agent : string) : string :=
  "{" +:+ Text.quoted "agent" +:+ ": " +:+ Text.quoted agent +:+ "}".

Definition agent_value (agent : string) : value :=
  VDict [("agent", VStr agent)].

(** The reply of a guardrail that blocks, with one topic. *)
Definition blocking_text : string :=
  "{" +:+ Text.quoted "assessment" +:+ ": {" +:+ Text.quoted "topicPolicy"
    +:+ ": {" +:+ Text.quoted "blocked" +:+ ": true, "
    +:+ Text.quoted "topics" +:+ ": [" +:+ Text.quoted "violence"
    +:+ "]}}}".

Definition blocking_value : value :=
  VDict [("assessment",
          VDict [("topicPolicy",
                  VDict [("blocked", VBool true);
                         ("topics", VList [VStr "violence"])])])].

(** The JSON texts the samples use, with the value [json.loads] gives for
    each. *)
Definition known : list (string * value) :=
  [(assessment_text true "critical", assessment_value true "critical");
   (body_of (assessment_text true "critical"),
     body_value (assessment_text true "critical"));
   (assessment_text true "low", assessment_value true "low");
   (body_of (assessment_text true "low"),
     body_value (assessment_text true "low"));
   (assessment_text false "low", assessment_value false "low");
   (body_of (assessment_text false "low"),
     body_value (assessment_text false "low"));
   (create_text, create_value);
   (body_of create_text, body_value create_text);
   (cancel_text, cancel_value);
   (body_of cancel_text, body_value cancel_text);
   (body_of "It is 30 days.", body_value "It is 30 days.");
   (chunk_text "Please create a ticket for this",
     chunk_value "Please create a ticket for this");
   (chunk_text "Hello, how can I assist?",
     chunk_value "Hello, how can I assist?");
   (chunk_text "This is an FAQ question", chunk_value "This is an FAQ question");
   (chunk_text (agent_text "faq"), chunk_value (agent_text "faq"));
   (agent_text "faq", agent_value "faq");
   (blocking_text, blocking_value)].

Fixpoint lookup_text (s : string) (table : list (string * value))
    : option value :=
  match table with
  | [] => None
  | (k, v) :: table' => if String.eqb k s then Some v else lookup_text s table'
  end.

(** [json.loads] on the known texts; every other text the samples meet is
    not JSON. *)
Definition loads (s : string) : value + string :=
  match lookup_text s known with
  | Some v => inl v
  | None => inr "Expecting value: line 1 column 1 (char 0)"
  end.

Definition lib : pylib :=
  PyLib loads (fun _ => "<json>") (fun _ => "<repr>").

(** What each collaborator answers, whatever the state of the world. *)
Record script : Type := Script {
  on_model : prompt -> result string;
  on_publish : result unit;
  on_agent : result agent_reply;
  on_list : result (option (list string));
  on_get : string -> result string;
  on_put : result unit;
  on_get_item : result (option value);
  on_update : result unit;
  on_guardrail : direction -> result string
}.

(** The world counts the calls. *)
Definition collab (s : script) : collaborators nat :=
  {| invoke_model := fun p n => (on_model s p, S n);
     publish := fun _ _ _ n => (on_publish s, S n);
     invoke_agent_runtime := fun _ n => (on_agent s, S n);
     list_objects_v2 := fun _ _ n => (on_list s, S n);
     get_object := fun _ key n => (on_get s key, S n);
     put_item := fun _ n => (on_put s, S n);
     get_item := fun _ n => (on_get_item s, S n);
     update_item := fun _ n => (on_update s, S n);
     apply_guardrail := fun _ _ d _ n => (on_guardrail s d, S n);
     utcnow := fun n => ("2024-05-01T12:00:00", n);
     uuid4 := fun n => ("3f2b8c1e-0000-4000-8000-000000000001", n) |}.

Definition start : world nat := World 0%nat [].

Definition boom : exn := Exn OtherException "connection reset".

(** A quiet world: the model evaluates everything as a critical emergency,
    the stores are empty and nothing fails. *)
Definition quiet : script :=
  {| on_model := fun _ => Ok (body_of (assessment_text true "critical"));
     on_publish := Ok tt;
     on_agent := Ok (AgentReply [] None);
     on_list := Ok None;
     on_get := fun _ => Ok "";
     on_put := Ok tt;
     on_get_item := Ok None;
     on_update := Ok tt;
     on_guardrail := fun _ => Ok "{}" |}.

Definition with_model (f : prompt -> result string) (s : script) : script :=
  {| on_model := f; on_publish := on_publish s; on_agent := on_agent s;
     on_list := on_list s; on_get := on_get s; on_put := on_put s;
     on_get_item := on_get_item s; on_update := on_update s;
     on_guardrail := on_guardrail s |}.

Definition with_agent (r : result agent_reply) (s : script) : script :=
  {| on_model := on_model s; on_publish := on_publish s; on_agent := r;
     on_list := on_list s; on_get := on_get s; on_put := on_put s;
     on_get_item := on_get_item s; on_update := on_update s;
     on_guardrail := on_guardrail s |}.

Definition with_store (keys : list string) (body : string -> result string)
    (s : script) : script :=
  {| on_model := on_model s; on_publish := on_publish s;
     on_agent := on_agent s; on_list := Ok (Some keys); on_get := body;
     on_put := on_put s; on_get_item := on_get_item s;
     on_update := on_update s; on_guardrail := on_guardrail s |}.

Definition with_update (r : result unit) (s : script) : script :=
  {| on_model := on_model s; on_publish := on_publish s;
     on_agent := on_agent s; on_list := on_list s; on_get := on_get s;
     on_put := on_put s; on_get_item := on_get_item s; on_update := r;
     on_guardrail := on_guardrail s |}.

Definition with_guardrail (f : direction -> result string) (s : script)
    : script :=
  {| on_model := on_model s; on_publish := on_publish s;
     on_agent := on_agent s; on_list := on_list s; on_get := on_get s;
     on_put := on_put s; on_get_item := on_get_item s;
     on_update := on_update s; on_guardrail := f |}.

Definition topic : EmergencyAgent.config :=
  EmergencyAgent.Config (Some "arn:aws:sns:us-east-1:1:alerts").

Definition no_topic : EmergencyAgent.config := EmergencyAgent.Config None.

Definition system (em : EmergencyAgent.config) : MultiAgentSystem.config :=
  MultiAgentSystem.Config
    (SupervisorAgentClient.Config (Some "AGENT1") (Some "ALIAS1"))
    (FAQAgent.Config (Some "kb-bucket") "knowledge_base/")
    em.

Definition guarded : GuardrailsManager.config :=
  GuardrailsManager.Config (Some "gr-1") (Some "1").

Definition unguarded : GuardrailsManager.config :=
  GuardrailsManager.Config None None.

(** A small knowledge base. *)
Definition kb_keys : list string :=
  ["knowledge_base/returns.txt"; "knowledge_base/logo.png";
   "knowledge_base/shipping.md"; "knowledge_base/policy.json";
   "knowledge_base/hours.txt"].

Definition kb_body (key : string) : string :=
  if String.eqb key "knowledge_base/returns.txt"
  then "Our return policy lasts 30 days"
  else if String.eqb key "knowledge_base/logo.png"
  then "return policy picture"
  else if String.eqb key "knowledge_base/shipping.md"
  then "Shipping takes 5 days"
  else if String.eqb key "knowledge_base/policy.json"
  then "What is the privacy policy"
  else "Opening hours: return tomorrow".

Definition kb : script :=
  with_model (fun _ => Ok (body_of "It is 30 days."))
    (with_store kb_keys (fun key => Ok (kb_body key)) quiet).

Definition faq : FAQAgent.config :=
  FAQAgent.Config (Some "kb-bucket") "knowledge_base/".

(** The supervisor answers with one chunk of text. *)
Definition supervisor_says (content : string) (s : script) : script :=
  with_agent (Ok (AgentReply [Some (chunk_text content)]
                    (Some (VStr "session-7")))) s.

(** The supervisor sends the request to ticketing, and the intent model
    reads it as the creation of a ticket. *)
Definition ticket_creation : script :=
  supervisor_says "Please create a ticket for this"
    (with_model (fun _ => Ok (body_of create_text)) quiet).

(** The supervisor answers by itself. *)
Definition small_talk : script :=
  supervisor_says "Hello, how can I assist?" quiet.

Definition secure (g : GuardrailsManager.config)
    : SecureMultiAgentSystem.config :=
  SecureMultiAgentSystem.Config (system topic) g.

(** The filter blocks everything. *)
Definition blocking : script :=
  with_guardrail (fun _ => Ok blocking_text) quiet.

(** The filter is down. *)
Definition filter_down : script :=
  with_guardrail (fun _ => Raised boom) quiet.

(** The model is down. *)
Definition model_down : script :=
  with_model (fun _ => Raised boom) quiet.

End Sample.

(** ** Vocabulary of the statements *)

(** A call of the model, whatever the prompt. *)
Definition is_model_call (ev : event) : bool :=
  match ev with InvokeModel _ => true | _ => false end.

Definition is_publish (ev : event) : bool :=
  match ev with Publish _ _ _ => true | _ => false end.

Definition is_guardrail_call (ev : event) : bool :=
  match ev with ApplyGuardrail _ _ _ _ => true | _ => false end.

Definition is_store_read (ev : event) : bool :=
  match ev with ListObjects _ _ | GetObject _ _ => true | _ => false end.

Module EmergencySpec.
Section WithWorld.
Context {E : Type} (C : collaborators E) (L : pylib).

(** What the try block of [evaluate_emergency] finds in world [w]: an
    exception of the model call, of reading its reply or of parsing the
    JSON in it; or no JSON object at all; or an evaluation. *)
Inductive finding : Type :=
| Fails (e : exn)
| NoObject
| Evaluation (d : dict).

Definition find (message : string) (w : world E) : finding :=
  match invoke_model C (EmergencyPrompt message) (env w) with
  | (Raised e, _) => Fails e
  | (Ok body, _) =>
      match Json.reply_text L body "{}" with
      | Raised e => Fails e
      | Ok content_v =>
          match Py.as_str "find" content_v with
          | Raised e => Fails e
          | Ok content =>
              match Json.brace_slice content with
              | None => NoObject
              | Some json_str =>
                  match Json.loads L json_str with
                  | Raised e => Fails e
                  | Ok evaluation_v =>
                      match Json.as_dict evaluation_v with
                      | Raised e => Fails e
                      | Ok d => Evaluation d
                      end
                  end
              end
          end
      end
  end.

(** The evaluator answers "an emergency of high or critical severity". *)
Definition escalates (d : dict) : bool :=
  EmergencyAgent.is_emergency d && EmergencyAgent.severity_is_high d.

End WithWorld.
End EmergencySpec.

Module RouterSpec.
Section WithWorld.
Context {E : Type} (C : collaborators E) (L : pylib)
        (cfg : MultiAgentSystem.config).

(** Publish is invoked exactly once for the request, whenever the evaluator
    answers an emergency of high or critical severity on its input. *)
Definition publishes_once (user_input : string)
    (session_id : option string) (w : world E) : Prop :=
  (exists d, EmergencySpec.find C L user_input w = EmergencySpec.Evaluation d
             /\ EmergencySpec.escalates d = true) ->
  length (filter is_publish
            (calls_of (MultiAgentSystem.process_request C L cfg
                         user_input session_id) w)) = 1%nat.

End WithWorld.
End RouterSpec.

Module GuardrailSpec.
Section WithWorld.
Context {E : Type} (C : collaborators E) (cfg : GuardrailsManager.config).

(** An identifier of the filter policy is absent. *)
Definition absent : Prop :=
  SupervisorAgentClient.present (GuardrailsManager.guardrail_id cfg) = None
  \/ SupervisorAgentClient.present (GuardrailsManager.guardrail_version cfg)
     = None.

(** The filter collaborator throws on [text] in world [w]. *)
Definition throws (d : direction) (text : value) (w : world E) : Prop :=
  match SupervisorAgentClient.present (GuardrailsManager.guardrail_id cfg),
        SupervisorAgentClient.present (GuardrailsManager.guardrail_version cfg)
  with
  | Some gid, Some version =>
      exists e, fst (apply_guardrail C gid version d text (env w)) = Raised e
  | _, _ => False
  end.

End WithWorld.
End GuardrailSpec.

(** The loop of [retrieve_relevant_documents] over a store that does not
    change, as functions of the listing: what it keeps and what it
    fetches. *)
Module FAQLoop.

(** [overlap] of the terms of the query and of a document. *)
Definition relevance_of (query text : string) : nat :=
  FAQAgent.overlap (FAQAgent.terms query) (FAQAgent.terms text).

(** The entry appended for [key], if any. *)
Definition candidate (query : string) (body : string -> string)
    (key : string) : option FAQAgent.doc :=
  if FAQAgent.supported key && (0 <? relevance_of query (body key))%nat
  then Some (FAQAgent.Doc (body key) key (relevance_of query (body key)))
  else None.

(** The entries appended for a listing when the loop runs to its end. *)
Definition candidates (query : string) (body : string -> string)
    (keys : list string) : list FAQAgent.doc :=
  omap (candidate query body) keys.

(** The keys the loop fetches when it already holds [count] documents and
    stops at [n]. *)
Fixpoint fetched (query : string) (body : string -> string) (n : nat)
    (keys : list string) (count : nat) : list string :=
  match keys with
  | [] => []
  | key :: rest =>
      if (n <=? count)%nat then []
      else if FAQAgent.supported key then
        key :: fetched query body n rest
                 (if (0 <? relevance_of query (body key))%nat
                  then S count else count)
      else fetched query body n rest count
  end.

End FAQLoop.

Module FAQSpec.

(** The characters [w] are a word of the characters [l]: a run that is not
    empty and holds no whitespace, with whitespace or an end of the text
    on either side. *)
Definition word_in (l w : list ascii) : Prop :=
  exists before after,
    l = before ++ w ++ after
    /\ w <> []
    /\ Forall (fun c => Text.is_space c = false) w
    /\ match last before with
       | Some c => Text.is_space c = true
       | None => True
       end
    /\ match head after with
       | Some c => Text.is_space c = true
       | None => True
       end.

(** [t] is one of the whitespace-separated terms of [s]. *)
Definition word_of (t s : string) : Prop :=
  word_in (list_ascii_of_string s) (list_ascii_of_string t).

(** [r] is the size of the intersection of the set of terms of the
    lowercased query and the set of terms of the lowercased text. *)
Definition relevance_is (query text : string) (r : nat) : Prop :=
  exists shared : list string,
    NoDup shared
    /\ (forall t, t ∈ shared <->
          word_of t (Text.lower query) /\ word_of t (Text.lower text))
    /\ length shared = r.

(** The key ends in .txt, .md or .json. *)
Definition has_extension (key : string) : Prop :=
  exists stem extension,
    key = stem +:+ extension /\ In extension [".txt"; ".md"; ".json"].

(** [d] is the entry kept for [key]: the key has one of the extensions and
    the relevance of its document is positive. *)
Definition kept_as (query : string) (body : string -> string)
    (key : string) (d : FAQAgent.doc) : Prop :=
  has_extension key
  /\ FAQAgent.source d = key
  /\ FAQAgent.content d = body key
  /\ relevance_is query (body key) (FAQAgent.relevance d)
  /\ (0 < FAQAgent.relevance d)%nat.

(** Nothing is kept for [key]. *)
Definition skipped (query : string) (body : string -> string)
    (key : string) : Prop :=
  ~ has_extension key \/ relevance_is query (body key) 0.

(** The entries kept for a listing, in listing order. *)
Inductive candidates_are (query : string) (body : string -> string)
    : list string -> list FAQAgent.doc -> Prop :=
| candidates_nil : candidates_are query body [] []
| candidates_skip key keys docs :
    skipped query body key ->
    candidates_are query body keys docs ->
    candidates_are query body (key :: keys) docs
| candidates_keep key keys d docs :
    kept_as query body key d ->
    candidates_are query body keys docs ->
    candidates_are query body (key :: keys) (d :: docs).

(** The keys of a listing that have one of the extensions, in listing
    order. *)
Inductive with_extension : list string -> list string -> Prop :=
| extension_nil : with_extension [] []
| extension_skip key keys kept :
    ~ has_extension key ->
    with_extension keys kept -> with_extension (key :: keys) kept
| extension_keep key keys kept :
    has_extension key ->
    with_extension keys kept -> with_extension (key :: keys) (key :: kept).

(** Descending relevance. *)
Definition more_relevant (a b : FAQAgent.doc) : Prop :=
  (FAQAgent.relevance b <= FAQAgent.relevance a)%nat.

(** The documents of relevance [r], in the order of the list. *)
Definition of_relevance (r : nat) (l : list FAQAgent.doc)
    : list FAQAgent.doc :=
  List.filter (fun d => (FAQAgent.relevance d =? r)%nat) l.

Section WithWorld.
Context {E : Type} (C : collaborators E) (cfg : FAQAgent.config).

(** A fixed store: the listing is [keys] and the object under [key] reads
    [body key], in every state of the world. *)
Definition fixed_store (keys : list string) (body : string -> string)
    : Prop :=
  (forall e,
     fst (list_objects_v2 C (FAQAgent.s3_bucket cfg) (FAQAgent.s3_prefix cfg) e)
     = Ok (Some keys))
  /\ (forall key e,
        fst (get_object C (FAQAgent.s3_bucket cfg) key e) = Ok (body key)).

End WithWorld.
End FAQSpec.

Module TicketSpec.
Section WithWorld.
Context {E : Type} (C : collaborators E).

(** What the store answers to the update that [cancel_ticket] sends from
    world [w]. *)
Definition update_answer (ticket_id reason : value) (w : world E)
    : result unit :=
  let timestamp := fst (utcnow C (env w)) in
  fst (update_item C
         (TicketingAgent.cancel_request ticket_id reason timestamp)
         (snd (utcnow C (env w)))).

(** Cancel returns false exactly when the store update fails, and true
    otherwise. *)
Definition answers_by_bool (ticket_id reason : value) (w : world E)
    : Prop :=
  fst (TicketingAgent.cancel_ticket C ticket_id reason w)
  = Ok (match update_answer ticket_id reason w with
        | Ok _ => true
        | Raised _ => false
        end).

End WithWorld.
End TicketSpec.

Module RoutingSpec.

(** [part] occurs somewhere in [text]. *)
Definition occurs (part text : string) : Prop :=
  exists before after, text = before +:+ part +:+ after.

(** The marker of a structured decision, nine characters: an opening
    brace, the word agent between double quotes, a colon. *)
Definition marker : string :=
  "{" +:+ Text.dq +:+ "agent" +:+ Text.dq +:+ ":".

(** The part of [content] that runs from its first opening brace to its
    last closing brace. *)
Definition object_text (content json_str : string) : Prop :=
  exists before inner after,
    content = before +:+ json_str +:+ after
    /\ json_str = "{" +:+ inner +:+ "}"
    /\ ~ occurs "{" before
    /\ ~ occurs "}" after.

(** The text of a fragment: the string it holds under 'content', the empty
    string when it has no such key. *)
Definition text_of (message : value) (content : string) : Prop :=
  exists d,
    message = VDict d
    /\ (Dict.get "content" d = Some (VStr content)
        \/ Dict.get "content" d = None /\ content = "").

(** The keywords of the three groups. *)
Definition ticketing_words : list string :=
  ["ticket"; "create ticket"; "cancel ticket"].
Definition faq_words : list string :=
  ["question"; "faq"; "knowledge base"].
Definition emergency_words : list string := ["emergency"; "urgent"].

(** One of [words] occurs in the lowercased text. *)
Definition mentions (words : list string) (content : string) : Prop :=
  exists word, In word words /\ occurs word (Text.lower content).

(** The agent the keywords of a text name, if any: the ticketing group is
    looked for first, then the FAQ group, then the emergency group. *)
Inductive signal (content : string) : option string -> Prop :=
| signal_ticketing :
    mentions ticketing_words content -> signal content (Some "ticketing")
| signal_faq :
    ~ mentions ticketing_words content ->
    mentions faq_words content -> signal content (Some "faq")
| signal_emergency :
    ~ mentions ticketing_words content ->
    ~ mentions faq_words content ->
    mentions emergency_words content -> signal content (Some "emergency")
| signal_none :
    ~ mentions ticketing_words content ->
    ~ mentions faq_words content ->
    ~ mentions emergency_words content -> signal content None.

(** The agent the keywords of a fragment name, if any. *)
Definition names (message : value) (agent : option string) : Prop :=
  exists content, text_of message content /\ signal content agent.

(** The agent named by the last fragment that names one, and [fallback]
    when no fragment names one. *)
Definition last_named (messages : list value) (fallback agent : string)
    : Prop :=
  (exists before m after,
     messages = before ++ m :: after
     /\ names m (Some agent)
     /\ Forall (fun m' => names m' None) after)
  \/ (agent = fallback /\ Forall (fun m => names m None) messages).

(** The text of the first fragment, the empty string without fragments. *)
Definition first_text (messages : list value) (text : string) : Prop :=
  match messages with
  | m :: _ => text_of m text
  | [] => text = ""
  end.

(** The input holds none of the emergency keywords of the router. *)
Definition calm (user_input : string) : Prop :=
  ~ mentions ["emergency"; "accident"; "injury"; "fire"; "urgent"; "help";
              "danger"] user_input.

Section WithLib.
Context (L : pylib).

(** The text holds a JSON object with a key 'agent': its part from the
    first opening brace to the last closing brace parses to the object
    [d], which has that key. *)
Definition holds_object (content : string) (d : dict) : Prop :=
  exists json_str,
    object_text content json_str
    /\ json_loads L json_str = inl (VDict d)
    /\ Dict.get "agent" d <> None.

(** The text holds a structured decision that is recognised: it holds the
    marker, and a JSON object with a key 'agent'. *)
Definition decides (content : string) (d : dict) : Prop :=
  occurs marker content /\ holds_object content d.

(** The text holds no structured decision that is recognised: the marker
    is not in it, or it has no opening brace followed by a closing one, or
    the part between them is not JSON ([JSONDecodeError]), or it is an
    object without a key 'agent'. *)
Definition undecided (content : string) : Prop :=
  ~ occurs marker content
  \/ (forall json_str, ~ object_text content json_str)
  \/ exists json_str,
       object_text content json_str
       /\ ((exists msg, json_loads L json_str = inr msg)
           \/ exists d, json_loads L json_str = inl (VDict d)
                        /\ Dict.get "agent" d = None).

(** A fragment with a text and no recognised structured decision. *)
Definition plain (message : value) : Prop :=
  exists content, text_of message content /\ undecided content.

(** The claim as worded, on the first fragment: a JSON object with a key
    'agent' in it is the decision. *)
Definition object_wins (supervisor_response : dict) : Prop :=
  forall m rest content d,
    Dict.get_or "messages" (VList []) supervisor_response
    = VList (m :: rest) ->
    text_of m content ->
    holds_object content d ->
    MultiAgentSystem._extract_routing_decision L supervisor_response
    = Ok (VDict d).

End WithLib.

(** The claim as worded, on the passthrough: the response is the
    supervisor's own reply text, that is the texts of its fragments one
    after the other. *)
Definition passes_reply (supervisor_response answer : dict) : Prop :=
  forall messages texts,
    Dict.get_or "messages" (VList []) supervisor_response = VList messages ->
    Forall2 text_of messages texts ->
    Dict.get "response" answer = Some (VStr (String.concat "" texts)).

End RoutingSpec.

(** ** More vocabulary: kinds of calls *)

Definition is_put (ev : event) : bool :=
  match ev with PutItem _ => true | _ => false end.

Definition is_table_call (ev : event) : bool :=
  match ev with PutItem _ | GetItem _ | UpdateItem _ => true | _ => false end.

Definition is_agent_call (ev : event) : bool :=
  match ev with InvokeAgent _ => true | _ => false end.

(** A computation all of whose calls satisfy [P]. *)
Definition emits {E A} (P : event -> bool) (m : M E A) : Prop :=
  forall w, exists l,
    trace (snd (m w)) = trace w ++ l /\ Forall (fun ev => P ev = true) l.

(** ** More scripted replies *)

Module MoreSamples.

Definition status_text : string :=
  "{" +:+ Sample.field "action" "get_ticket_status" +:+ "}".

Definition status_value : value :=
  VDict [("action", VStr "get_ticket_status")].

Definition chat_text : string := "Sorry, I did not understand that.".

Definition known : list (string * value) :=
  Sample.known ++
  [(status_text, status_value);
   (Sample.body_of status_text, Sample.body_value status_text);
   (Sample.body_of chat_text, Sample.body_value chat_text);
   ("{}", VDict [])].

Definition loads (s : string) : value + string :=
  match Sample.lookup_text s known with
  | Some v => inl v
  | None => inr "Expecting value: line 1 column 1 (char 0)"
  end.

Definition lib : pylib :=
  PyLib loads (fun _ => "<json>") (fun _ => "<repr>").

(** The intent model asks for a status without naming a ticket. *)
Definition status_without_id : Sample.script :=
  Sample.with_model (fun _ => Ok (Sample.body_of status_text)) Sample.quiet.

(** The intent model answers in prose. *)
Definition prose : Sample.script :=
  Sample.with_model (fun _ => Ok (Sample.body_of chat_text)) Sample.quiet.

(** The intent model reads the request as the creation of a ticket. *)
Definition creation : Sample.script :=
  Sample.with_model (fun _ => Ok (Sample.body_of Sample.create_text))
    Sample.quiet.

(** A routing decision that does not begin with the key 'agent'. *)
Definition late_agent_text : string :=
  "{" +:+ Sample.field "reason" "cancel ticket" +:+ ", "
    +:+ Sample.field "agent" "faq" +:+ "}".

Definition late_agent_value : value :=
  VDict [("reason", VStr "cancel ticket"); ("agent", VStr "faq")].

Definition routing_known : list (string * value) :=
  known ++
  [(late_agent_text, late_agent_value);
   (Sample.chunk_text late_agent_text, Sample.chunk_value late_agent_text);
   (Sample.chunk_text "Hello.", Sample.chunk_value "Hello.");
   (Sample.chunk_text " How can I help?",
     Sample.chunk_value " How can I help?")].

Definition routing_loads (s : string) : value + string :=
  match Sample.lookup_text s routing_known with
  | Some v => inl v
  | None => inr "Expecting value: line 1 column 1 (char 0)"
  end.

Definition routing_lib : pylib :=
  PyLib routing_loads (fun _ => "<json>") (fun _ => "<repr>").

(** The supervisor answers in two fragments. *)
Definition two_fragments : Sample.script :=
  Sample.with_agent
    (Ok (AgentReply [Some (Sample.chunk_text "Hello.");
                     Some (Sample.chunk_text " How can I help?")]
           (Some (VStr "session-7"))))
    Sample.quiet.

Definition tab : string := String (ascii_of_nat 9) EmptyString.

(** A document store: one key without a supported extension, one document
    that shares no term with the sample query, and text in upper case and
    with tabs and line ends. *)
Definition store_keys : list string :=
  ["docs/refunds.txt"; "docs/banner.PNG"; "docs/terms.md";
   "docs/shipping.json"; "docs/faq.txt"; "docs/more.md"].

Definition store_body (key : string) : string :=
  if String.eqb key "docs/refunds.txt" then "Refund policy"
  else if String.eqb key "docs/banner.PNG" then "refund policy days"
  else if String.eqb key "docs/terms.md"
  then "REFUND" +:+ tab +:+ "within 30 days" +:+ FAQAgent.newline
         +:+ "policy applies"
  else if String.eqb key "docs/shipping.json" then "Shipping only"
  else if String.eqb key "docs/faq.txt" then "Policy on refund and more"
  else "refund refund policy days".

Definition store : Sample.script :=
  Sample.with_store store_keys (fun key => Ok (store_body key)) Sample.quiet.

Definition store_query : string := "refund  policy DAYS".


(** Replies of the supervisor, as [invoke_agent] returns them. *)
Definition reply_of (contents : list string) : dict :=
  [("messages", VList (map Sample.chunk_value contents));
   ("sessionId", VStr "session-7")].

(** The ticket table cannot be reached: the update fails before the
    service answers, with an error that is not a [ClientError]. *)
Definition table_unreachable : Sample.script :=
  Sample.with_update (Raised Sample.boom) Sample.quiet.

Definition throttled : exn :=
  Exn ClientError
    "An error occurred (ProvisionedThroughputExceededException) when calling the UpdateItem operation: rate exceeded".

(** The table refuses the update with a [ClientError]. *)
Definition table_refuses : Sample.script :=
  Sample.with_update (Raised throttled) Sample.quiet.

End MoreSamples.

Module EmergencyShapes.

(** The response of [handle_emergency_request] to an evaluation. *)
Definition response_to (evaluation : dict) : dict :=
  if EmergencyAgent.is_emergency evaluation then
    if EmergencyAgent.severity_is_high evaluation then
      [("status", VStr "emergency_escalated");
       ("message", VStr "This situation has been identified as a serious emergency and has been escalated to the appropriate team. Please follow these immediate actions:");
       ("actions", Dict.get_or "recommended_actions" (VList []) evaluation);
       ("severity", Dict.get_or "severity" VNone evaluation)]
    else
      [("status", VStr "emergency_identified");
       ("message", VStr "This situation has been identified as a potential emergency. Please consider these recommended actions:");
       ("actions", Dict.get_or "recommended_actions" (VList []) evaluation);
       ("severity", Dict.get_or "severity" VNone evaluation)]
  else
    [("status", VStr "not_emergency");
     ("message", VStr "This situation has not been identified as an emergency.");
     ("reasoning", Dict.get_or "reasoning" (VStr "") evaluation);
     ("severity", Dict.get_or "severity" (VStr "low") evaluation)].

(** The response to an evaluation that could not be made. *)
Definition not_evaluated (reasoning : string) : dict :=
  [("status", VStr "not_emergency");
   ("message", VStr "This situation has not been identified as an emergency.");
   ("reasoning", VStr reasoning);
   ("severity", VStr "unknown")].

End EmergencyShapes.

Module GateShapes.

(** The response has one of the fields [message], [answer], [response]. *)
Definition has_text (response : dict) : bool :=
  Dict.mem "message" response || Dict.mem "answer" response
  || Dict.mem "response" response.

(** The field the gate reads and writes: the first present of [message],
    [answer], [response], else the new field [filtered_response]. *)
Definition text_field (response : dict) : string :=
  if Dict.mem "message" response then "message"
  else if Dict.mem "answer" response then "answer"
  else if Dict.mem "response" response then "response"
  else "filtered_response".

End GateShapes.

(** ** app.py *)

Module App.

(** [json.loads(x)] for a value [x]: only a string can be parsed. *)
Definition loads_value (L : pylib) (x : value) : result value :=
  match x with
  | VStr s => Json.loads L s
  | _ => Raised (Exn TypeError
                   ("the JSON object must be str, bytes or bytearray, not "
                      +:+ Py.type_name x))
  end.

Section WithWorld.
Context {E : Type} (C : collaborators E) (L : pylib).

(** [process_request] only formats [user_input] into the prompt, so a value
    that is not a string enters as [str(user_input)]. *)
Definition lambda_handler (event : dict) : M E dict :=
  body <- lift (loads_value L (Dict.get_or "body" (VStr "{}") event)) ;;
  user_input <- lift (Py.get body "input" (VStr "")) ;;
  if negb (truthy user_input) then
    ret [("statusCode", VInt 400);
         ("body",
          VStr (json_dumps L (VDict [("error", VStr "No input provided")])))]
  else
    result <- BedrockTicketingAgent.process_request C L (Json.str L user_input) ;;
    ret [("statusCode", VInt 200);
         ("body", VStr (json_dumps L (VDict result)))].

End WithWorld.
End App.

(** ** A table behind the ticketing collaborators *)

Module Dynamo.

(** The state of the world: the table, and a counter that drives the clock
    and the source of identifiers. *)
Record state : Type := State { table : Table.table; tick : nat }.

Definition validation : exn :=
  Exn ClientError "ValidationException".

Definition unavailable {A} (s : state) : result A * state :=
  (Raised (Exn OtherException "not available"), s).

Section WithClock.
Context (time_at id_at : nat -> string).

(** [put_item]: the item replaces what the table holds under its key. *)
Definition put (item : dict) (s : state) : result unit * state :=
  match Dict.get "ticket_id" item with
  | Some (VStr k) =>
      (Ok tt, State (<[k := list_to_map item]> (table s)) (tick s))
  | _ => (Raised validation, s)
  end.

(** [get_item]: the item under the key, if any. *)
Definition get (key : value) (s : state) : result (option value) * state :=
  match key with
  | VStr k => (Ok (VDict <$> (map_to_list <$> table s !! k)), s)
  | _ => (Raised validation, s)
  end.

Definition update (r : update_request) (s : state) : result unit * state :=
  match Table.update r (table s) with
  | Some t => (Ok tt, State t (tick s))
  | None => (Raised validation, s)
  end.

Definition collab : collaborators state :=
  {| invoke_model := fun _ s => unavailable s;
     publish := fun _ _ _ s => unavailable s;
     invoke_agent_runtime := fun _ s => unavailable s;
     list_objects_v2 := fun _ _ s => unavailable s;
     get_object := fun _ _ s => unavailable s;
     put_item := put;
     get_item := get;
     update_item := update;
     apply_guardrail := fun _ _ _ _ s => unavailable s;
     utcnow := fun s => (time_at (tick s), State (table s) (S (tick s)));
     uuid4 := fun s => (id_at (tick s), State (table s) (S (tick s))) |}.

End WithClock.
End Dynamo.

(** ** The handlers behind the router, by the calls they make *)

Module Handlers.

Inductive handler : Type := Ticketing | Faq | Emergency | Passthrough.



End Handlers.

(** * Properties *)

(** Running the monad by hand. *)
Ltac run :=
  unfold bind, try_except, call, ask, lift, ret, raise, any_exception;
  cbn [fst snd env trace].

Example terms_example :
  FAQAgent.overlap (FAQAgent.terms "What is  your Return policy")
                   (FAQAgent.terms "return POLICY: your money back") = 2%nat.
Proof. vm_compute. reflexivity. Qed.

Example sample_evaluation :
  EmergencyAgent.evaluate_emergency (Sample.collab Sample.quiet) Sample.lib
    Sample.topic "There is a fire" Sample.start
  = (Ok [("is_emergency", VBool true); ("severity", VStr "critical");
         ("recommended_actions", VList [VStr "Evacuate"]);
         ("reasoning", VStr "Fire reported")],
     World 2%nat
       [InvokeModel (EmergencyPrompt "There is a fire");
        Publish "arn:aws:sns:us-east-1:1:alerts"
          "EMERGENCY ALERT - critical severity" "<json>"]).
Proof. vm_compute. reflexivity. Qed.

(** ** Emergency evaluation *)

Module EmergencyFacts.
Section WithWorld.
Context {E : Type} (C : collaborators E) (L : pylib)
        (cfg : EmergencyAgent.config).

Abbreviation evaluate := (EmergencyAgent.evaluate_emergency C L cfg).
Abbreviation escalate := (EmergencyAgent._escalate_emergency C L cfg).
Abbreviation find := (EmergencySpec.find C L).

(** Escalation never raises, and publishes at most once. *)
Lemma escalate_run message evaluation w :
  exists w',
    escalate message evaluation w = (Ok tt, w')
    /\ trace w' = trace w ++
         match EmergencyAgent.configured_topic cfg with
         | Some topic =>
             [Publish topic (EmergencyAgent.alert_subject L evaluation)
                (json_dumps L (EmergencyAgent.notification
                                 (fst (utcnow C (env w))) message evaluation))]
         | None => []
         end.
Proof.
  unfold EmergencyAgent._escalate_emergency.
  destruct (EmergencyAgent.configured_topic cfg) as [topic|].
  - run. destruct (utcnow C (env w)) as [ts e1]. cbn.
    destruct (publish C _ _ _ e1) as [[[]|e] e2]; eexists; split; reflexivity.
  - exists w. split; [reflexivity|]. by rewrite app_nil_r.
Qed.

(** One run of [evaluate_emergency], case by case. *)
Lemma evaluate_run message w :
  exists w',
    evaluate message w =
      (Ok match find message w with
          | EmergencySpec.Fails e =>
              EmergencyAgent.safe_default ("Error: " +:+ exn_str e)
          | EmergencySpec.NoObject =>
              EmergencyAgent.safe_default "Failed to evaluate the situation"
          | EmergencySpec.Evaluation d => d
          end, w')
    /\ exists published,
         trace w' = trace w ++ InvokeModel (EmergencyPrompt message) :: published
         /\ match find message w with
            | EmergencySpec.Evaluation d =>
                if EmergencySpec.escalates d then
                  match EmergencyAgent.configured_topic cfg with
                  | Some topic =>
                      exists body,
                        published =
                          [Publish topic (EmergencyAgent.alert_subject L d) body]
                  | None => published = []
                  end
                else published = []
            | _ => published = []
            end.
Proof.
  unfold EmergencySpec.find, EmergencyAgent.evaluate_emergency. run.
  destruct (invoke_model C _ (env w)) as [[body|e] e1]; cbn;
    [|eexists; split; [reflexivity|]; exists []; split; reflexivity].
  destruct (Json.reply_text L body "{}") as [content_v|e]; cbn;
    [|eexists; split; [reflexivity|]; exists []; split; reflexivity].
  destruct (Py.as_str "find" content_v) as [content|e]; cbn;
    [|eexists; split; [reflexivity|]; exists []; split; reflexivity].
  destruct (Json.brace_slice content) as [json_str|]; cbn;
    [|eexists; split; [reflexivity|]; exists []; split; reflexivity].
  destruct (Json.loads L json_str) as [evaluation_v|e]; cbn;
    [|eexists; split; [reflexivity|]; exists []; split; reflexivity].
  destruct (Json.as_dict evaluation_v) as [d|e]; cbn;
    [|eexists; split; [reflexivity|]; exists []; split; reflexivity].
  unfold EmergencySpec.escalates.
  destruct (EmergencyAgent.is_emergency d && EmergencyAgent.severity_is_high d).
  - match goal with
    | |- context [escalate message d ?w0] =>
        destruct (escalate_run message d w0) as (w1 & Hrun & Htr)
    end.
    rewrite Hrun. cbn. exists w1. split; [reflexivity|].
    cbn in Htr. rewrite Htr, <- app_assoc. cbn.
    destruct (EmergencyAgent.configured_topic cfg) as [topic|];
      eexists; split; try reflexivity. eexists; reflexivity.
  - cbn. eexists; split; [reflexivity|]. exists []; split; reflexivity.
Qed.

End WithWorld.
End EmergencyFacts.

(** ** Text and trace lemmas *)

Lemma append_cons (x : ascii) (a b : string) :
  String x a +:+ b = String x (a +:+ b).
Proof. reflexivity. Qed.

Lemma append_assoc (a b c : string) : (a +:+ b) +:+ c = a +:+ (b +:+ c).
Proof.
  induction a as [|x a IH]; [reflexivity|].
  rewrite !append_cons. f_equal. exact IH.
Qed.

Lemma prefix_append (a b : string) : String.prefix a (a +:+ b) = true.
Proof.
  induction a as [|c a IH].
  - by destruct b.
  - rewrite append_cons. simpl.
    destruct (ascii_dec c c) as [_|Hne]; [exact IH | by destruct Hne].
Qed.

Lemma contains_append (a b : string) : Text.contains a (a +:+ b) = true.
Proof.
  assert (Hstep : forall h, String.prefix a h = true -> Text.contains a h = true).
  { intros h Hp. destruct h; cbn [Text.contains]; rewrite Hp; reflexivity. }
  apply Hstep, prefix_append.
Qed.

Lemma calls_of_trace {E A} (m : M E A) (w : world E) (l : list event) :
  trace (snd (m w)) = trace w ++ l -> calls_of m w = l.
Proof. unfold calls_of. intros ->. by rewrite drop_app_length. Qed.

Module EmergencyClaims.
Section WithWorld.
Context {E : Type} (C : collaborators E) (L : pylib)
        (cfg : EmergencyAgent.config).

Abbreviation evaluate := (EmergencyAgent.evaluate_emergency C L cfg).
Abbreviation find := (EmergencySpec.find C L).

(** C5. Whatever the model call or the parsing of its reply raises,
    [evaluate_emergency] returns: it never propagates an exception, and on
    an exception [e] it answers the safe default, not an emergency, of
    unknown severity, without actions, with the text of [e] in
    [reasoning]. *)
Theorem evaluate_emergency_safe_default (message : string) (w : world E) :
  returns (fst (evaluate message w))
  /\ forall e,
       find message w = EmergencySpec.Fails e ->
       fst (evaluate message w)
       = Ok [("is_emergency", VBool false);
             ("severity", VStr "unknown");
             ("recommended_actions", VList []);
             ("reasoning", VStr ("Error: " +:+ exn_str e))].
Proof.
  destruct (EmergencyFacts.evaluate_run C L cfg message w) as (w' & Hrun & _).
  split.
  - rewrite Hrun. eexists; reflexivity.
  - intros e He. rewrite Hrun, He. reflexivity.
Qed.

(** C2, amended. One evaluation whose reply is an emergency of high or
    critical severity calls publish exactly once, after the model call,
    when a topic is configured: on that topic, with a subject containing
    EMERGENCY ALERT. Without a topic it does not publish. *)
Theorem evaluate_emergency_publishes_once (message : string) (w : world E)
    (d : dict) :
  find message w = EmergencySpec.Evaluation d ->
  EmergencySpec.escalates d = true ->
  match EmergencyAgent.configured_topic cfg with
  | Some topic =>
      exists subject body,
        calls_of (evaluate message) w
        = [InvokeModel (EmergencyPrompt message); Publish topic subject body]
        /\ Text.contains "EMERGENCY ALERT" subject = true
  | None =>
      calls_of (evaluate message) w = [InvokeModel (EmergencyPrompt message)]
  end.
Proof.
  intros Hd Hesc.
  destruct (EmergencyFacts.evaluate_run C L cfg message w)
    as (w' & Hrun & published & Htr & Hpub).
  rewrite Hd, Hesc in Hpub.
  assert (Hcalls : calls_of (evaluate message) w
                   = InvokeModel (EmergencyPrompt message) :: published).
  { apply calls_of_trace. rewrite Hrun. exact Htr. }
  destruct (EmergencyAgent.configured_topic cfg) as [topic|].
  - destruct Hpub as [body ->].
    exists (EmergencyAgent.alert_subject L d), body. split; [exact Hcalls|].
    unfold EmergencyAgent.alert_subject.
    change "EMERGENCY ALERT - " with ("EMERGENCY ALERT" +:+ " - ").
    rewrite append_assoc. apply contains_append.
  - by rewrite Hcalls, Hpub.
Qed.

End WithWorld.

Lemma evaluate_emergency_safe_default_witness :
  EmergencySpec.find
    (Sample.collab Sample.model_down)
    Sample.lib "There is a fire" Sample.start
  = EmergencySpec.Fails Sample.boom
  /\ fst (EmergencyAgent.evaluate_emergency
            (Sample.collab Sample.model_down)
            Sample.lib Sample.topic "There is a fire" Sample.start)
     = Ok [("is_emergency", VBool false);
           ("severity", VStr "unknown");
           ("recommended_actions", VList []);
           ("reasoning", VStr "Error: connection reset")].
Proof.
  split; [reflexivity|].
  exact (proj2 (evaluate_emergency_safe_default
                  (Sample.collab Sample.model_down)
                  Sample.lib Sample.topic "There is a fire" Sample.start)
           Sample.boom eq_refl).
Defined.

Lemma evaluate_emergency_publishes_once_witness :
  exists subject body,
    calls_of (EmergencyAgent.evaluate_emergency (Sample.collab Sample.quiet)
                Sample.lib Sample.topic "There is a fire") Sample.start
    = [InvokeModel (EmergencyPrompt "There is a fire");
       Publish "arn:aws:sns:us-east-1:1:alerts" subject body]
    /\ Text.contains "EMERGENCY ALERT" subject = true.
Proof.
  apply (evaluate_emergency_publishes_once (Sample.collab Sample.quiet)
           Sample.lib Sample.topic "There is a fire" Sample.start
           [("is_emergency", VBool true); ("severity", VStr "critical");
            ("recommended_actions", VList [VStr "Evacuate"]);
            ("reasoning", VStr "Fire reported")]);
    vm_compute; reflexivity.
Defined.

(** C2 as stated fails. The input mentions a fire and the evaluator answers
    a critical emergency each time it is asked. With a topic configured,
    the router publishes twice for the one request: once in the evaluation
    of its emergency check and once more in the evaluation that
    [handle_emergency_request] runs again. Without a topic it does not
    publish at all. *)
Lemma router_publishes_once_counterexample :
  ~ RouterSpec.publishes_once (Sample.collab Sample.quiet) Sample.lib
      (Sample.system Sample.topic) "There is a fire" None Sample.start
  /\ ~ RouterSpec.publishes_once (Sample.collab Sample.quiet) Sample.lib
         (Sample.system Sample.no_topic) "There is a fire" None Sample.start.
Proof.
  split; intros H;
    (assert (Hpre : exists d,
               EmergencySpec.find (Sample.collab Sample.quiet) Sample.lib
                 "There is a fire" Sample.start = EmergencySpec.Evaluation d
               /\ EmergencySpec.escalates d = true)
       by (eexists; split; vm_compute; reflexivity));
    specialize (H Hpre); vm_compute in H; discriminate H.
Qed.

End EmergencyClaims.

(** ** The safety gate *)

Module GuardrailFacts.
Section WithWorld.
Context {E : Type} (C : collaborators E) (L : pylib)
        (cfg : GuardrailsManager.config).

(** A pass returns; it calls the filter once when both identifiers are
    there and not at all otherwise; and its result is the pass-through one
    unless the filter answered and its answer could be read. *)
Lemma apply_run (d : direction) (field : string) (text : value) (w : world E) :
  exists r w',
    GuardrailsManager.apply C L cfg d field text w = (Ok r, w')
    /\ match SupervisorAgentClient.present (GuardrailsManager.guardrail_id cfg),
             SupervisorAgentClient.present
               (GuardrailsManager.guardrail_version cfg) with
       | Some gid, Some version =>
           trace w' = trace w ++ [ApplyGuardrail gid version d text]
           /\ match apply_guardrail C gid version d text (env w) with
              | (Ok body, _) =>
                  match Py.bind (Json.loads L body)
                          (GuardrailsManager.read field text) with
                  | Ok r' => r = r'
                  | Raised _ => r = GuardrailsManager.pass_through field text
                  end
              | (Raised _, _) => r = GuardrailsManager.pass_through field text
              end
       | _, _ => w' = w /\ r = GuardrailsManager.pass_through field text
       end.
Proof.
  unfold GuardrailsManager.apply.
  destruct (SupervisorAgentClient.present (GuardrailsManager.guardrail_id cfg))
    as [gid|];
    [destruct (SupervisorAgentClient.present
                 (GuardrailsManager.guardrail_version cfg)) as [version|]|];
    [|by eexists _, _ ..].
  run. destruct (apply_guardrail C gid version d text (env w)) as [[body|e] e1];
    cbn; [|by eexists _, _].
  destruct (Json.loads L body) as [res|e]; cbn; [|by eexists _, _].
  destruct (GuardrailsManager.read field text res) as [r|e]; cbn;
    by eexists _, _.
Qed.

Lemma pass_through_not_blocked (field : string) (text : value) :
  truthy (Dict.get_or "is_blocked" (VBool false)
            (GuardrailsManager.pass_through field text)) = false.
Proof. reflexivity. Qed.

End WithWorld.
End GuardrailFacts.

Module GateClaims.
Section WithWorld.
Context {E : Type} (C : collaborators E) (L : pylib)
        (cfg : SecureMultiAgentSystem.config).

Abbreviation gcfg := (SecureMultiAgentSystem.guardrails_cfg cfg).
Abbreviation process := (SecureMultiAgentSystem.process_request C L cfg).
Abbreviation route := (SecureMultiAgentSystem.route C L cfg).
Abbreviation filter_output := (SecureMultiAgentSystem.filter_output C L cfg).
Abbreviation input_pass := (GuardrailsManager.apply_guardrails C L gcfg).
Abbreviation output_pass :=
  (GuardrailsManager.apply_guardrails_to_output C L gcfg).

(** A pass whose filter is absent or throws lets the text through. *)
Lemma pass_fails_open (d : direction) (field : string) (text : value)
    (w : world E) :
  GuardrailSpec.absent gcfg \/ GuardrailSpec.throws C gcfg d text w ->
  fst (GuardrailsManager.apply C L gcfg d field text w)
  = Ok (GuardrailsManager.pass_through field text).
Proof.
  unfold GuardrailSpec.absent, GuardrailSpec.throws.
  destruct (GuardrailFacts.apply_run C L gcfg d field text w)
    as (r & w' & Hrun & Hcase).
  rewrite Hrun. cbn.
  destruct (SupervisorAgentClient.present (GuardrailsManager.guardrail_id gcfg))
    as [gid|];
    [destruct (SupervisorAgentClient.present
                 (GuardrailsManager.guardrail_version gcfg)) as [version|]|].
  - intros [[?|?]|[e He]]; try discriminate.
    destruct Hcase as [_ Hr].
    destruct (apply_guardrail C gid version d text (env w)) as [[body|e0] e1];
      cbn in He; [discriminate|]. by rewrite Hr.
  - intros _. by destruct Hcase as [_ ->].
  - intros _. by destruct Hcase as [_ ->].
Qed.

(** C3. When the input filter reports blocked, [process_request] answers
    with status blocked_by_guardrails and the reasons the filter reported,
    and the only call it has made is the one to the filter: the router, the
    handlers, the model and the stores are not invoked. *)
Theorem blocked_input_never_routed (user_input : string)
    (session_id : option string) (w w1 : world E) (r : dict) :
  input_pass (VStr user_input) w = (Ok r, w1) ->
  truthy (Dict.get_or "is_blocked" (VBool false) r) = true ->
  process user_input session_id w
  = (Ok [("status", VStr "blocked_by_guardrails");
         ("message", VStr "I'm sorry, but I cannot process this request as it violates our content policies.");
         ("blocked_reasons", Dict.get_or "blocked_reasons" (VList []) r)],
     w1)
  /\ exists gid version,
       calls_of (process user_input session_id) w
       = [ApplyGuardrail gid version Input (VStr user_input)].
Proof.
  intros Hpass Hblocked.
  assert (Hrun : process user_input session_id w
                 = (Ok (SecureMultiAgentSystem.blocked_response
                          (Dict.get_or "blocked_reasons" (VList []) r)), w1)).
  { unfold SecureMultiAgentSystem.process_request, bind.
    rewrite Hpass, Hblocked. reflexivity. }
  split; [exact Hrun|].
  destruct (GuardrailFacts.apply_run C L gcfg Input "filtered_input"
              (VStr user_input) w) as (r' & w' & Hrun' & Hcase).
  unfold GuardrailsManager.apply_guardrails in Hpass.
  rewrite Hpass in Hrun'. injection Hrun' as <- <-.
  destruct (SupervisorAgentClient.present (GuardrailsManager.guardrail_id gcfg))
    as [gid|];
    [destruct (SupervisorAgentClient.present
                 (GuardrailsManager.guardrail_version gcfg)) as [version|]|].
  - destruct Hcase as [Htr _]. exists gid, version.
    apply calls_of_trace. by rewrite Hrun.
  - destruct Hcase as [_ ->]. discriminate Hblocked.
  - destruct Hcase as [_ ->]. discriminate Hblocked.
Qed.

(** C4. Without the identifiers of the filter policy, or when the filter
    collaborator throws, a pass (input or output) answers not blocked, with
    the text unchanged and no reasons; without the identifiers it does not
    even call the filter. [process_request] then goes on to the router
    with the input unchanged, and an exception that leaves
    [process_request] is never one of the filter: the router raised it. *)
Theorem guardrails_fail_open (user_input : string)
    (session_id : option string) (text : value) (w : world E) :
  (GuardrailSpec.absent gcfg \/ GuardrailSpec.throws C gcfg Input text w ->
   fst (input_pass text w)
   = Ok [("is_blocked", VBool false); ("filtered_input", text);
         ("blocked_reasons", VList [])])
  /\ (GuardrailSpec.absent gcfg \/ GuardrailSpec.throws C gcfg Output text w ->
      fst (output_pass text w)
      = Ok [("is_blocked", VBool false); ("filtered_output", text);
            ("blocked_reasons", VList [])])
  /\ (GuardrailSpec.absent gcfg ->
      snd (input_pass text w) = w /\ snd (output_pass text w) = w)
  /\ (GuardrailSpec.absent gcfg
      \/ GuardrailSpec.throws C gcfg Input (VStr user_input) w ->
      process user_input session_id w
      = (response <- route (VStr user_input) session_id ;;
         filter_output response)
          (snd (input_pass (VStr user_input) w)))
  /\ (forall e,
        fst (process user_input session_id w) = Raised e ->
        exists filtered_input w1,
          fst (route filtered_input session_id w1) = Raised e).
Proof.
  split; [exact (pass_fails_open Input "filtered_input" text w)|].
  split; [exact (pass_fails_open Output "filtered_output" text w)|].
  split; [|split].
  - intros Habs.
    destruct (GuardrailFacts.apply_run C L gcfg Input "filtered_input" text w)
      as (r1 & w1 & Hrun1 & Hcase1).
    destruct (GuardrailFacts.apply_run C L gcfg Output "filtered_output" text w)
      as (r2 & w2 & Hrun2 & Hcase2).
    unfold GuardrailsManager.apply_guardrails,
      GuardrailsManager.apply_guardrails_to_output.
    rewrite Hrun1, Hrun2. cbn. unfold GuardrailSpec.absent in Habs.
    destruct (SupervisorAgentClient.present
                (GuardrailsManager.guardrail_id gcfg)) as [gid|];
      [destruct (SupervisorAgentClient.present
                   (GuardrailsManager.guardrail_version gcfg)) as [version|]|].
    + destruct Habs; discriminate.
    + by destruct Hcase1 as [-> _], Hcase2 as [-> _].
    + by destruct Hcase1 as [-> _], Hcase2 as [-> _].
  - intros Hopen.
    pose proof (pass_fails_open Input "filtered_input" (VStr user_input) w Hopen)
      as Hfst.
    unfold SecureMultiAgentSystem.process_request,
      GuardrailsManager.apply_guardrails.
    unfold bind at 1.
    destruct (GuardrailsManager.apply C L gcfg Input "filtered_input"
                (VStr user_input) w) as [r w1].
    cbn in Hfst. subst r. reflexivity.
  - intros e.
    unfold SecureMultiAgentSystem.process_request. unfold bind at 1.
    destruct (GuardrailFacts.apply_run C L gcfg Input "filtered_input"
                (VStr user_input) w) as (r1 & w1 & Hrun1 & _).
    unfold GuardrailsManager.apply_guardrails. rewrite Hrun1.
    destruct (truthy (Dict.get_or "is_blocked" (VBool false) r1));
      [discriminate|].
    unfold bind at 1.
    destruct (route (Dict.get_or "filtered_input" (VStr user_input) r1)
                session_id w1) as [[response|e0] w2] eqn:Hroute.
    + unfold SecureMultiAgentSystem.filter_output, bind,
        GuardrailsManager.apply_guardrails_to_output.
      destruct (GuardrailFacts.apply_run C L gcfg Output "filtered_output"
                  (SecureMultiAgentSystem._extract_response_text L response) w2)
        as (r2 & w3 & Hrun2 & _).
      rewrite Hrun2.
      destruct (truthy (Dict.get_or "is_blocked" (VBool false) r2));
        discriminate.
    + cbn. intros [= ->]. eexists _, _. by rewrite Hroute.
Qed.

End WithWorld.

Lemma blocked_input_never_routed_witness :
  fst (SecureMultiAgentSystem.process_request (Sample.collab Sample.blocking)
         Sample.lib (Sample.secure Sample.guarded)
         "How do I hurt someone?" None Sample.start)
  = Ok [("status", VStr "blocked_by_guardrails");
        ("message", VStr "I'm sorry, but I cannot process this request as it violates our content policies.");
        ("blocked_reasons", VList [VStr "violence"])]
  /\ exists gid version,
       calls_of (SecureMultiAgentSystem.process_request
                   (Sample.collab Sample.blocking) Sample.lib
                   (Sample.secure Sample.guarded)
                   "How do I hurt someone?" None) Sample.start
       = [ApplyGuardrail gid version Input (VStr "How do I hurt someone?")].
Proof.
  destruct (blocked_input_never_routed (Sample.collab Sample.blocking)
              Sample.lib (Sample.secure Sample.guarded)
              "How do I hurt someone?" None Sample.start
              (World 1%nat [ApplyGuardrail "gr-1" "1" Input
                              (VStr "How do I hurt someone?")])
              [("is_blocked", VBool true);
               ("filtered_input", VStr "How do I hurt someone?");
               ("blocked_reasons", VList [VStr "violence"])])
    as [Hrun Hcalls]; [vm_compute; reflexivity | reflexivity |].
  split; [by rewrite Hrun | exact Hcalls].
Defined.

Lemma guardrails_fail_open_witness :
  GuardrailSpec.throws (Sample.collab Sample.filter_down) Sample.guarded
    Input (VStr "Hello") Sample.start
  /\ fst (GuardrailsManager.apply_guardrails (Sample.collab Sample.filter_down)
            Sample.lib Sample.guarded (VStr "Hello") Sample.start)
     = Ok [("is_blocked", VBool false); ("filtered_input", VStr "Hello");
           ("blocked_reasons", VList [])].
Proof.
  assert (H : GuardrailSpec.throws (Sample.collab Sample.filter_down)
                Sample.guarded Input (VStr "Hello") Sample.start)
    by (exists Sample.boom; reflexivity).
  split; [exact H|].
  exact (proj1 (guardrails_fail_open (Sample.collab Sample.filter_down)
                  Sample.lib (Sample.secure Sample.guarded) "Hello" None
                  (VStr "Hello") Sample.start) (or_intror H)).
Defined.

End GateClaims.

(** ** Extracting the JSON object of a reply *)

Module BraceFacts.

(** The character does not occur in the string. *)
Definition absent (c : ascii) (s : string) : Prop :=
  Forall (fun d => d <> c) (list_ascii_of_string s).

Lemma absent_find (c : ascii) (s : string) (i : Z) :
  absent c s -> Text.find_from c s i = -1.
Proof.
  unfold absent. revert i. induction s as [|d s IH]; intros i Habs;
    [reflexivity|].
  cbn [list_ascii_of_string] in Habs. apply Forall_cons in Habs as [Hd Hs].
  cbn [Text.find_from]. destruct (Ascii.eqb_spec d c); [done|]. by apply IH.
Qed.

(** [find]: the first occurrence, if any. *)
Lemma find_from_spec (c : ascii) (s : string) (i : Z) :
  (absent c s /\ Text.find_from c s i = -1)
  \/ exists before rest,
       s = before +:+ String c rest
       /\ absent c before
       /\ Text.find_from c s i = i + Z.of_nat (String.length before).
Proof.
  revert i. induction s as [|d s IH]; intros i.
  - left. split; [constructor | reflexivity].
  - cbn [Text.find_from]. destruct (Ascii.eqb_spec d c) as [->|Hne].
    + right. exists "", s. split; [reflexivity|]. split; [constructor|].
      cbn. lia.
    + destruct (IH (i + 1)) as [[Habs Hf]|(before & rest & -> & Habs & Hf)].
      * left. split; [by constructor | exact Hf].
      * right. exists (String d before), rest.
        split; [by rewrite append_cons|]. split; [by constructor|].
        rewrite Hf. cbn [String.length]. lia.
Qed.

(** [rfind]: the last occurrence, if any. *)
Lemma rfind_from_spec (c : ascii) (s : string) (i last : Z) :
  (absent c s /\ Text.rfind_from c s i last = last)
  \/ exists before after,
       s = before +:+ String c after
       /\ absent c after
       /\ Text.rfind_from c s i last = i + Z.of_nat (String.length before).
Proof.
  revert i last. induction s as [|d s IH]; intros i last.
  - left. split; [constructor | reflexivity].
  - cbn [Text.rfind_from].
    destruct (IH (i + 1) (if Ascii.eqb d c then i else last))
      as [[Habs Hf]|(before & after & -> & Habs & Hf)].
    + destruct (Ascii.eqb_spec d c) as [->|Hne].
      * right. exists "", s. split; [reflexivity|]. split; [exact Habs|].
        rewrite Hf. cbn. lia.
      * left. split; [by constructor | exact Hf].
    + right. exists (String d before), after.
      split; [by rewrite append_cons|]. split; [exact Habs|].
      rewrite Hf. cbn [String.length]. lia.
Qed.

Lemma length_append (a b : string) :
  String.length (a +:+ b) = (String.length a + String.length b)%nat.
Proof.
  induction a as [|x a IH]; [reflexivity|].
  rewrite append_cons. cbn [String.length]. by rewrite IH.
Qed.

(** Two ways to cut one string: the shorter left part is a prefix of the
    longer one. *)
Lemma append_cut (a b x y : string) :
  a +:+ x = b +:+ y ->
  (String.length a <= String.length b)%nat ->
  exists m, b = a +:+ m /\ x = m +:+ y.
Proof.
  revert b. induction a as [|c a IH]; intros b Heq Hlen.
  - exists b. by split.
  - destruct b as [|d b]; [cbn in Hlen; lia|].
    rewrite !append_cons in Heq. injection Heq as -> Heq.
    cbn [String.length] in Hlen.
    destruct (IH b Heq ltac:(lia)) as (m & -> & ->).
    exists m. by rewrite append_cons.
Qed.

Lemma substring_middle (a b c : string) :
  String.substring (String.length a) (String.length b) (a +:+ b +:+ c) = b.
Proof.
  induction a as [|x a IH].
  - cbn [String.length]. change ("" +:+ b +:+ c) with (b +:+ c).
    induction b as [|y b IHb]; [by destruct c|].
    rewrite append_cons. cbn [String.length String.substring]. by rewrite IHb.
  - rewrite append_cons. cbn [String.length String.substring]. exact IH.
Qed.

Lemma occurs_not_absent (c : ascii) (a b : string) :
  ~ absent c (a +:+ String c b).
Proof.
  unfold absent. intros Habs. rewrite Forall_forall in Habs.
  apply (Habs c); [|reflexivity]. clear Habs.
  induction a as [|x a IH]; [by left|].
  rewrite append_cons. cbn [list_ascii_of_string]. right. exact IH.
Qed.

(** No occurrence comes before the first one. *)
Lemma first_is_first (c : ascii) (before rest b x : string) :
  absent c before ->
  before +:+ String c rest = b +:+ String c x ->
  (String.length before <= String.length b)%nat.
Proof.
  intros Habs Heq.
  destruct (decide (String.length before <= String.length b)%nat)
    as [|Hgt]; [done|exfalso].
  destruct (append_cut b before (String c x) (String c rest))
    as (m & -> & Hm); [done | lia |].
  destruct m as [|y m]; [rewrite length_append in Hgt; cbn in Hgt; lia|].
  rewrite append_cons in Hm. injection Hm as <- _.
  by apply occurs_not_absent in Habs.
Qed.

(** No occurrence comes after the last one. *)
Lemma last_is_last (c : ascii) (before after y z : string) :
  absent c after ->
  before +:+ String c after = y +:+ String c z ->
  (String.length y <= String.length before)%nat.
Proof.
  intros Habs Heq.
  destruct (decide (String.length y <= String.length before)%nat)
    as [|Hgt]; [done|exfalso].
  destruct (append_cut before y (String c after) (String c z))
    as (m & -> & Hm); [done | lia |].
  destruct m as [|x m]; [rewrite length_append in Hgt; cbn in Hgt; lia|].
  rewrite append_cons in Hm. injection Hm as _ ->.
  by apply occurs_not_absent in Habs.
Qed.

(** [brace_slice], by cases on the braces of the text. *)
Lemma brace_slice_cases (content : string) :
  (forall json_str,
     Json.brace_slice content = Some json_str ->
     exists before middle after,
       content = before +:+ json_str +:+ after
       /\ json_str = "{" +:+ middle +:+ "}"
       /\ Text.find "{"%char before = -1
       /\ Text.find "}"%char after = -1)
  /\ (forall before middle after,
        content = before +:+ "{" +:+ middle +:+ "}" +:+ after ->
        exists json_str, Json.brace_slice content = Some json_str).
Proof.
  unfold Json.brace_slice, Text.find, Text.rfind, Text.slice.
  destruct (find_from_spec "{"%char content 0)
    as [[Ho Hfind]|(before & rest & Hcontent & Hbefore & Hfind)].
  { (* no opening brace *)
    rewrite Hfind. split; [discriminate|]. intros b m a ->.
    by apply (occurs_not_absent "{"%char b (m +:+ "}" +:+ a)) in Ho. }
  destruct (rfind_from_spec "}"%char content 0 (-1))
    as [[Hc Hrfind]|(pre & after & Hcontent' & Hafter & Hrfind)];
    rewrite Hfind, Hrfind;
    (replace (0 + Z.of_nat (String.length before) >=? 0) with true
       by (symmetry; apply Z.geb_le; lia)).
  { (* no closing brace *)
    replace (-1 + 1 >? 0 + Z.of_nat (String.length before)) with false
      by (symmetry; rewrite Z.gtb_ltb; apply Z.ltb_ge; lia).
    split; [discriminate|]. intros b m a ->. exfalso.
    apply (occurs_not_absent "}"%char (b +:+ "{" +:+ m) a).
    by rewrite !append_assoc. }
  destruct (0 + Z.of_nat (String.length pre) + 1
            >? 0 + Z.of_nat (String.length before)) eqn:Horder;
    cbn [andb]; rewrite Z.gtb_ltb in Horder.
  - apply Z.ltb_lt in Horder.
    assert (Hcut : exists m, pre = before +:+ m
                             /\ String "{" rest = m +:+ String "}" after).
    { apply append_cut; [|lia].
      transitivity content; [symmetry; exact Hcontent | exact Hcontent']. }
    destruct Hcut as (m & -> & Hm).
    destruct m as [|x m]; [discriminate Hm|].
    rewrite append_cons in Hm. injection Hm as <- ->.
    assert (Hslice : String.substring
                       (Z.to_nat (0 + Z.of_nat (String.length before)))
                       (Z.to_nat
                          (0 + Z.of_nat
                                 (String.length (before +:+ String "{" m))
                           + 1 - (0 + Z.of_nat (String.length before))))
                       content
                     = "{" +:+ m +:+ "}").
    { rewrite Hcontent, length_append. cbn [String.length].
      replace (Z.to_nat (0 + Z.of_nat (String.length before)))
        with (String.length before) by lia.
      replace (Z.to_nat _)
        with (String.length ("{" +:+ m +:+ "}"))
        by (rewrite !length_append; cbn [String.length]; lia).
      replace (String "{" (m +:+ String "}" after))
        with (("{" +:+ m +:+ "}") +:+ after)
        by (by rewrite !append_cons, !append_assoc).
      apply substring_middle. }
    split.
    + intros json_str [= <-]. rewrite Hslice.
      exists before, m, after. split; [|split; [reflexivity|split]].
      * rewrite Hcontent. by rewrite !append_cons, !append_assoc.
      * by apply absent_find.
      * by apply absent_find.
    + intros _ _ _ _. eexists; reflexivity.
  - apply Z.ltb_ge in Horder.
    split; [discriminate|]. intros b m a Hdecomp. exfalso.
    assert (H1 : (String.length before <= String.length b)%nat).
    { apply (first_is_first "{"%char before rest b (m +:+ "}" +:+ a));
        [exact Hbefore|].
      transitivity content; [symmetry; exact Hcontent | exact Hdecomp]. }
    assert (H2 : (String.length (b +:+ "{" +:+ m) <= String.length pre)%nat).
    { apply (last_is_last "}"%char pre after (b +:+ "{" +:+ m) a);
        [exact Hafter|].
      rewrite <- Hcontent', Hdecomp. by rewrite !append_assoc. }
    rewrite !length_append in H2. cbn [String.length] in H2. lia.
Qed.

(** The slice that [brace_slice] takes runs from the first opening brace of
    the text to its last closing brace: it starts and ends with a brace,
    there is no opening brace before it and no closing brace after it.
    And it is taken whenever an opening brace is followed, somewhere, by a
    closing one. *)
Theorem brace_slice_shape (content : string) :
  (forall json_str,
     Json.brace_slice content = Some json_str ->
     exists before middle after,
       content = before +:+ json_str +:+ after
       /\ json_str = "{" +:+ middle +:+ "}"
       /\ Text.find "{"%char before = -1
       /\ Text.find "}"%char after = -1)
  /\ (forall before middle after,
        content = before +:+ "{" +:+ middle +:+ "}" +:+ after ->
        exists json_str, Json.brace_slice content = Some json_str).
Proof. exact (brace_slice_cases content). Qed.

Lemma brace_slice_shape_witness :
  exists json_str,
    Json.brace_slice ("Here you go: " +:+ Sample.create_text +:+ " Done.")
    = Some json_str.
Proof.
  apply (proj2 (brace_slice_shape
                  ("Here you go: " +:+ Sample.create_text +:+ " Done."))
           "Here you go: "
           (Sample.field "action" "create_ticket" +:+ ", "
              +:+ Sample.field "subject" "Printer")
           " Done.").
  vm_compute. reflexivity.
Defined.

End BraceFacts.

(** ** Terms and extensions *)

Module WordFacts.

Abbreviation chars := list_ascii_of_string.
Abbreviation solid := (Forall (fun c => Text.is_space c = false)).

Lemma solid_no_left (before : list ascii) :
  solid before ->
  match last before with
  | Some c => Text.is_space c = true
  | None => True
  end ->
  before = [].
Proof.
  intros Hs Hb. destruct (last before) as [c|] eqn:Hl;
    [|by apply last_None].
  apply last_Some in Hl as [l' ->]. apply Forall_app in Hs as [_ Hc].
  apply Forall_inv in Hc. cbv beta in *; congruence.
Qed.

Lemma solid_no_right (after : list ascii) :
  solid after ->
  match head after with
  | Some c => Text.is_space c = true
  | None => True
  end ->
  after = [].
Proof.
  destruct after as [|c after]; [done|]. cbn. intros Hs Hb.
  apply Forall_cons in Hs as [Hc _]. cbv beta in *; congruence.
Qed.

(** A text without whitespace is its own and only word. *)
Lemma word_solid (l w : list ascii) :
  solid l -> FAQSpec.word_in l w <-> l <> [] /\ w = l.
Proof.
  intros Hl. split.
  - intros (before & after & -> & Hne & Hw & Hb & Ha).
    apply Forall_app in Hl as [Hsb Hl]. apply Forall_app in Hl as [_ Hsa].
    pose proof (solid_no_left _ Hsb Hb) as ->.
    pose proof (solid_no_right _ Hsa Ha) as ->.
    cbn [app]. rewrite app_nil_r. by split.
  - intros [Hne ->]. exists [], []. cbn [app]. rewrite app_nil_r.
    by repeat split.
Qed.

(** The words of a text, at its first whitespace character: the run in
    front of it, and the words of what follows it. *)
Lemma word_after_blank (x l w : list ascii) (c : ascii) :
  solid x -> Text.is_space c = true ->
  FAQSpec.word_in (x ++ c :: l) w
  <-> (x <> [] /\ w = x) \/ FAQSpec.word_in l w.
Proof.
  intros Hx Hc. split.
  - intros (before & after & Heq & Hne & Hw & Hb & Ha).
    apply List.app_eq_app in Heq as [m [[-> Heq]|[-> Heq]]].
    + (* the word starts inside [x] *)
      apply Forall_app in Hx as [Hsb Hm].
      pose proof (solid_no_left _ Hsb Hb) as ->. cbn [app] in *.
      symmetry in Heq.
      apply List.app_eq_app in Heq as [k [[-> ->]|[-> Heq]]].
      * destruct k as [|d k].
        -- left. rewrite app_nil_r. by split.
        -- cbn in Ha.
           apply Forall_app in Hm as [_ Hk].
           apply Forall_cons in Hk as [Hd _]. cbv beta in *; congruence.
      * destruct k as [|d k].
        -- left. rewrite app_nil_r in *. by split.
        -- cbn [app] in Heq. injection Heq as <- _.
           apply Forall_app in Hw as [_ Hk].
           apply Forall_cons in Hk as [Hd _]. cbv beta in *; congruence.
    + (* the word starts after [x] *)
      destruct m as [|d m]; cbn [app] in Heq.
      * destruct w as [|d w]; [done|]. cbn [app] in Heq.
        injection Heq as <- _. apply Forall_cons in Hw as [Hd _].
        cbv beta in *; congruence.
      * injection Heq as <- ->. right.
        exists m, after. split; [reflexivity|]. split; [exact Hne|].
        split; [exact Hw|]. split; [|exact Ha].
        rewrite last_app, last_cons in Hb. by destruct (last m).
  - intros [[Hne ->]|(before & after & -> & Hne & Hw & Hb & Ha)].
    + exists [], (c :: l). by repeat split.
    + exists (x ++ c :: before), after.
      split; [by rewrite <- app_assoc|]. split; [exact Hne|].
      split; [exact Hw|]. split; [|exact Ha].
      rewrite last_app, last_cons. by destruct (last before).
Qed.

(** [split] gives the words of the text. *)
Lemma split_from_words (cur : list ascii) (s t : string) :
  solid cur ->
  In t (Text.split_from cur s)
  <-> FAQSpec.word_in (rev cur ++ chars s) (chars t).
Proof.
  assert (Hflush : forall cur, solid cur ->
            In t (Text.flush cur) <-> rev cur <> [] /\ chars t = rev cur).
  { intros cur0 _. unfold Text.flush. destruct cur0 as [|x cur0].
    - cbn. split; [done | by intros [H _]].
    - cbn [In]. split.
      + intros [<-|[]]. rewrite list_ascii_of_string_of_list_ascii.
        split; [|reflexivity]. cbn [rev]. by destruct (rev cur0).
      + intros [_ <-]. left. apply string_of_list_ascii_of_string. }
  revert cur. induction s as [|c s IH]; intros cur Hcur.
  - cbn [Text.split_from list_ascii_of_string].
    rewrite app_nil_r, word_solid by (by apply List.Forall_rev).
    by apply Hflush.
  - cbn [Text.split_from list_ascii_of_string].
    destruct (Text.is_space c) eqn:Hc.
    + rewrite in_app_iff, (IH [] (Forall_nil_2 _)). cbn [rev app].
      rewrite word_after_blank by (by try apply List.Forall_rev).
      by rewrite Hflush.
    + rewrite IH by (by constructor). cbn [rev].
      by rewrite <- app_assoc.
Qed.

Lemma split_words (s t : string) :
  In t (Text.split s) <-> FAQSpec.word_of t s.
Proof. unfold Text.split. by rewrite split_from_words. Qed.

(** The terms of a text are the words of its lowercased form. *)
Lemma terms_words (text t : string) :
  t ∈ FAQAgent.terms text <-> FAQSpec.word_of t (Text.lower text).
Proof.
  unfold FAQAgent.terms. rewrite elem_of_list_to_set, list_elem_of_In.
  apply split_words.
Qed.

(** [overlap] counts the shared terms. *)
Lemma relevance_shared (query text : string) :
  FAQSpec.relevance_is query text (FAQLoop.relevance_of query text).
Proof.
  exists (elements (FAQAgent.terms query ∩ FAQAgent.terms text)).
  split; [apply NoDup_elements|]. split; [|reflexivity].
  intros t. by rewrite elem_of_elements, elem_of_intersection, !terms_words.
Qed.

Lemma append_empty (s : string) : s +:+ "" = s.
Proof.
  induction s as [|c s IH]; [reflexivity|]. rewrite append_cons.
  by f_equal.
Qed.

Lemma substring_all (s : string) : String.substring 0 (String.length s) s = s.
Proof.
  induction s as [|c s IH]; [reflexivity|].
  cbn [String.length String.substring]. by f_equal.
Qed.

Lemma substring_cut (s : string) (k : nat) :
  (k <= String.length s)%nat ->
  s = String.substring 0 k s
        +:+ String.substring k (String.length s - k) s.
Proof.
  revert k. induction s as [|c s IH]; intros k Hk.
  - cbn in Hk. by replace k with 0%nat by lia.
  - destruct k as [|k].
    + rewrite Nat.sub_0_r, substring_all. reflexivity.
    + cbn [String.length String.substring Nat.sub] in *.
      rewrite append_cons. f_equal. apply IH. lia.
Qed.

(** [endswith] is the suffix test. *)
Lemma endswith_iff (s suffix : string) :
  Text.endswith s suffix = true <-> exists stem, s = stem +:+ suffix.
Proof.
  unfold Text.endswith. rewrite andb_true_iff, Nat.leb_le, String.eqb_eq.
  split.
  - intros [Hlen Hsub].
    exists (String.substring 0 (String.length s - String.length suffix) s).
    pose proof (substring_cut s (String.length s - String.length suffix)
                  ltac:(lia)) as Hcut.
    replace (String.length s - (String.length s - String.length suffix))%nat
      with (String.length suffix) in Hcut by lia.
    by rewrite Hsub in Hcut.
  - intros [stem ->]. rewrite BraceFacts.length_append. split; [lia|].
    replace (String.length stem + String.length suffix
             - String.length suffix)%nat
      with (String.length stem) by lia.
    rewrite <- (append_empty suffix) at 2.
    apply BraceFacts.substring_middle.
Qed.

Lemma supported_extension (key : string) :
  FAQAgent.supported key = true <-> FAQSpec.has_extension key.
Proof.
  unfold FAQAgent.supported, FAQSpec.has_extension.
  rewrite !orb_true_iff, !endswith_iff. split.
  - intros [[[stem ->]|[stem ->]]|[stem ->]]; eexists _, _;
      (split; [reflexivity|]); cbn; auto.
  - intros (stem & extension & -> & Hin). cbn in Hin.
    destruct Hin as [<-|[<-|[<-|[]]]]; eauto.
Qed.

Lemma candidate_kept (query : string) (body : string -> string)
    (key : string) (d : FAQAgent.doc) :
  FAQLoop.candidate query body key = Some d ->
  FAQSpec.kept_as query body key d.
Proof.
  unfold FAQLoop.candidate.
  destruct (FAQAgent.supported key) eqn:Hs; [|discriminate].
  destruct (0 <? FAQLoop.relevance_of query (body key))%nat eqn:Hpos;
    [|discriminate].
  apply Nat.ltb_lt in Hpos. intros [= <-].
  split; [by apply supported_extension|].
  repeat split; [apply relevance_shared | exact Hpos].
Qed.

Lemma candidate_skipped (query : string) (body : string -> string)
    (key : string) :
  FAQLoop.candidate query body key = None ->
  FAQSpec.skipped query body key.
Proof.
  unfold FAQLoop.candidate, FAQSpec.skipped.
  destruct (FAQAgent.supported key) eqn:Hs.
  - destruct (0 <? FAQLoop.relevance_of query (body key))%nat eqn:Hpos;
      [discriminate|].
    intros _. right. apply Nat.ltb_ge in Hpos.
    replace 0%nat with (FAQLoop.relevance_of query (body key)) by lia.
    apply relevance_shared.
  - intros _. left. rewrite <- supported_extension. cbv beta in *; congruence.
Qed.

(** What the loop keeps is what qualifies. *)
Lemma candidates_kept (query : string) (body : string -> string)
    (keys : list string) :
  FAQSpec.candidates_are query body keys (FAQLoop.candidates query body keys).
Proof.
  unfold FAQLoop.candidates.
  induction keys as [|key keys IH]; [constructor|].
  cbn [omap list_omap].
  destruct (FAQLoop.candidate query body key) as [d|] eqn:Hc.
  - apply FAQSpec.candidates_keep; [by apply candidate_kept | exact IH].
  - apply FAQSpec.candidates_skip; [by apply candidate_skipped | exact IH].
Qed.

Lemma supported_keys (keys : list string) :
  FAQSpec.with_extension keys (List.filter FAQAgent.supported keys).
Proof.
  induction keys as [|key keys IH]; [constructor|]. cbn [List.filter].
  destruct (FAQAgent.supported key) eqn:Hs.
  - apply FAQSpec.extension_keep; [by apply supported_extension | exact IH].
  - apply FAQSpec.extension_skip; [|exact IH].
    rewrite <- supported_extension. cbv beta in *; congruence.
Qed.

(** The relations of the statement determine what they describe. *)
Lemma relevance_unique (query text : string) (r r' : nat) :
  FAQSpec.relevance_is query text r ->
  FAQSpec.relevance_is query text r' -> r = r'.
Proof.
  intros (l & Hl & Hin & <-) (l' & Hl' & Hin' & <-).
  apply Permutation_length, NoDup_Permutation; [done..|].
  intros t. by rewrite Hin, Hin'.
Qed.

Lemma kept_unique (query : string) (body : string -> string)
    (key : string) (d d' : FAQAgent.doc) :
  FAQSpec.kept_as query body key d ->
  FAQSpec.kept_as query body key d' -> d = d'.
Proof.
  intros (_ & Hs & Hc & Hr & _) (_ & Hs' & Hc' & Hr' & _).
  pose proof (relevance_unique _ _ _ _ Hr Hr') as Hrel.
  destruct d, d'; cbn in *. congruence.
Qed.

Lemma kept_not_skipped (query : string) (body : string -> string)
    (key : string) (d : FAQAgent.doc) :
  FAQSpec.kept_as query body key d -> ~ FAQSpec.skipped query body key.
Proof.
  intros (Hext & _ & _ & Hr & Hpos) [Hno|Hzero]; [done|].
  pose proof (relevance_unique _ _ _ _ Hr Hzero). lia.
Qed.

Lemma candidates_unique (query : string) (body : string -> string)
    (keys : list string) (l l' : list FAQAgent.doc) :
  FAQSpec.candidates_are query body keys l ->
  FAQSpec.candidates_are query body keys l' -> l = l'.
Proof.
  intros Hl. revert l'.
  induction Hl as [|key keys docs Hskip _ IH|key keys d docs Hkept _ IH];
    intros l' Hl'; inversion Hl' as [|? ? ? Hskip' Hrest|? ? d' ? Hkept' Hrest];
    subst.
  - reflexivity.
  - by apply IH.
  - by destruct (kept_not_skipped _ _ _ _ Hkept').
  - by destruct (kept_not_skipped _ _ _ _ Hkept).
  - f_equal; [by eapply kept_unique | by apply IH].
Qed.

Lemma extension_unique (keys l l' : list string) :
  FAQSpec.with_extension keys l -> FAQSpec.with_extension keys l' -> l = l'.
Proof.
  intros Hl. revert l'.
  induction Hl as [|key keys kept Hno _ IH|key keys kept Hext _ IH];
    intros l' Hl'; inversion Hl'; subst; try done.
  - by apply IH.
  - f_equal. by apply IH.
Qed.

Lemma get_object_inj (bucket : option string) (l l' : list string) :
  map (GetObject bucket) l = map (GetObject bucket) l' -> l = l'.
Proof.
  revert l'. induction l as [|k l IH]; intros [|k' l'] Heq;
    try discriminate; [reflexivity|].
  cbn in Heq. injection Heq as -> Heq. f_equal. by apply IH.
Qed.

End WordFacts.

(** ** Retrieval and answers *)

Module SortFacts.

Import FAQAgent.

Lemma insert_doc_length x l : length (insert_doc x l) = S (length l).
Proof.
  induction l as [|y l IH]; [reflexivity|]. cbn [insert_doc].
  destruct (relevance x <? relevance y)%nat; cbn [length]; by rewrite ?IH.
Qed.

Lemma sort_length l : length (sort_by_relevance l) = length l.
Proof.
  induction l as [|x l IH]; [reflexivity|]. cbn [sort_by_relevance length].
  by rewrite insert_doc_length, IH.
Qed.

Lemma insert_doc_perm x l : Permutation (x :: l) (insert_doc x l).
Proof.
  induction l as [|y l IH]; [reflexivity|]. cbn [insert_doc].
  destruct (relevance x <? relevance y)%nat; [|reflexivity].
  etransitivity; [apply perm_swap | apply perm_skip, IH].
Qed.

Lemma sort_perm l : Permutation l (sort_by_relevance l).
Proof.
  induction l as [|x l IH]; [reflexivity|]. cbn [sort_by_relevance].
  etransitivity; [apply perm_skip, IH | apply insert_doc_perm].
Qed.

Lemma insert_doc_sorted x l :
  StronglySorted FAQSpec.more_relevant l ->
  StronglySorted FAQSpec.more_relevant (insert_doc x l).
Proof.
  induction 1 as [|y l Hl IH Hy]; cbn [insert_doc].
  - repeat constructor.
  - destruct (relevance x <? relevance y)%nat eqn:Hlt.
    + apply Nat.ltb_lt in Hlt. constructor; [exact IH|].
      eapply Permutation_Forall; [apply insert_doc_perm|].
      constructor; [|exact Hy].
      unfold FAQSpec.more_relevant. lia.
    + apply Nat.ltb_ge in Hlt. constructor; [by constructor|].
      constructor; [exact Hlt|].
      eapply Forall_impl; [exact Hy|].
      unfold FAQSpec.more_relevant. intros z Hz. lia.
Qed.

Lemma sort_sorted l :
  StronglySorted FAQSpec.more_relevant (sort_by_relevance l).
Proof.
  induction l as [|x l IH]; cbn [sort_by_relevance];
    [constructor | by apply insert_doc_sorted].
Qed.

(** Stability: inserting [x] puts it in front of the documents of its own
    relevance and leaves the others where they are. *)
Lemma insert_doc_stable r x l :
  FAQSpec.of_relevance r (insert_doc x l) = FAQSpec.of_relevance r (x :: l).
Proof.
  induction l as [|y l IH]; [reflexivity|].
  cbn [insert_doc].
  destruct (relevance x <? relevance y)%nat eqn:Hlt; [|reflexivity].
  apply Nat.ltb_lt in Hlt.
  unfold FAQSpec.of_relevance in *. cbn [List.filter] in *. rewrite IH.
  destruct (relevance y =? r)%nat eqn:Hy, (relevance x =? r)%nat eqn:Hx;
    try reflexivity.
  apply Nat.eqb_eq in Hy, Hx. lia.
Qed.

Lemma sort_stable r l :
  FAQSpec.of_relevance r (sort_by_relevance l) = FAQSpec.of_relevance r l.
Proof.
  induction l as [|x l IH]; [reflexivity|].
  cbn [sort_by_relevance]. rewrite insert_doc_stable.
  unfold FAQSpec.of_relevance in *. cbn [List.filter]. by rewrite IH.
Qed.

Lemma slice_to_all {A} (l : list A) (n : Z) :
  Z.of_nat (length l) <= n -> slice_to l n = l.
Proof.
  intros Hn. unfold slice_to.
  destruct (n <? 0) eqn:Hneg; [apply Z.ltb_lt in Hneg; lia|].
  apply take_ge. lia.
Qed.

End SortFacts.

Module FetchFacts.

Import FAQLoop.

Lemma candidate_supported query body key d :
  candidate query body key = Some d ->
  FAQAgent.supported key = true
  /\ (0 < relevance_of query (body key))%nat
  /\ d = FAQAgent.Doc (body key) key (relevance_of query (body key)).
Proof.
  unfold candidate.
  destruct (FAQAgent.supported key); [|discriminate].
  destruct (0 <? relevance_of query (body key))%nat eqn:Hpos; [|discriminate].
  apply Nat.ltb_lt in Hpos. intros [= <-]. auto.
Qed.

(** The fetched keys are a prefix of the keys with a supported
    extension. *)
Lemma fetched_prefix query body n keys count :
  fetched query body n keys count `prefix_of` List.filter FAQAgent.supported keys.
Proof.
  revert count. induction keys as [|key rest IH]; intros count.
  - apply prefix_nil.
  - cbn [fetched List.filter].
    destruct (n <=? count)%nat; [apply prefix_nil|].
    destruct (FAQAgent.supported key); [apply prefix_cons|]; apply IH.
Qed.

(** The kept documents among the fetched keys are the first [n - count]
    kept documents of the listing. *)
Lemma fetched_candidates query body n keys count :
  candidates query body (fetched query body n keys count)
  = take (n - count) (candidates query body keys).
Proof.
  unfold candidates.
  revert count. induction keys as [|key rest IH]; intros count.
  - cbn [fetched omap list_omap]. by rewrite take_nil.
  - cbn [fetched]. cbn [omap list_omap].
    destruct (n <=? count)%nat eqn:Hcap.
    + apply Nat.leb_le in Hcap. replace (n - count)%nat with 0%nat by lia.
      reflexivity.
    + apply Nat.leb_gt in Hcap. unfold candidate at 2.
      destruct (FAQAgent.supported key) eqn:Hs; cbn [andb].
      * cbn [omap list_omap]. unfold candidate at 1. rewrite Hs. cbn [andb].
        destruct (0 <? relevance_of query (body key))%nat.
        -- rewrite IH. replace (n - count)%nat with (S (n - S count)) by lia.
           reflexivity.
        -- apply IH.
      * apply IH.
Qed.

(** With fewer kept documents than the cap allows, every key with a
    supported extension is fetched. *)
Lemma fetched_all query body n keys count :
  (length (candidates query body keys) < n - count)%nat ->
  fetched query body n keys count = List.filter FAQAgent.supported keys.
Proof.
  revert count. induction keys as [|key rest IH]; intros count Hlen.
  - reflexivity.
  - cbn [fetched List.filter]. unfold candidates in *.
    cbn [omap list_omap] in Hlen. unfold candidate at 1 in Hlen.
    destruct (n <=? count)%nat eqn:Hcap; [apply Nat.leb_le in Hcap; lia|].
    destruct (FAQAgent.supported key); cbn [andb] in Hlen.
    + f_equal. apply IH.
      destruct (0 <? relevance_of query (body key))%nat; cbn [length] in Hlen;
        lia.
    + apply IH. exact Hlen.
Qed.

(** When the cap is reached, the last key fetched is the one that reached
    it: nothing is fetched after it. *)
Lemma fetched_stops query body n keys count :
  (count < n)%nat ->
  (n - count <= length (candidates query body keys))%nat ->
  exists before key,
    fetched query body n keys count = before ++ [key]
    /\ is_Some (candidate query body key).
Proof.
  revert count. induction keys as [|key rest IH]; intros count Hcount Hlen.
  - cbn in Hlen. lia.
  - cbn [fetched]. unfold candidates in *.
    cbn [omap list_omap] in Hlen.
    destruct (n <=? count)%nat eqn:Hcap; [apply Nat.leb_le in Hcap; lia|].
    destruct (candidate query body key) as [d|] eqn:Hc.
    + destruct (candidate_supported _ _ _ _ Hc) as (Hs & Hpos & _).
      rewrite Hs. apply Nat.ltb_lt in Hpos. rewrite Hpos.
      cbn [length] in Hlen.
      destruct (decide (S count < n)%nat) as [Hmore|Hdone].
      * destruct (IH (S count) Hmore ltac:(lia)) as (before & k & -> & Hk).
        exists (key :: before), k. by split.
      * exists [], key. split; [|by rewrite Hc].
        destruct rest; cbn [fetched]; [reflexivity|].
        replace (n <=? S count)%nat with true
          by (symmetry; apply Nat.leb_le; lia).
        reflexivity.
    + unfold candidate in Hc.
      destruct (FAQAgent.supported key); cbn [andb] in Hc.
      * destruct (0 <? relevance_of query (body key))%nat; [discriminate|].
        destruct (IH count Hcount Hlen) as (before & k & -> & Hk).
        exists (key :: before), k. by split.
      * apply (IH count Hcount Hlen).
Qed.

End FetchFacts.

Module FAQFacts.
Section WithWorld.
Context {E : Type} (C : collaborators E) (L : pylib) (cfg : FAQAgent.config).

Abbreviation bucket := (FAQAgent.s3_bucket cfg).
Abbreviation retrieve := (FAQAgent.retrieve_relevant_documents C cfg).

(** The loop only reads objects. *)
Lemma scan_reads query_terms max_docs keys docs (w : world E) :
  exists reads,
    trace (snd (FAQAgent.scan C cfg query_terms max_docs keys docs w))
    = trace w ++ reads
    /\ Forall (fun ev => is_store_read ev = true) reads.
Proof.
  revert docs w. induction keys as [|key rest IH]; intros docs w.
  - exists []. by rewrite app_nil_r.
  - cbn [FAQAgent.scan].
    destruct (Z.of_nat (length docs) >=? max_docs);
      [exists []; by rewrite app_nil_r|].
    destruct (negb (FAQAgent.supported key)); [apply IH|].
    run. destruct (get_object C bucket key (env w)) as [[text|e] e1].
    + match goal with
      | |- context [if ?b then _ else _] => destruct b
      end;
        match goal with
        | |- context [FAQAgent.scan _ _ _ _ _ ?d ?w0] =>
            destruct (IH d w0) as (reads & -> & Hreads)
        end;
        exists (GetObject bucket key :: reads); cbn [trace];
        (split; [by rewrite <- app_assoc | by constructor]).
    + exists [GetObject bucket key]. split; [reflexivity | by repeat constructor].
Qed.

(** Retrieval lists the store and then only reads objects. *)
Lemma retrieve_reads query max_docs (w : world E) :
  exists reads,
    trace (snd (retrieve query max_docs w))
    = trace w ++ ListObjects bucket (FAQAgent.s3_prefix cfg) :: reads
    /\ Forall (fun ev => is_store_read ev = true) reads.
Proof.
  unfold FAQAgent.retrieve_relevant_documents. run.
  destruct (list_objects_v2 C bucket (FAQAgent.s3_prefix cfg) (env w))
    as [[[keys|]|e] e1].
  - match goal with
    | |- context [FAQAgent.scan _ _ ?q ?m ?k ?d ?w0] =>
        destruct (scan_reads q m k d w0) as (reads & Htr & Hreads);
        destruct (FAQAgent.scan C cfg q m k d w0) as [[docs|e] w1]
    end; cbn [snd] in Htr; cbn [trace] in Htr;
      exists reads; (split; [|exact Hreads]).
    + cbn. by rewrite Htr, <- app_assoc.
    + destruct (is_ClientError e); cbn; by rewrite Htr, <- app_assoc.
  - exists []. by split.
  - exists []. destruct (is_ClientError e); by split.
Qed.

(** The loop over a fixed store, from any point. *)
Lemma scan_fixed query max_docs all_keys body keys docs (w : world E) :
  FAQSpec.fixed_store C cfg all_keys body ->
  0 <= max_docs ->
  exists w',
    FAQAgent.scan C cfg (FAQAgent.terms query) max_docs keys docs w
    = (Ok (docs ++ take (Z.to_nat max_docs - length docs)
                     (FAQLoop.candidates query body keys)), w')
    /\ trace w'
       = trace w ++ map (GetObject bucket)
                      (FAQLoop.fetched query body (Z.to_nat max_docs) keys
                         (length docs)).
Proof.
  intros [_ Hget] Hmax. unfold FAQLoop.candidates.
  revert docs w. induction keys as [|key rest IH]; intros docs w.
  - exists w. cbn. by rewrite take_nil, !app_nil_r.
  - cbn [FAQAgent.scan FAQLoop.fetched omap list_omap].
    destruct (Z.of_nat (length docs) >=? max_docs) eqn:Hcap.
    + apply Z.geb_le in Hcap.
      replace (Z.to_nat max_docs <=? length docs)%nat with true
        by (symmetry; apply Nat.leb_le; lia).
      replace (Z.to_nat max_docs - length docs)%nat with 0%nat by lia.
      exists w. unfold ret. cbn. by rewrite !app_nil_r.
    + assert (Hlt : (length docs < Z.to_nat max_docs)%nat).
      { destruct (Z.geb_spec (Z.of_nat (length docs)) max_docs);
          [discriminate | lia]. }
      replace (Z.to_nat max_docs <=? length docs)%nat with false
        by (symmetry; apply Nat.leb_gt; lia).
      unfold FAQLoop.candidate.
      destruct (FAQAgent.supported key); cbn [negb andb]; [|apply IH].
      run. specialize (Hget key (env w)).
      destruct (get_object C bucket key (env w)) as [[text|e] e1];
        cbn in Hget; [injection Hget as ->|discriminate].
      change (FAQAgent.overlap (FAQAgent.terms query)
                (FAQAgent.terms (body key)))
        with (FAQLoop.relevance_of query (body key)).
      destruct (0 <? FAQLoop.relevance_of query (body key))%nat.
      * match goal with
        | |- context [FAQAgent.scan _ _ _ _ _ ?d ?w0] =>
            destruct (IH d w0) as (w' & -> & Htr)
        end.
        exists w'. rewrite Htr. cbn [trace]. rewrite length_app. cbn [length].
        rewrite Nat.add_1_r, <- !app_assoc.
        replace (Z.to_nat max_docs - length docs)%nat
          with (S (Z.to_nat max_docs - S (length docs))) by lia.
        split; reflexivity.
      * match goal with
        | |- context [FAQAgent.scan _ _ _ _ _ ?d ?w0] =>
            destruct (IH d w0) as (w' & -> & Htr)
        end.
        exists w'. rewrite Htr. cbn [trace]. rewrite <- !app_assoc.
        split; reflexivity.
Qed.

End WithWorld.
End FAQFacts.

Module FAQClaims.
Section WithWorld.
Context {E : Type} (C : collaborators E) (L : pylib) (cfg : FAQAgent.config).

Abbreviation bucket := (FAQAgent.s3_bucket cfg).
Abbreviation retrieve := (FAQAgent.retrieve_relevant_documents C cfg).
Abbreviation answer := (FAQAgent.answer_question C L cfg).

(** C6. When retrieval returns no document, [answer_question] returns the
    fixed refusal with an empty list of sources, and the model is not
    called. *)
Theorem empty_retrieval_refuses (query : string) (w : world E) :
  fst (retrieve query 3 w) = Ok [] ->
  fst (answer query w)
  = Ok [("answer",
         VStr "I couldn't find any relevant information in the knowledge base.");
        ("sources", VList [])]
  /\ Forall (fun ev => is_model_call ev = false) (calls_of (answer query) w).
Proof.
  intros Hempty.
  destruct (FAQFacts.retrieve_reads C cfg query 3 w) as (reads & Htr & Hreads).
  unfold FAQAgent.answer_question, calls_of, bind.
  destruct (retrieve query 3 w) as [[docs|e] w1]; cbn in Hempty;
    [injection Hempty as ->|discriminate].
  cbn [fst snd ret]. split; [reflexivity|].
  cbn [snd] in Htr. rewrite Htr, drop_app_length.
  constructor; [reflexivity|].
  eapply Forall_impl; [exact Hreads|]. intros [] Hev; done.
Qed.

(** C7. Over a fixed store and for a cap [max_docs >= 0], retrieval keeps
    the documents whose key ends in .txt, .md or .json and whose relevance
    is positive, the relevance being the number of distinct terms that the
    lowercased query and the lowercased document share, a term being a
    maximal run of characters without whitespace. It takes the first
    [max_docs] of them in listing order, fetches no key without one of the
    extensions and nothing after the document that reaches the cap, and
    returns them by descending relevance, documents of equal relevance in
    listing order. *)
Theorem retrieval_ranks (query : string) (max_docs : Z)
    (keys : list string) (body : string -> string) (w : world E) :
  FAQSpec.fixed_store C cfg keys body ->
  0 <= max_docs ->
  let n := Z.to_nat max_docs in
  exists result fetched_keys candidates supported_keys,
    fst (retrieve query max_docs w) = Ok result
    /\ calls_of (retrieve query max_docs) w
       = ListObjects bucket (FAQAgent.s3_prefix cfg)
           :: map (GetObject bucket) fetched_keys
    (* the entries that qualify and the keys with an extension, both in
       listing order *)
    /\ FAQSpec.candidates_are query body keys candidates
    /\ (forall other,
          FAQSpec.candidates_are query body keys other -> other = candidates)
    /\ FAQSpec.with_extension keys supported_keys
    /\ (forall other,
          FAQSpec.with_extension keys other -> other = supported_keys)
    (* what is returned: the first [n] entries that qualify *)
    /\ Permutation result (take n candidates)
    /\ (forall d, d ∈ result ->
          exists key, key ∈ keys /\ FAQSpec.kept_as query body key d)
    /\ (length result <= n)%nat
    (* the order of the result *)
    /\ StronglySorted FAQSpec.more_relevant result
    /\ (forall r, FAQSpec.of_relevance r result
                  = FAQSpec.of_relevance r (take n candidates))
    (* what is fetched *)
    /\ fetched_keys `prefix_of` supported_keys
    /\ FAQSpec.candidates_are query body fetched_keys (take n candidates)
    /\ ((length candidates < n)%nat -> fetched_keys = supported_keys)
    /\ ((n <= length candidates)%nat ->
        match n with
        | O => fetched_keys = []
        | S _ => exists before key d,
                   fetched_keys = before ++ [key]
                   /\ FAQSpec.kept_as query body key d
        end).
Proof.
  intros Hstore Hmax n.
  set (kept := take n (FAQLoop.candidates query body keys)).
  exists (FAQAgent.sort_by_relevance kept),
         (FAQLoop.fetched query body n keys 0),
         (FAQLoop.candidates query body keys),
         (List.filter FAQAgent.supported keys).
  assert (Hrun : exists w',
             retrieve query max_docs w
             = (Ok (FAQAgent.sort_by_relevance kept), w')
             /\ trace w'
                = trace w ++ ListObjects bucket (FAQAgent.s3_prefix cfg)
                    :: map (GetObject bucket)
                         (FAQLoop.fetched query body n keys 0)).
  { unfold FAQAgent.retrieve_relevant_documents. run.
    pose proof (proj1 Hstore (env w)) as Hlist.
    destruct (list_objects_v2 C bucket (FAQAgent.s3_prefix cfg) (env w))
      as [[[keys'|]|e] e1]; cbn in Hlist; try discriminate.
    injection Hlist as ->.
    match goal with
    | |- context [FAQAgent.scan _ _ _ _ _ ?d ?w0] =>
        destruct (FAQFacts.scan_fixed C cfg query max_docs keys body keys d w0
                    Hstore Hmax) as (w' & -> & Htr)
    end.
    cbn [app length] in *. rewrite Nat.sub_0_r in *. fold n kept.
    exists w'. split.
    - rewrite SortFacts.slice_to_all; [reflexivity|].
      rewrite SortFacts.sort_length. subst kept n.
      rewrite length_take. lia.
    - rewrite Htr. cbn [trace]. by rewrite <- app_assoc. }
  destruct Hrun as (w' & Hrun & Htr).
  split; [by rewrite Hrun|].
  split; [apply calls_of_trace; by rewrite Hrun|].
  split; [apply WordFacts.candidates_kept|].
  split; [intros other Hother;
          exact (WordFacts.candidates_unique _ _ _ _ _ Hother
                   (WordFacts.candidates_kept query body keys))|].
  split; [apply WordFacts.supported_keys|].
  split; [intros other Hother;
          exact (WordFacts.extension_unique _ _ _ Hother
                   (WordFacts.supported_keys keys))|].
  split; [symmetry; apply SortFacts.sort_perm|].
  split.
  { intros d Hd.
    rewrite <- (SortFacts.sort_perm kept) in Hd.
    apply elem_of_take in Hd as (i & Hd & _).
    apply list_elem_of_lookup_2 in Hd.
    apply list_elem_of_omap in Hd as (key & Hkey & Hc).
    exists key. split; [exact Hkey|]. by apply WordFacts.candidate_kept. }
  split; [rewrite SortFacts.sort_length; subst kept; rewrite length_take; lia|].
  split; [apply SortFacts.sort_sorted|].
  split; [intros r; apply SortFacts.sort_stable|].
  split; [apply FetchFacts.fetched_prefix|].
  split.
  { subst kept.
    rewrite <- (Nat.sub_0_r n) at 2.
    rewrite <- FetchFacts.fetched_candidates.
    apply WordFacts.candidates_kept. }
  split.
  - intros Hfew. apply FetchFacts.fetched_all. lia.
  - intros Hmany. destruct n as [|n'] eqn:Hn.
    + by destruct keys.
    + destruct (FetchFacts.fetched_stops query body (S n') keys 0)
        as (before & key & Hfetched & [d Hd]); [lia | lia |].
      exists before, key, d. split; [exact Hfetched|].
      by apply WordFacts.candidate_kept.
Qed.

End WithWorld.

Lemma empty_retrieval_refuses_witness :
  fst (FAQAgent.answer_question (Sample.collab Sample.quiet) Sample.lib
         Sample.faq "What is your return policy?" Sample.start)
  = Ok [("answer",
         VStr "I couldn't find any relevant information in the knowledge base.");
        ("sources", VList [])]
  /\ Forall (fun ev => is_model_call ev = false)
       (calls_of (FAQAgent.answer_question (Sample.collab Sample.quiet)
                    Sample.lib Sample.faq "What is your return policy?")
          Sample.start).
Proof.
  apply (empty_retrieval_refuses (Sample.collab Sample.quiet) Sample.lib
           Sample.faq "What is your return policy?" Sample.start).
  reflexivity.
Defined.

Lemma retrieval_ranks_witness :
  exists result fetched_keys candidates supported_keys,
    (result
     = [FAQAgent.Doc
          ("REFUND" +:+ MoreSamples.tab +:+ "within 30 days"
             +:+ FAQAgent.newline +:+ "policy applies")
          "docs/terms.md" 3;
        FAQAgent.Doc "Refund policy" "docs/refunds.txt" 2;
        FAQAgent.Doc "Policy on refund and more" "docs/faq.txt" 2]
     /\ fetched_keys
        = ["docs/refunds.txt"; "docs/terms.md"; "docs/shipping.json";
           "docs/faq.txt"])
    /\ fst (FAQAgent.retrieve_relevant_documents
              (Sample.collab MoreSamples.store) Sample.faq
              MoreSamples.store_query 3 Sample.start)
       = Ok result
    /\ calls_of (FAQAgent.retrieve_relevant_documents
                   (Sample.collab MoreSamples.store) Sample.faq
                   MoreSamples.store_query 3) Sample.start
       = ListObjects (Some "kb-bucket") "knowledge_base/"
           :: map (GetObject (Some "kb-bucket")) fetched_keys
    /\ FAQSpec.candidates_are MoreSamples.store_query MoreSamples.store_body
         MoreSamples.store_keys candidates
    /\ (forall other,
          FAQSpec.candidates_are MoreSamples.store_query
            MoreSamples.store_body MoreSamples.store_keys other ->
          other = candidates)
    /\ FAQSpec.with_extension MoreSamples.store_keys supported_keys
    /\ (forall other,
          FAQSpec.with_extension MoreSamples.store_keys other ->
          other = supported_keys)
    /\ Permutation result (take 3 candidates)
    /\ (forall d, d ∈ result ->
          exists key,
            key ∈ MoreSamples.store_keys
            /\ FAQSpec.kept_as MoreSamples.store_query
                 MoreSamples.store_body key d)
    /\ (length result <= 3)%nat
    /\ StronglySorted FAQSpec.more_relevant result
    /\ (forall r, FAQSpec.of_relevance r result
                  = FAQSpec.of_relevance r (take 3 candidates))
    /\ fetched_keys `prefix_of` supported_keys
    /\ FAQSpec.candidates_are MoreSamples.store_query MoreSamples.store_body
         fetched_keys (take 3 candidates)
    /\ ((length candidates < 3)%nat -> fetched_keys = supported_keys)
    /\ ((3 <= length candidates)%nat ->
        exists before key d,
          fetched_keys = before ++ [key]
          /\ FAQSpec.kept_as MoreSamples.store_query MoreSamples.store_body
               key d).
Proof.
  destruct (retrieval_ranks (Sample.collab MoreSamples.store) Sample.faq
              MoreSamples.store_query 3 MoreSamples.store_keys
              MoreSamples.store_body Sample.start)
    as (result & fetched_keys & candidates & supported_keys & Hrun & Hcalls
        & Hrest).
  - split; intros; reflexivity.
  - lia.
  - exists result, fetched_keys, candidates, supported_keys.
    split; [|split; [exact Hrun|split; [exact Hcalls|exact Hrest]]].
    split.
    + vm_compute in Hrun. by injection Hrun as <-.
    + assert (Hc : calls_of (FAQAgent.retrieve_relevant_documents
                               (Sample.collab MoreSamples.store) Sample.faq
                               MoreSamples.store_query 3) Sample.start
                   = ListObjects (Some "kb-bucket") "knowledge_base/"
                       :: map (GetObject (Some "kb-bucket"))
                            ["docs/refunds.txt"; "docs/terms.md";
                             "docs/shipping.json"; "docs/faq.txt"])
        by (vm_compute; reflexivity).
      rewrite Hc in Hcalls. injection Hcalls as Hcalls.
      exact (eq_sym (WordFacts.get_object_inj (Some "kb-bucket")
                       ["docs/refunds.txt"; "docs/terms.md";
                        "docs/shipping.json"; "docs/faq.txt"]
                       fetched_keys Hcalls)).
Defined.

End FAQClaims.

Example sample_retrieval :
  FAQAgent.retrieve_relevant_documents (Sample.collab Sample.kb) Sample.faq
    "what is your return policy" 2 Sample.start
  = (Ok [FAQAgent.Doc "What is the privacy policy" "knowledge_base/policy.json" 3;
         FAQAgent.Doc "Our return policy lasts 30 days"
           "knowledge_base/returns.txt" 2],
     World 4%nat
       [ListObjects (Some "kb-bucket") "knowledge_base/";
        GetObject (Some "kb-bucket") "knowledge_base/returns.txt";
        GetObject (Some "kb-bucket") "knowledge_base/shipping.md";
        GetObject (Some "kb-bucket") "knowledge_base/policy.json"]).
Proof. vm_compute. reflexivity. Qed.

(** ** The trace only grows *)

Definition grows {E A} (m : M E A) : Prop :=
  forall w, exists l, trace (snd (m w)) = trace w ++ l.

Create HintDb grows.

Lemma grows_ret {E A} (a : A) : grows (@ret E A a).
Proof. intros w. exists []. by rewrite app_nil_r. Qed.

Lemma grows_raise {E A} (e : exn) : grows (@raise E A e).
Proof. intros w. exists []. by rewrite app_nil_r. Qed.

Lemma grows_lift {E A} (r : result A) : grows (@lift E A r).
Proof. intros w. exists []. by rewrite app_nil_r. Qed.

Lemma grows_call {E A} (ev : event) (f : E -> result A * E) :
  grows (call ev f).
Proof. intros w. unfold call. destruct (f (env w)). by exists [ev]. Qed.

Lemma grows_ask {E A} (f : E -> A * E) : grows (ask f).
Proof.
  intros w. unfold ask. destruct (f (env w)). exists []. by rewrite app_nil_r.
Qed.

Lemma grows_bind {E A B} (m : M E A) (k : A -> M E B) :
  grows m -> (forall a, grows (k a)) -> grows (bind m k).
Proof.
  intros Hm Hk w. unfold bind. destruct (Hm w) as [l1 H1].
  destruct (m w) as [[a|e] w1]; cbn [snd] in *.
  - destruct (Hk a w1) as [l2 H2]. exists (l1 ++ l2).
    by rewrite H2, H1, app_assoc.
  - by exists l1.
Qed.

Lemma grows_try {E A} (body : M E A) (catches : exn -> bool)
    (handler : exn -> M E A) :
  grows body -> (forall e, grows (handler e)) ->
  grows (try_except body catches handler).
Proof.
  intros Hb Hh w. unfold try_except. destruct (Hb w) as [l1 H1].
  destruct (body w) as [[a|e] w1]; cbn [snd] in *; [by exists l1|].
  destruct (catches e); [|by exists l1].
  destruct (Hh e w1) as [l2 H2]. exists (l1 ++ l2).
  by rewrite H2, H1, app_assoc.
Qed.

#[export] Hint Resolve grows_ret grows_raise grows_lift grows_call grows_ask
  : grows.

(** Take a computation apart, down to the primitives. *)
Ltac grow :=
  repeat first
    [ apply grows_ret | apply grows_raise | apply grows_lift
    | apply grows_call | apply grows_ask
    | apply grows_bind; [|intros ?]
    | apply grows_try; [|intros ?]
    | match goal with
      | |- grows (if ?b then _ else _) => destruct b
      | |- grows (match ?x with _ => _ end) => destruct x
      | |- grows (let _ := _ in _) => cbv zeta
      end
    | solve [auto with grows] ].

Lemma calls_of_bind {E A B} (m : M E A) (k : A -> M E B) (w : world E)
    (l : list event) :
  trace (snd (m w)) = trace w ++ l -> (forall a, grows (k a)) ->
  exists later, calls_of (bind m k) w = l ++ later.
Proof.
  intros Hm Hk. unfold calls_of, bind.
  destruct (m w) as [[a|e] w1]; cbn [snd] in *.
  - destruct (Hk a w1) as [l2 H2]. exists l2.
    by rewrite H2, Hm, <- app_assoc, drop_app_length.
  - exists []. by rewrite Hm, drop_app_length, app_nil_r.
Qed.

Module Growth.
Section WithWorld.
Context {E : Type} (C : collaborators E) (L : pylib).

Lemma grows_evaluate_emergency cfg message :
  grows (EmergencyAgent.evaluate_emergency C L cfg message).
Proof.
  unfold EmergencyAgent.evaluate_emergency,
    EmergencyAgent._escalate_emergency. grow.
Qed.

Lemma grows_handle_emergency_request cfg message :
  grows (EmergencyAgent.handle_emergency_request C L cfg message).
Proof.
  unfold EmergencyAgent.handle_emergency_request.
  apply grows_bind; [apply grows_evaluate_emergency|intros ?]. grow.
Qed.

Lemma grows_answer_question cfg query : grows (FAQAgent.answer_question C L cfg query).
Proof.
  unfold FAQAgent.answer_question. apply grows_bind.
  - intros w. destruct (FAQFacts.retrieve_reads C cfg query 3 w)
      as (reads & Htr & _). eauto.
  - intros ?. grow.
Qed.

Lemma grows_ticket_request user_input :
  grows (BedrockTicketingAgent.process_request C L user_input).
Proof.
  unfold BedrockTicketingAgent.process_request,
    BedrockTicketingAgent._determine_intent,
    TicketingAgent.create_ticket_call, TicketingAgent.create_ticket,
    TicketingAgent.get_ticket_status, TicketingAgent.cancel_ticket.
  grow.
Qed.

Lemma grows_invoke_agent cfg message session_id :
  grows (SupervisorAgentClient.invoke_agent C L cfg message session_id).
Proof. unfold SupervisorAgentClient.invoke_agent. grow. Qed.

Lemma grows_ask_supervisor cfg user_input session_id :
  grows (MultiAgentSystem.ask_supervisor C L cfg user_input session_id).
Proof.
  unfold MultiAgentSystem.ask_supervisor.
  apply grows_bind; [apply grows_invoke_agent|intros ?].
  apply grows_bind; [grow|intros ?].
  apply grows_bind; [grow|intros ?].
  destruct (is_str "ticketing" _); [apply grows_ticket_request|].
  destruct (is_str "faq" _); [apply grows_answer_question|].
  destruct (is_str "emergency" _); [apply grows_handle_emergency_request|].
  grow.
Qed.

Lemma grows_process_request cfg user_input session_id :
  grows (MultiAgentSystem.process_request C L cfg user_input session_id).
Proof.
  unfold MultiAgentSystem.process_request.
  destruct (MultiAgentSystem.mentions_emergency user_input);
    [|apply grows_ask_supervisor].
  apply grows_bind; [apply grows_evaluate_emergency|intros ?].
  destruct (EmergencyAgent.is_emergency _);
    [apply grows_handle_emergency_request | apply grows_ask_supervisor].
Qed.

End WithWorld.
End Growth.

(** ** Tickets *)

Module TicketClaims.

(** The item an update leaves behind. *)
Lemma cancel_update (id : string) (reason : value) (timestamp : string)
    (t : Table.table) :
  let old := default {["ticket_id" := VStr id]} (t !! id) in
  let stamped :=
    <["updated_at" := VStr timestamp]> (<["status" := VStr "cancelled"]> old) in
  Table.update (TicketingAgent.cancel_request (VStr id) reason timestamp) t
  = Some (<[id := if truthy reason
                  then <["cancellation_reason" := reason]> stamped
                  else stamped]> t).
Proof.
  unfold TicketingAgent.cancel_request, Table.update.
  destruct (truthy reason); reflexivity.
Qed.

Section WithWorld.
Context {E : Type} (C : collaborators E).

(** C8, amended. [cancel_ticket] sends one update and nothing else, so it
    does not look the ticket up first. The update sets status to cancelled
    and updated_at to the current time, sets cancellation_reason exactly
    when a reason is given, and leaves every other attribute of the item
    and every other item as they were; it goes through whether or not the
    ticket existed. The result is true when the update returns and false
    when it fails with the store's [ClientError]; a failure of any other
    class is not answered by false, it is raised to the caller. *)
Theorem cancel_ticket_effect (ticket_id reason : value) (w : world E) :
  let timestamp := fst (utcnow C (env w)) in
  let r := TicketingAgent.cancel_request ticket_id reason timestamp in
  let answer := fst (update_item C r (snd (utcnow C (env w)))) in
  calls_of (TicketingAgent.cancel_ticket C ticket_id reason) w = [UpdateItem r]
  /\ fst (TicketingAgent.cancel_ticket C ticket_id reason w)
     = match answer with
       | Ok _ => Ok true
       | Raised e => if is_ClientError e then Ok false else Raised e
       end
  /\ forall (id : string) (t : Table.table),
       ticket_id = VStr id ->
       let old := default {["ticket_id" := VStr id]} (t !! id) in
       exists new,
         Table.update r t = Some (<[id := new]> t)
         /\ new !! "status" = Some (VStr "cancelled")
         /\ new !! "updated_at" = Some (VStr timestamp)
         /\ new !! "cancellation_reason"
            = (if truthy reason then Some reason
               else old !! "cancellation_reason")
         /\ (forall a, a <> "status" -> a <> "updated_at" ->
               a <> "cancellation_reason" -> new !! a = old !! a)
         /\ (forall id', id' <> id -> <[id := new]> t !! id' = t !! id').
Proof.
  intros timestamp r answer. subst answer r timestamp.
  unfold TicketingAgent.cancel_ticket, calls_of. run.
  destruct (utcnow C (env w)) as [timestamp e0]. cbn [fst snd env trace].
  split; [|split].
  - destruct (update_item C _ e0) as [[[]|e] e1]; cbn;
      [|destruct (is_ClientError e); cbn]; by rewrite drop_app_length.
  - destruct (update_item C _ e0) as [[[]|e] e1]; cbn; [reflexivity|].
    by destruct (is_ClientError e).
  - intros id t ->. rewrite cancel_update. cbv zeta.
    eexists. split; [reflexivity|].
    destruct (truthy reason).
    + repeat split.
      * by rewrite lookup_insert_ne, lookup_insert_ne, lookup_insert_eq.
      * by rewrite lookup_insert_ne, lookup_insert_eq.
      * by rewrite lookup_insert_eq.
      * intros a H1 H2 H3. by rewrite !lookup_insert_ne.
      * intros id' Hne. by rewrite lookup_insert_ne.
    + repeat split.
      * by rewrite lookup_insert_ne, lookup_insert_eq.
      * by rewrite lookup_insert_eq.
      * by rewrite !lookup_insert_ne.
      * intros a H1 H2 H3. by rewrite !lookup_insert_ne.
      * intros id' Hne. by rewrite lookup_insert_ne.
Qed.

End WithWorld.

Lemma cancel_ticket_effect_witness :
  fst (TicketingAgent.cancel_ticket (Sample.collab Sample.quiet)
         (VStr "t-1") (VStr "duplicate") Sample.start) = Ok true
  /\ fst (TicketingAgent.cancel_ticket
            (Sample.collab MoreSamples.table_refuses)
            (VStr "t-1") (VStr "duplicate") Sample.start) = Ok false
  /\ exists new,
    Table.update
      (TicketingAgent.cancel_request (VStr "t-1") (VStr "duplicate")
         "2024-05-01T12:00:00")
      {["t-1" := {["ticket_id" := VStr "t-1"; "status" := VStr "open";
                   "subject" := VStr "Printer"]}]}
    = Some (<["t-1" := new]>
              {["t-1" := {["ticket_id" := VStr "t-1"; "status" := VStr "open";
                           "subject" := VStr "Printer"]}]})
    /\ new !! "status" = Some (VStr "cancelled")
    /\ new !! "subject" = Some (VStr "Printer").
Proof.
  split; [|split].
  - exact (proj1 (proj2 (cancel_ticket_effect (Sample.collab Sample.quiet)
                           (VStr "t-1") (VStr "duplicate") Sample.start))).
  - exact (proj1 (proj2 (cancel_ticket_effect
                           (Sample.collab MoreSamples.table_refuses)
                           (VStr "t-1") (VStr "duplicate") Sample.start))).
  - destruct (proj2 (proj2 (cancel_ticket_effect (Sample.collab Sample.quiet)
                              (VStr "t-1") (VStr "duplicate") Sample.start))
                "t-1"
                {["t-1" := {["ticket_id" := VStr "t-1";
                             "status" := VStr "open";
                             "subject" := VStr "Printer"]}]} eq_refl)
      as (new & Hupd & Hstatus & _ & _ & Hframe & _).
    exists new. split; [exact Hupd|]. split; [exact Hstatus|].
    rewrite Hframe; [|done..]. reflexivity.
Defined.

(** C8 as stated fails. The table cannot be reached and the update raises
    an error of another class than [ClientError]: the store update has
    failed, yet [cancel_ticket] does not return false, it raises that error
    to its caller. *)
Lemma cancel_answers_by_bool_counterexample :
  TicketSpec.update_answer (Sample.collab MoreSamples.table_unreachable)
    (VStr "t-1") VNone Sample.start
  = Raised (Exn OtherException "connection reset")
  /\ fst (TicketingAgent.cancel_ticket
            (Sample.collab MoreSamples.table_unreachable)
            (VStr "t-1") VNone Sample.start)
     = Raised (Exn OtherException "connection reset")
  /\ ~ TicketSpec.answers_by_bool
         (Sample.collab MoreSamples.table_unreachable)
         (VStr "t-1") VNone Sample.start.
Proof.
  split; [reflexivity|]. split; [reflexivity|].
  intros H. vm_compute in H. discriminate H.
Qed.

End TicketClaims.

(** ** Routing *)

Lemma prefix_iff (n h : string) :
  String.prefix n h = true <-> exists post, h = n +:+ post.
Proof.
  revert h. induction n as [|c n IH]; intros h.
  - split; [intros _; by exists h | by destruct h].
  - destruct h as [|d h]; simpl.
    + split; [discriminate | intros [post Hpost]; discriminate Hpost].
    + destruct (ascii_dec c d) as [->|Hne].
      * rewrite IH. split; intros [post Hpost]; exists post.
        -- rewrite append_cons. by f_equal.
        -- rewrite append_cons in Hpost. by injection Hpost.
      * split; [discriminate|]. intros [post Hpost].
        rewrite append_cons in Hpost. injection Hpost as Hcd _. by destruct Hne.
Qed.

(** [contains] is the substring test. *)
Lemma contains_iff (n h : string) :
  Text.contains n h = true <-> exists before after, h = before +:+ n +:+ after.
Proof.
  induction h as [|d h IH]; cbn [Text.contains].
  - rewrite orb_false_r, prefix_iff. split.
    + intros [post Hpost]. by exists "", post.
    + intros (before & after & Hh). exists after.
      destruct before; [exact Hh | discriminate Hh].
  - rewrite orb_true_iff, prefix_iff, IH. split.
    + intros [[post Hpost]|(before & after & Hh)].
      * by exists "", post.
      * exists (String d before), after. rewrite append_cons. by f_equal.
    + intros (before & after & Hh). destruct before as [|b before].
      * left. by exists after.
      * right. rewrite append_cons in Hh. injection Hh as _ Hh.
        by exists before, after.
Qed.

Module RoutingFacts.

Lemma occurs_contains (part text : string) :
  RoutingSpec.occurs part text <-> Text.contains part text = true.
Proof. symmetry. apply contains_iff. Qed.

Lemma not_occurs (part text : string) :
  Text.contains part text = false -> ~ RoutingSpec.occurs part text.
Proof. intros Hc Ho. apply occurs_contains in Ho. congruence. Qed.

Lemma mentions_existsb (words : list string) (content : string) :
  RoutingSpec.mentions words content
  <-> existsb (fun word => Text.contains word (Text.lower content)) words
      = true.
Proof.
  unfold RoutingSpec.mentions. rewrite existsb_exists.
  split; intros (word & Hin & Hw); exists word; (split; [exact Hin|]);
    by apply occurs_contains.
Qed.

Lemma not_mentions (words : list string) (content : string) :
  existsb (fun word => Text.contains word (Text.lower content)) words = false
  -> ~ RoutingSpec.mentions words content.
Proof. intros Hc Hm. apply mentions_existsb in Hm. congruence. Qed.

(** The keyword rules of the loop are those of the three groups. *)
Lemma signal_keyword (content : string) (agent : option string) :
  RoutingSpec.signal content agent ->
  MultiAgentSystem.keyword_agent (Text.lower content) = agent.
Proof.
  intros Hs. unfold MultiAgentSystem.keyword_agent.
  destruct Hs as [Ht|Ht Hf|Ht Hf He|Ht Hf He];
    rewrite mentions_existsb in *;
    cbn [existsb RoutingSpec.ticketing_words RoutingSpec.faq_words
           RoutingSpec.emergency_words] in *;
    repeat match goal with
           | H : _ |- context [Text.contains ?w (Text.lower content)] =>
               destruct (Text.contains w (Text.lower content))
           end;
    cbn in *; congruence.
Qed.

Lemma text_of_unique (m : value) (a b : string) :
  RoutingSpec.text_of m a -> RoutingSpec.text_of m b -> a = b.
Proof.
  intros (d & -> & Ha) (d' & [= <-] & Hb).
  destruct Ha as [Ha|[Ha ->]], Hb as [Hb|[Hb ->]]; congruence.
Qed.

Lemma text_content (m : value) (content : string) :
  RoutingSpec.text_of m content ->
  MultiAgentSystem.content_of m = Ok content.
Proof.
  intros (d & -> & [Hd|[Hd ->]]);
    unfold MultiAgentSystem.content_of, Py.get, Dict.get_or;
    by rewrite Hd.
Qed.

Lemma text_get (m : value) (content : string) :
  RoutingSpec.text_of m content ->
  Py.get m "content" (VStr "") = Ok (VStr content).
Proof.
  intros (d & -> & [Hd|[Hd ->]]); unfold Py.get, Dict.get_or; by rewrite Hd.
Qed.

Lemma names_keyword (m : value) (content : string) (agent : option string) :
  RoutingSpec.text_of m content ->
  RoutingSpec.names m agent ->
  MultiAgentSystem.keyword_agent (Text.lower content) = agent.
Proof.
  intros Hc (content' & Hc' & Hs).
  rewrite (text_of_unique _ _ _ Hc Hc'). by apply signal_keyword.
Qed.

Lemma absent_free (c : ascii) (s : string) :
  ~ RoutingSpec.occurs (String c "") s -> BraceFacts.absent c s.
Proof.
  intros Hfree.
  destruct (BraceFacts.find_from_spec c s 0)
    as [[Habs _]|(before & rest & -> & _)]; [exact Habs|].
  destruct Hfree. by exists before, rest.
Qed.

Lemma find_absent (c : ascii) (s : string) :
  Text.find c s = -1 -> BraceFacts.absent c s.
Proof.
  unfold Text.find. intros Hf.
  destruct (BraceFacts.find_from_spec c s 0)
    as [[Habs _]|(before & rest & _ & _ & Hfound)]; [exact Habs|].
  rewrite Hfound in Hf. lia.
Qed.

Lemma same_length_cut (a b x y : string) :
  a +:+ x = b +:+ y -> String.length a = String.length b ->
  a = b /\ x = y.
Proof.
  intros Heq Hlen.
  destruct (BraceFacts.append_cut a b x y Heq ltac:(lia)) as (m & -> & ->).
  rewrite BraceFacts.length_append in Hlen.
  destruct m; [|cbn in Hlen; lia].
  split; [|reflexivity].
  clear. induction a as [|c a IH]; [reflexivity|].
  rewrite append_cons. by f_equal.
Qed.

(** The part from the first opening brace to the last closing brace is the
    slice that the code takes. *)
Lemma object_slice (content json_str : string) :
  RoutingSpec.object_text content json_str ->
  Json.brace_slice content = Some json_str.
Proof.
  intros (before & inner & after & Hcontent & -> & Hb & Ha).
  apply absent_free in Hb, Ha.
  destruct (BraceFacts.brace_slice_cases content) as [Hshape Htaken].
  destruct (Htaken before inner after) as [json_str Hslice].
  { rewrite Hcontent. by rewrite !append_assoc. }
  rewrite Hslice. f_equal.
  destruct (Hshape _ Hslice) as (b' & m' & a' & Hcontent' & -> & Hb' & Ha').
  apply find_absent in Hb', Ha'.
  assert (Heq : before +:+ String "{" (inner +:+ String "}" after)
                = b' +:+ String "{" (m' +:+ String "}" a')).
  { transitivity content.
    - rewrite Hcontent. by rewrite !append_assoc.
    - rewrite Hcontent'. by rewrite !append_assoc. }
  destruct (same_length_cut _ _ _ _ Heq) as [_ Hrest].
  { apply Nat.le_antisymm.
    - exact (BraceFacts.first_is_first "{"%char before _ b' _ Hb Heq).
    - exact (BraceFacts.first_is_first "{"%char b' _ before _ Hb'
               (eq_sym Heq)). }
  injection Hrest as Hrest.
  destruct (same_length_cut _ _ _ _ Hrest) as [<- _]; [|reflexivity].
  apply Nat.le_antisymm.
  - exact (BraceFacts.last_is_last "}"%char m' a' inner after Ha'
             (eq_sym Hrest)).
  - exact (BraceFacts.last_is_last "}"%char inner after m' a' Ha Hrest).
Qed.

Lemma slice_object (content json_str : string) :
  Json.brace_slice content = Some json_str ->
  RoutingSpec.object_text content json_str.
Proof.
  intros Hslice.
  destruct (proj1 (BraceFacts.brace_slice_cases content) _ Hslice)
    as (before & inner & after & Hcontent & Hj & Hb & Ha).
  exists before, inner, after. split; [exact Hcontent|].
  split; [exact Hj|].
  apply find_absent in Hb, Ha.
  split; intros (x & y & ->);
    by eapply BraceFacts.occurs_not_absent.
Qed.

Section WithLib.
Context (L : pylib).

Lemma decides_structured (content : string) (d : dict) :
  RoutingSpec.decides L content d ->
  MultiAgentSystem.structured L content = Ok (Some (VDict d)).
Proof.
  intros (Hmark & json_str & Hobj & Hloads & Hagent).
  unfold MultiAgentSystem.structured.
  apply occurs_contains in Hmark.
  change MultiAgentSystem.agent_marker with RoutingSpec.marker.
  rewrite Hmark, (object_slice _ _ Hobj).
  unfold Json.loads. rewrite Hloads.
  cbn [MultiAgentSystem.has_agent Py.bind]. unfold Dict.mem.
  by destruct (Dict.get "agent" d).
Qed.

Lemma undecided_structured (content : string) :
  RoutingSpec.undecided L content ->
  MultiAgentSystem.structured L content = Ok None.
Proof.
  intros Hun. unfold MultiAgentSystem.structured.
  destruct (Text.contains MultiAgentSystem.agent_marker content) eqn:Hmark;
    [|reflexivity].
  destruct Hun as [Hno|[Hno|(json_str & Hobj & Hbad)]].
  - destruct Hno. by apply occurs_contains.
  - destruct (Json.brace_slice content) as [json_str|] eqn:Hslice;
      [|reflexivity].
    by apply slice_object, Hno in Hslice.
  - rewrite (object_slice _ _ Hobj). unfold Json.loads.
    destruct Hbad as [[msg ->]|(d & -> & Hagent)]; [reflexivity|].
    cbn [MultiAgentSystem.has_agent Py.bind]. unfold Dict.mem.
    by rewrite Hagent.
Qed.

(** Over plain fragments the loop overwrites the decision with each
    keyword match: the last match stands. *)
Lemma route_plain (messages : list value) (decision agent : string) :
  Forall (RoutingSpec.plain L) messages ->
  RoutingSpec.last_named messages decision agent ->
  MultiAgentSystem.route_messages L messages decision
  = Ok (VDict [("agent", VStr agent)]).
Proof.
  intros Hplain. revert decision.
  induction Hplain as [|m rest (content & Hc & Hun) _ IH];
    intros decision Hlast.
  - destruct Hlast as [(before & m & after & Hnil & _)|[-> _]];
      [by destruct before | reflexivity].
  - cbn [MultiAgentSystem.route_messages].
    rewrite (text_content _ _ Hc). cbn [Py.bind].
    rewrite (undecided_structured _ Hun). cbn [Py.bind].
    destruct Hlast as [(before & m' & after & Heq & Hname & Hafter)
                      |[-> Hnone]].
    + destruct before as [|m0 before]; cbn [app] in Heq;
        injection Heq as <- ->.
      * rewrite (names_keyword _ _ _ Hc Hname).
        apply IH. right. by split.
      * destruct (MultiAgentSystem.keyword_agent (Text.lower content));
          apply IH; left; by exists before, m', after.
    + apply Forall_cons in Hnone as [Hm Hrest].
      rewrite (names_keyword _ _ _ Hc Hm). apply IH. right. by split.
Qed.

(** A recognised structured decision is returned on the spot. *)
Lemma route_structured (before rest : list value) (m : value)
    (content decision : string) (d : dict) :
  Forall (RoutingSpec.plain L) before ->
  RoutingSpec.text_of m content ->
  RoutingSpec.decides L content d ->
  MultiAgentSystem.route_messages L (before ++ m :: rest) decision
  = Ok (VDict d).
Proof.
  intros Hplain Hc Hdec. revert decision.
  induction Hplain as [|m0 before (c0 & Hc0 & Hun0) _ IH]; intros decision.
  - cbn [app MultiAgentSystem.route_messages].
    rewrite (text_content _ _ Hc). cbn [Py.bind].
    by rewrite (decides_structured _ _ Hdec).
  - cbn [app MultiAgentSystem.route_messages].
    rewrite (text_content _ _ Hc0). cbn [Py.bind].
    rewrite (undecided_structured _ Hun0). cbn [Py.bind].
    destruct (MultiAgentSystem.keyword_agent (Text.lower c0)); apply IH.
Qed.

End WithLib.
End RoutingFacts.

Example sample_ticket_creation :
  MultiAgentSystem.process_request (Sample.collab Sample.ticket_creation)
    Sample.lib (Sample.system Sample.topic) "My printer is broken" None
    Sample.start
  = (Raised (Exn TypeError
       "TicketingAgent.create_ticket() missing 2 required positional arguments: 'user_id' and 'emergency'"),
     World 2%nat
       [InvokeAgent (AgentRequest "My printer is broken" "AGENT1" "ALIAS1" None);
        InvokeModel (IntentPrompt "My printer is broken")]).
Proof. vm_compute. reflexivity. Qed.

Example sample_small_talk :
  MultiAgentSystem.process_request (Sample.collab Sample.small_talk)
    Sample.lib (Sample.system Sample.topic) "Good morning" None Sample.start
  = (Ok [("response", VStr "Hello, how can I assist?");
         ("session_id", VStr "session-7")],
     World 1%nat [InvokeAgent (AgentRequest "Good morning" "AGENT1" "ALIAS1" None)]).
Proof. vm_compute. reflexivity. Qed.

Module RouterFacts.
Section WithWorld.
Context {E : Type} (C : collaborators E) (L : pylib)
        (cfg : MultiAgentSystem.config).

Lemma supervisor_message (supervisor_response : dict)
    (messages : list value) (text : string) :
  Dict.get_or "messages" (VList []) supervisor_response = VList messages ->
  RoutingSpec.first_text messages text ->
  MultiAgentSystem._extract_supervisor_message supervisor_response
  = Ok (VStr text).
Proof.
  intros Hm Hfirst. unfold MultiAgentSystem._extract_supervisor_message.
  rewrite Hm. destruct messages as [|m rest]; cbn in Hfirst |- *.
  - by rewrite Hfirst.
  - by apply RoutingFacts.text_get.
Qed.

(** The emergency check does not fire on a calm input. *)
Lemma calm_input (user_input : string) :
  RoutingSpec.calm user_input ->
  MultiAgentSystem.mentions_emergency user_input = false.
Proof.
  intros Hcalm. apply not_true_is_false. intros Hm. apply Hcalm.
  by apply RoutingFacts.mentions_existsb.
Qed.

(** The supervisor is the first collaborator that [ask_supervisor]
    calls. *)
Lemma ask_supervisor_first (user_input : string)
    (session_id : option string) (w : world E) :
  calls_of (MultiAgentSystem.ask_supervisor C L cfg user_input session_id) w
  = []
  \/ exists request later,
       calls_of (MultiAgentSystem.ask_supervisor C L cfg user_input
                   session_id) w
       = InvokeAgent request :: later.
Proof.
  unfold MultiAgentSystem.ask_supervisor.
  set (k := fun supervisor_response : dict => _).
  assert (Hk : forall a, grows (k a)).
  { intros a. unfold k.
    apply grows_bind; [grow|intros ?].
    apply grows_bind; [grow|intros ?].
    destruct (is_str "ticketing" _); [apply Growth.grows_ticket_request|].
    destruct (is_str "faq" _); [apply Growth.grows_answer_question|].
    destruct (is_str "emergency" _);
      [apply Growth.grows_handle_emergency_request|].
    grow. }
  unfold SupervisorAgentClient.invoke_agent.
  destruct (SupervisorAgentClient.present _) as [aid|];
    [destruct (SupervisorAgentClient.present _) as [alias|]|];
    [|left; unfold calls_of, bind, raise; cbn; by rewrite drop_all ..].
  right.
  match goal with
  | |- context [try_except ?body ?c ?h] =>
      assert (Htr : exists request,
                forall w0, trace (snd (try_except body c h w0))
                           = trace w0 ++ [InvokeAgent request])
  end.
  { eexists. intros w0. run.
    destruct (invoke_agent_runtime C _ (env w0)) as [[response|e] e1]; cbn;
      [|reflexivity].
    destruct (SupervisorAgentClient.collect L _ _); cbn; [|reflexivity].
    by destruct (reply_sessionId response). }
  destruct Htr as [request Htr]. exists request.
  destruct (calls_of_bind _ k w _ (Htr w) Hk) as [later Hcalls].
  exists later. exact Hcalls.
Qed.

End WithWorld.
End RouterFacts.

Module RouterClaims.
Section WithWorld.
Context {E : Type} (C : collaborators E) (L : pylib)
        (cfg : MultiAgentSystem.config).

Abbreviation process := (MultiAgentSystem.process_request C L cfg).
Abbreviation extract := (MultiAgentSystem._extract_routing_decision L).

(** C9, amended. The fragments of the supervisor's reply are read in
    order. A fragment whose text holds the marker of a structured decision
    (an opening brace directly followed by the quoted word agent and a
    colon) and whose part from the first opening brace to the last closing
    brace parses to a JSON object with a key 'agent' decides on the spot:
    that object is the decision, whatever the keywords of the fragments
    before it and whatever comes after it. Without such a fragment the
    keywords decide, fragment by fragment on the lowercased text: ticket
    names ticketing; else question, faq or knowledge base name faq; else
    emergency or urgent name emergency. The last fragment that names an
    agent decides, and the supervisor when none does; in that last case
    the router answers with the text of the first fragment of the reply
    (the empty text without fragments) and the session identifier of the
    reply, and calls no handler. *)
Theorem routing_decision_extraction (supervisor_response : dict)
    (messages : list value) :
  Dict.get_or "messages" (VList []) supervisor_response = VList messages ->
  (forall before m rest content d,
     messages = before ++ m :: rest ->
     Forall (RoutingSpec.plain L) before ->
     RoutingSpec.text_of m content ->
     RoutingSpec.decides L content d ->
     extract supervisor_response = Ok (VDict d))
  /\ (forall agent,
        Forall (RoutingSpec.plain L) messages ->
        RoutingSpec.last_named messages "supervisor" agent ->
        extract supervisor_response = Ok (VDict [("agent", VStr agent)]))
  /\ (forall text,
        Forall (RoutingSpec.plain L) messages ->
        Forall (fun m => RoutingSpec.names m None) messages ->
        RoutingSpec.first_text messages text ->
        extract supervisor_response
        = Ok (VDict [("agent", VStr "supervisor")])
        /\ forall user_input session_id (w w1 : world E),
             RoutingSpec.calm user_input ->
             SupervisorAgentClient.invoke_agent C L
               (MultiAgentSystem.supervisor_cfg cfg) user_input session_id w
             = (Ok supervisor_response, w1) ->
             process user_input session_id w
             = (Ok [("response", VStr text);
                    ("session_id",
                     Dict.get_or "sessionId" VNone supervisor_response)],
                w1)).
Proof.
  intros Hm. unfold MultiAgentSystem._extract_routing_decision.
  rewrite Hm. cbn [MultiAgentSystem.iterate Py.bind].
  split; [|split].
  - intros before m rest content d -> Hplain Hc Hdec.
    by eapply RoutingFacts.route_structured.
  - intros agent Hplain Hlast. by apply RoutingFacts.route_plain.
  - intros text Hplain Hnone Hfirst.
    assert (Hroute : MultiAgentSystem.route_messages L messages "supervisor"
                     = Ok (VDict [("agent", VStr "supervisor")])).
    { apply RoutingFacts.route_plain; [exact Hplain|]. right. by split. }
    split; [exact Hroute|].
    intros user_input session_id w w1 Hcalm Hreply.
    unfold MultiAgentSystem.process_request.
    rewrite (RouterFacts.calm_input _ Hcalm).
    unfold MultiAgentSystem.ask_supervisor. unfold bind at 1.
    rewrite Hreply. unfold MultiAgentSystem._extract_routing_decision.
    rewrite Hm. cbn [MultiAgentSystem.iterate Py.bind]. rewrite Hroute.
    rewrite (RouterFacts.supervisor_message _ _ _ Hm Hfirst).
    reflexivity.
Qed.

(** C10. The emergency check is a substring test on the lowercased input:
    it holds exactly when one of the seven keywords occurs somewhere in it,
    also inside a longer word such as helpful or urgently. When it holds,
    the first call of the router is the evaluator's model call, before any
    call of the supervisor. When it does not, the router goes straight to
    the supervisor, which is then the first collaborator called. *)
Theorem emergency_check_is_substring (user_input : string)
    (session_id : option string) (w : world E) :
  (MultiAgentSystem.mentions_emergency user_input = true <->
   exists keyword before after,
     In keyword ["emergency"; "accident"; "injury"; "fire"; "urgent";
                 "help"; "danger"]
     /\ Text.lower user_input = before +:+ keyword +:+ after)
  /\ MultiAgentSystem.mentions_emergency "That was helpful" = true
  /\ MultiAgentSystem.mentions_emergency "I need it URGENTLY" = true
  /\ (MultiAgentSystem.mentions_emergency user_input = true ->
      exists later,
        calls_of (process user_input session_id) w
        = InvokeModel (EmergencyPrompt user_input) :: later)
  /\ (MultiAgentSystem.mentions_emergency user_input = false ->
      process user_input session_id w
      = MultiAgentSystem.ask_supervisor C L cfg user_input session_id w
      /\ (calls_of (process user_input session_id) w = []
          \/ exists request later,
               calls_of (process user_input session_id) w
               = InvokeAgent request :: later)).
Proof.
  split; [|split; [reflexivity|split; [reflexivity|split]]].
  - unfold MultiAgentSystem.mentions_emergency.
    rewrite existsb_exists. split.
    + intros (keyword & Hin & Hc). apply contains_iff in Hc
        as (before & after & Hc). by exists keyword, before, after.
    + intros (keyword & before & after & Hin & Hc). exists keyword.
      split; [exact Hin|]. apply contains_iff. by exists before, after.
  - intros Hcheck. unfold MultiAgentSystem.process_request. rewrite Hcheck.
    destruct (EmergencyFacts.evaluate_run C L
                (MultiAgentSystem.emergency_cfg cfg) user_input w)
      as (w1 & Hrun & published & Htr & _).
    match goal with
    | |- context [bind ?m ?k] =>
        destruct (calls_of_bind m k w
                    (InvokeModel (EmergencyPrompt user_input) :: published))
          as [later Hcalls]
    end.
    + by rewrite Hrun.
    + intros evaluation. destruct (EmergencyAgent.is_emergency evaluation);
        [apply Growth.grows_handle_emergency_request
        | apply Growth.grows_ask_supervisor].
    + exists (published ++ later). exact Hcalls.
  - intros Hcheck. unfold MultiAgentSystem.process_request. rewrite Hcheck.
    split; [reflexivity|].
    apply RouterFacts.ask_supervisor_first.
Qed.

End WithWorld.

(** C1 fails on the code. The supervisor sends the request to ticketing and
    the intent model reads it as the creation of a ticket:
    [process_request] of the ticketing agent calls [create_ticket] without
    its parameters [user_id] and [emergency], and the router raises a
    [TypeError] instead of returning a result. No ticket is stored. *)
Theorem create_ticket_dispatch_raises :
  MultiAgentSystem.process_request (Sample.collab Sample.ticket_creation)
    Sample.lib (Sample.system Sample.topic) "My printer is broken" None
    Sample.start
  = (Raised (Exn TypeError
       "TicketingAgent.create_ticket() missing 2 required positional arguments: 'user_id' and 'emergency'"),
     World 2%nat
       [InvokeAgent (AgentRequest "My printer is broken" "AGENT1" "ALIAS1" None);
        InvokeModel (IntentPrompt "My printer is broken")]).
Proof. vm_compute. reflexivity. Qed.

Lemma routing_decision_extraction_witness :
  MultiAgentSystem._extract_routing_decision Sample.lib
    (MoreSamples.reply_of
       ["Please open a ticket";
        "Routing: " +:+ Sample.agent_text "faq" +:+ " (confident)";
        "This is urgent"])
  = Ok (VDict [("agent", VStr "faq")])
  /\ MultiAgentSystem._extract_routing_decision Sample.lib
       (MoreSamples.reply_of
          ["This is an FAQ question"; "Please CREATE a Ticket for this";
           "Thank you"])
     = Ok (VDict [("agent", VStr "ticketing")])
  /\ MultiAgentSystem.process_request (Sample.collab Sample.small_talk)
       Sample.lib (Sample.system Sample.topic) "Good morning" None
       Sample.start
     = (Ok [("response", VStr "Hello, how can I assist?");
            ("session_id", VStr "session-7")],
        World 1%nat
          [InvokeAgent (AgentRequest "Good morning" "AGENT1" "ALIAS1" None)]).
Proof.
  split; [|split].
  - apply (proj1 (routing_decision_extraction (Sample.collab Sample.quiet)
                    Sample.lib (Sample.system Sample.topic)
                    (MoreSamples.reply_of
                       ["Please open a ticket";
                        "Routing: " +:+ Sample.agent_text "faq"
                          +:+ " (confident)";
                        "This is urgent"])
                    _ eq_refl)
             [Sample.chunk_value "Please open a ticket"]
             (Sample.chunk_value
                ("Routing: " +:+ Sample.agent_text "faq" +:+ " (confident)"))
             [Sample.chunk_value "This is urgent"]
             ("Routing: " +:+ Sample.agent_text "faq" +:+ " (confident)")
             [("agent", VStr "faq")] eq_refl).
    + repeat constructor. eexists. split; [by eexists; split; [|left]|].
      left. by apply RoutingFacts.not_occurs.
    + by eexists; split; [|left].
    + split; [by apply RoutingFacts.occurs_contains|].
      exists (Sample.agent_text "faq"). split; [|by split].
      exists "Routing: ", (Sample.field "agent" "faq"), " (confident)".
      repeat split; by apply RoutingFacts.not_occurs.
  - apply (proj1 (proj2 (routing_decision_extraction
                           (Sample.collab Sample.quiet) Sample.lib
                           (Sample.system Sample.topic)
                           (MoreSamples.reply_of
                              ["This is an FAQ question";
                               "Please CREATE a Ticket for this";
                               "Thank you"])
                           _ eq_refl))).
    + repeat constructor; (eexists; split; [by eexists; split; [|left]|]);
        left; by apply RoutingFacts.not_occurs.
    + left. exists [Sample.chunk_value "This is an FAQ question"],
        (Sample.chunk_value "Please CREATE a Ticket for this"),
        [Sample.chunk_value "Thank you"].
      split; [reflexivity|]. split.
      * eexists. split; [by eexists; split; [|left]|].
        apply RoutingSpec.signal_ticketing. exists "ticket".
        split; [by left|]. by apply RoutingFacts.occurs_contains.
      * repeat constructor. eexists. split; [by eexists; split; [|left]|].
        apply RoutingSpec.signal_none; by apply RoutingFacts.not_mentions.
  - apply (proj2 (proj2 (proj2
             (routing_decision_extraction (Sample.collab Sample.small_talk)
                Sample.lib (Sample.system Sample.topic)
                (MoreSamples.reply_of ["Hello, how can I assist?"])
                _ eq_refl))
             "Hello, how can I assist?"
             ltac:(repeat constructor;
                   (eexists; split; [by eexists; split; [|left]|]);
                   left; by apply RoutingFacts.not_occurs)
             ltac:(repeat constructor;
                   (eexists; split; [by eexists; split; [|left]|]);
                   apply RoutingSpec.signal_none;
                   by apply RoutingFacts.not_mentions)
             ltac:(by eexists; split; [|left]))
           "Good morning" None Sample.start).
    + by apply RoutingFacts.not_mentions.
    + vm_compute. reflexivity.
Defined.

(** C9 as stated fails. The reply is a JSON object with a key 'agent' that
    asks for the FAQ agent, but its first key is another one, so the
    marker is not in the text: the object does not win, the keywords of
    the same text are read and name ticketing. And on the passthrough the
    router does not answer with the supervisor's reply text: of a reply in
    two fragments it returns the first fragment only. *)
Lemma structured_object_wins_counterexample :
  MultiAgentSystem._extract_routing_decision MoreSamples.routing_lib
    (MoreSamples.reply_of [MoreSamples.late_agent_text])
  = Ok (VDict [("agent", VStr "ticketing")])
  /\ ~ RoutingSpec.object_wins MoreSamples.routing_lib
         (MoreSamples.reply_of [MoreSamples.late_agent_text])
  /\ MultiAgentSystem.process_request
       (Sample.collab MoreSamples.two_fragments) MoreSamples.routing_lib
       (Sample.system Sample.topic) "Good morning" None Sample.start
     = (Ok [("response", VStr "Hello.");
            ("session_id", VStr "session-7")],
        World 1%nat
          [InvokeAgent (AgentRequest "Good morning" "AGENT1" "ALIAS1" None)])
  /\ fst (SupervisorAgentClient.invoke_agent
            (Sample.collab MoreSamples.two_fragments)
            MoreSamples.routing_lib
            (MultiAgentSystem.supervisor_cfg (Sample.system Sample.topic))
            "Good morning" None Sample.start)
     = Ok (MoreSamples.reply_of ["Hello."; " How can I help?"])
  /\ ~ RoutingSpec.passes_reply
         (MoreSamples.reply_of ["Hello."; " How can I help?"])
         [("response", VStr "Hello."); ("session_id", VStr "session-7")].
Proof.
  split; [by vm_compute|]. split; [|split; [by vm_compute|split]].
  - intros Hwins.
    specialize (Hwins (Sample.chunk_value MoreSamples.late_agent_text) []
                  MoreSamples.late_agent_text
                  [("reason", VStr "cancel ticket"); ("agent", VStr "faq")]
                  eq_refl).
    assert (Hbad : MultiAgentSystem._extract_routing_decision
                     MoreSamples.routing_lib
                     (MoreSamples.reply_of [MoreSamples.late_agent_text])
                   = Ok (VDict [("reason", VStr "cancel ticket");
                                ("agent", VStr "faq")])).
    { apply Hwins.
      - by eexists; split; [|left].
      - exists MoreSamples.late_agent_text. split; [|by split].
        exists "", (Sample.field "reason" "cancel ticket" +:+ ", "
                      +:+ Sample.field "agent" "faq"), "".
        repeat split; by apply RoutingFacts.not_occurs. }
    vm_compute in Hbad. discriminate Hbad.
  - by vm_compute.
  - intros Hpass.
    specialize (Hpass [Sample.chunk_value "Hello.";
                       Sample.chunk_value " How can I help?"]
                  ["Hello."; " How can I help?"] eq_refl).
    assert (Hbad : Dict.get "response"
                     [("response", VStr "Hello.");
                      ("session_id", VStr "session-7")]
                   = Some (VStr (String.concat ""
                                   ["Hello."; " How can I help?"]))).
    { apply Hpass. repeat constructor; by eexists; split; [|left]. }
    vm_compute in Hbad. discriminate Hbad.
Qed.

Lemma emergency_check_is_substring_witness :
  exists later,
    calls_of (MultiAgentSystem.process_request (Sample.collab Sample.quiet)
                Sample.lib (Sample.system Sample.topic) "That was helpful"
                None) Sample.start
    = InvokeModel (EmergencyPrompt "That was helpful") :: later.
Proof.
  apply (proj1 (proj2 (proj2 (proj2
           (emergency_check_is_substring (Sample.collab Sample.quiet)
              Sample.lib (Sample.system Sample.topic) "That was helpful"
              None Sample.start))))).
  reflexivity.
Defined.

End RouterClaims.

(** ** Which calls a computation can make *)

Lemma emits_ret {E A} P (a : A) : emits P (@ret E A a).
Proof. intros w. exists []. by rewrite app_nil_r. Qed.

Lemma emits_raise {E A} P (e : exn) : emits P (@raise E A e).
Proof. intros w. exists []. by rewrite app_nil_r. Qed.

Lemma emits_lift {E A} P (r : result A) : emits P (@lift E A r).
Proof. intros w. exists []. by rewrite app_nil_r. Qed.

Lemma emits_ask {E A} P (f : E -> A * E) : emits P (ask f).
Proof.
  intros w. unfold ask. destruct (f (env w)). exists []. by rewrite app_nil_r.
Qed.

Lemma emits_call {E A} (P : event -> bool) (ev : event)
    (f : E -> result A * E) :
  P ev = true -> emits P (call ev f).
Proof.
  intros Hev w. unfold call. destruct (f (env w)). exists [ev].
  split; [reflexivity | by repeat constructor].
Qed.

Lemma emits_bind {E A B} P (m : M E A) (k : A -> M E B) :
  emits P m -> (forall a, emits P (k a)) -> emits P (bind m k).
Proof.
  intros Hm Hk w. unfold bind. destruct (Hm w) as (l1 & H1 & HP1).
  destruct (m w) as [[a|e] w1]; cbn [snd] in *.
  - destruct (Hk a w1) as (l2 & H2 & HP2). exists (l1 ++ l2).
    split; [by rewrite H2, H1, app_assoc | by apply Forall_app].
  - by exists l1.
Qed.

Lemma emits_try {E A} P (body : M E A) (catches : exn -> bool)
    (handler : exn -> M E A) :
  emits P body -> (forall e, emits P (handler e)) ->
  emits P (try_except body catches handler).
Proof.
  intros Hb Hh w. unfold try_except. destruct (Hb w) as (l1 & H1 & HP1).
  destruct (body w) as [[a|e] w1]; cbn [snd] in *; [by exists l1|].
  destruct (catches e); [|by exists l1].
  destruct (Hh e w1) as (l2 & H2 & HP2). exists (l1 ++ l2).
  split; [by rewrite H2, H1, app_assoc | by apply Forall_app].
Qed.

Lemma emits_weaken {E A} (P Q : event -> bool) (m : M E A) :
  (forall ev, P ev = true -> Q ev = true) -> emits P m -> emits Q m.
Proof.
  intros HPQ Hm w. destruct (Hm w) as (l & Htr & HP). exists l.
  split; [exact Htr|]. eapply Forall_impl; [exact HP | exact HPQ].
Qed.

Lemma emits_calls {E A} P (m : M E A) (w : world E) :
  emits P m -> Forall (fun ev => P ev = true) (calls_of m w).
Proof.
  intros Hm. destruct (Hm w) as (l & Htr & HP).
  by rewrite (calls_of_trace m w l Htr).
Qed.

(** Take a computation apart; what is left are the calls to check. *)
Ltac emit :=
  repeat first
    [ apply emits_ret | apply emits_raise | apply emits_lift | apply emits_ask
    | apply emits_call; [reflexivity]
    | apply emits_bind; [|intros ?]
    | apply emits_try; [|intros ?]
    | match goal with
      | |- emits _ (if ?b then _ else _) => destruct b
      | |- emits _ (match ?x with _ => _ end) => destruct x
      end ].

(** ** Ticketing requests in natural language *)

Module TicketRequests.
Section WithWorld.
Context {E : Type} (C : collaborators E) (L : pylib).

Abbreviation process := (BedrockTicketingAgent.process_request C L).
Abbreviation intent_of := (BedrockTicketingAgent._determine_intent C L).

(** The call that [process_request] makes for a creation leaves the
    parameters [user_id] and [emergency] unbound. *)
Lemma creation_call_raises (subject description priority assigned_to : value) :
  TicketingAgent.create_ticket_call C
    [("subject", subject); ("description", description);
     ("priority", priority); ("assigned_to", assigned_to)]
  = raise (Exn TypeError
      "TicketingAgent.create_ticket() missing 2 required positional arguments: 'user_id' and 'emergency'").
Proof. reflexivity. Qed.

(** An intent to create a ticket always ends in a [TypeError], raised
    before anything is sent to the store. *)
Theorem create_ticket_intent_raises (user_input : string) (w w1 : world E)
    (intent : dict) (action : value) :
  intent_of user_input w = (Ok (VDict intent), w1) ->
  Dict.get "action" intent = Some action ->
  is_str "create_ticket" action = true ->
  process user_input w
  = (Raised (Exn TypeError
       "TicketingAgent.create_ticket() missing 2 required positional arguments: 'user_id' and 'emergency'"),
     w1).
Proof.
  intros Hintent Haction Hcreate.
  unfold BedrockTicketingAgent.process_request. unfold bind at 1.
  rewrite Hintent. unfold BedrockTicketingAgent.action_of. rewrite Haction.
  unfold bind, lift. cbn [Json.as_dict]. rewrite Hcreate.
  by rewrite creation_call_raises.
Qed.

(** No request in natural language ever stores a ticket: [put_item] is
    never called. *)
Theorem ticket_request_never_stores (user_input : string) (w : world E) :
  Forall (fun ev => is_put ev = false) (calls_of (process user_input) w).
Proof.
  assert (H : emits (fun ev => negb (is_put ev)) (process user_input)).
  { unfold BedrockTicketingAgent.process_request,
      BedrockTicketingAgent._determine_intent.
    apply emits_bind; [emit|intros intent_v].
    apply emits_bind; [emit|intros action].
    apply emits_bind; [emit|intros intent].
    destruct (is_str "create_ticket" action).
    { rewrite creation_call_raises. emit. }
    unfold TicketingAgent.get_ticket_status, TicketingAgent.cancel_ticket.
    emit. }
  eapply Forall_impl; [apply (emits_calls _ _ w H)|].
  intros ev Hev. by apply negb_true_iff.
Qed.

(** A status or cancellation request without a ticket id is answered with
    an error result, and the store is not called. *)
Theorem missing_ticket_id_is_reported (user_input : string) (w w1 : world E)
    (intent : dict) (action : value) (name : string) :
  intent_of user_input w = (Ok (VDict intent), w1) ->
  Dict.get "action" intent = Some action ->
  (name = "get_ticket_status" \/ name = "cancel_ticket") ->
  is_str name action = true ->
  truthy (Dict.get_or "ticket_id" VNone intent) = false ->
  process user_input w
  = (Ok [("action", VStr name); ("success", VBool false);
         ("error", VStr "No ticket ID provided")],
     w1).
Proof.
  intros Hintent Haction Hname Hact Hid.
  unfold BedrockTicketingAgent.process_request. unfold bind at 1.
  rewrite Hintent. unfold BedrockTicketingAgent.action_of. rewrite Haction.
  unfold bind, lift. cbn [Json.as_dict].
  destruct action as [| | |s| |]; try discriminate Hact.
  cbn [is_str] in *. apply String.eqb_eq in Hact. subst s.
  destruct Hname as [-> | ->]; cbn [String.eqb Ascii.eqb Bool.eqb];
    rewrite Hid; reflexivity.
Qed.

(** When the reply of the intent model holds no JSON object, or one that
    does not parse, the request is answered with the unknown-action error
    result; the model call is the only call made. *)
Theorem unreadable_intent_is_unknown (user_input body content : string)
    (e1 : E) (w : world E) :
  invoke_model C (IntentPrompt user_input) (env w) = (Ok body, e1) ->
  Json.reply_text L body "{}" = Ok (VStr content) ->
  (Json.brace_slice content = None
   \/ exists json_str msg,
        Json.brace_slice content = Some json_str
        /\ json_loads L json_str = inr msg) ->
  process user_input w
  = (Ok [("action", VStr "unknown"); ("success", VBool false);
         ("error", VStr "Could not determine the requested action")],
     World e1 (trace w ++ [InvokeModel (IntentPrompt user_input)])).
Proof.
  intros Hcall Hreply Hbad.
  unfold BedrockTicketingAgent.process_request,
    BedrockTicketingAgent._determine_intent. run.
  rewrite Hcall. cbn. rewrite Hreply. cbn.
  destruct Hbad as [-> | (json_str & msg & -> & Hmsg)]; [reflexivity|].
  unfold Json.loads. rewrite Hmsg. reflexivity.
Qed.

(** A failure of the intent model is not caught: it leaves
    [process_request] as it is. *)
Theorem intent_model_failure_propagates (user_input : string) (e : exn)
    (e1 : E) (w : world E) :
  invoke_model C (IntentPrompt user_input) (env w) = (Raised e, e1) ->
  process user_input w
  = (Raised e, World e1 (trace w ++ [InvokeModel (IntentPrompt user_input)])).
Proof.
  intros Hcall.
  unfold BedrockTicketingAgent.process_request,
    BedrockTicketingAgent._determine_intent. run.
  by rewrite Hcall.
Qed.

End WithWorld.

Lemma create_ticket_intent_raises_witness :
  fst (BedrockTicketingAgent.process_request
         (Sample.collab MoreSamples.creation) MoreSamples.lib
         "My printer is broken" Sample.start)
  = Raised (Exn TypeError
      "TicketingAgent.create_ticket() missing 2 required positional arguments: 'user_id' and 'emergency'").
Proof.
  rewrite (create_ticket_intent_raises (Sample.collab MoreSamples.creation)
             MoreSamples.lib "My printer is broken" Sample.start
             (World 1%nat [InvokeModel (IntentPrompt "My printer is broken")])
             [("action", VStr "create_ticket"); ("subject", VStr "Printer")]
             (VStr "create_ticket"));
    reflexivity.
Defined.

Lemma missing_ticket_id_is_reported_witness :
  fst (BedrockTicketingAgent.process_request
         (Sample.collab MoreSamples.status_without_id) MoreSamples.lib
         "Where is my ticket?" Sample.start)
  = Ok [("action", VStr "get_ticket_status"); ("success", VBool false);
        ("error", VStr "No ticket ID provided")].
Proof.
  rewrite (missing_ticket_id_is_reported
             (Sample.collab MoreSamples.status_without_id) MoreSamples.lib
             "Where is my ticket?" Sample.start
             (World 1%nat [InvokeModel (IntentPrompt "Where is my ticket?")])
             [("action", VStr "get_ticket_status")]
             (VStr "get_ticket_status") "get_ticket_status");
    auto.
Defined.

Lemma unreadable_intent_is_unknown_witness :
  fst (BedrockTicketingAgent.process_request
         (Sample.collab MoreSamples.prose) MoreSamples.lib "Hm?" Sample.start)
  = Ok [("action", VStr "unknown"); ("success", VBool false);
        ("error", VStr "Could not determine the requested action")].
Proof.
  rewrite (unreadable_intent_is_unknown (Sample.collab MoreSamples.prose)
             MoreSamples.lib "Hm?" (Sample.body_of MoreSamples.chat_text)
             MoreSamples.chat_text 1%nat Sample.start);
    auto.
Defined.

Lemma intent_model_failure_propagates_witness :
  fst (BedrockTicketingAgent.process_request
         (Sample.collab Sample.model_down) MoreSamples.lib "Hm?" Sample.start)
  = Raised Sample.boom.
Proof.
  rewrite (intent_model_failure_propagates (Sample.collab Sample.model_down)
             MoreSamples.lib "Hm?" Sample.boom 1%nat Sample.start);
    reflexivity.
Defined.

End TicketRequests.

(** ** Emergencies: responses and notifications *)

Module EmergencyResponses.
Section WithWorld.
Context {E : Type} (C : collaborators E) (L : pylib)
        (cfg : EmergencyAgent.config).

Abbreviation evaluate := (EmergencyAgent.evaluate_emergency C L cfg).
Abbreviation handle := (EmergencyAgent.handle_emergency_request C L cfg).
Abbreviation find := (EmergencySpec.find C L).

Lemma handle_run (message : string) (w w1 : world E) (evaluation : dict) :
  evaluate message w = (Ok evaluation, w1) ->
  handle message w = (Ok (EmergencyShapes.response_to evaluation), w1).
Proof.
  intros Hev. unfold EmergencyAgent.handle_emergency_request, bind.
  rewrite Hev. unfold EmergencyShapes.response_to.
  destruct (EmergencyAgent.is_emergency evaluation);
    [destruct (EmergencyAgent.severity_is_high evaluation)|]; reflexivity.
Qed.

(** One evaluation calls the model once and publishes at most once. *)
Lemma evaluate_calls (message : string) (w : world E) :
  exists published,
    calls_of (evaluate message) w
    = InvokeModel (EmergencyPrompt message) :: published
    /\ Forall (fun ev => is_publish ev = true) published
    /\ length published
       = match find message w, EmergencyAgent.configured_topic cfg with
         | EmergencySpec.Evaluation d, Some _ =>
             if EmergencySpec.escalates d then 1%nat else 0%nat
         | _, _ => 0%nat
         end.
Proof.
  destruct (EmergencyFacts.evaluate_run C L cfg message w)
    as (w' & Hrun & published & Htr & Hpub).
  exists published. split; [apply calls_of_trace; by rewrite Hrun|].
  destruct (find message w) as [e| |d]; try (subst published; by split).
  destruct (EmergencySpec.escalates d);
    [|subst published; split;
      [constructor | by destruct (EmergencyAgent.configured_topic cfg)]].
  destruct (EmergencyAgent.configured_topic cfg) as [topic|].
  - destruct Hpub as [body ->]. split; [by repeat constructor | reflexivity].
  - subst published. by split.
Qed.

(** [handle_emergency_request] always answers. An evaluation that fails is
    reported as no emergency, of unknown severity, with the error as
    reasoning; a reply without a JSON object likewise; otherwise the status
    is emergency_escalated for an emergency of high or critical severity,
    emergency_identified for another emergency and not_emergency for the
    rest. *)
Theorem handle_emergency_request_answer (message : string) (w : world E) :
  fst (handle message w)
  = Ok match find message w with
       | EmergencySpec.Fails e =>
           EmergencyShapes.not_evaluated ("Error: " +:+ exn_str e)
       | EmergencySpec.NoObject =>
           EmergencyShapes.not_evaluated "Failed to evaluate the situation"
       | EmergencySpec.Evaluation d => EmergencyShapes.response_to d
       end.
Proof.
  destruct (EmergencyFacts.evaluate_run C L cfg message w) as (w1 & Hrun & _).
  rewrite (handle_run _ _ _ _ Hrun).
  destruct (find message w); reflexivity.
Qed.

(** A notification is published only for an emergency of high or critical
    severity, with a topic configured, and then once; never when the reply
    says it is no emergency, when it cannot be read or when the model
    fails. *)
Theorem publish_only_on_escalation (message : string) (w : world E) :
  length (List.filter is_publish (calls_of (evaluate message) w))
  = match find message w, EmergencyAgent.configured_topic cfg with
    | EmergencySpec.Evaluation d, Some _ =>
        if EmergencyAgent.is_emergency d && EmergencyAgent.severity_is_high d
        then 1%nat else 0%nat
    | _, _ => 0%nat
    end.
Proof.
  destruct (evaluate_calls message w) as (published & -> & Hall & Hlen).
  unfold EmergencySpec.escalates in Hlen.
  cbn [List.filter is_model_call is_publish]. rewrite <- Hlen.
  clear Hlen. induction Hall as [|ev l Hev _ IH]; [reflexivity|].
  cbn [List.filter]. rewrite Hev. cbn [length]. by rewrite IH.
Qed.

End WithWorld.
End EmergencyResponses.

Module EmergencyRouting.
Section WithWorld.
Context {E : Type} (C : collaborators E) (L : pylib)
        (cfg : MultiAgentSystem.config).

Abbreviation ecfg := (MultiAgentSystem.emergency_cfg cfg).
Abbreviation evaluate := (EmergencyAgent.evaluate_emergency C L ecfg).
Abbreviation handle := (EmergencyAgent.handle_emergency_request C L ecfg).
Abbreviation process := (MultiAgentSystem.process_request C L cfg).

Lemma model_calls_of_evaluation (p : prompt) (published : list event) :
  Forall (fun ev => is_publish ev = true) published ->
  List.filter is_model_call (InvokeModel p :: published) = [InvokeModel p]
  /\ List.filter is_agent_call (InvokeModel p :: published) = [].
Proof.
  intros Hall. cbn [List.filter is_model_call is_agent_call].
  induction Hall as [|ev l Hev _ [IH1 IH2]]; [by split|].
  destruct ev; try discriminate Hev. cbn [List.filter is_model_call is_agent_call].
  split; [exact IH1 | exact IH2].
Qed.

(** When the input mentions an emergency keyword and the evaluator answers
    that it is an emergency, the router hands over to
    [handle_emergency_request], which evaluates the input again: the model
    is asked twice for the one request, and the supervisor is not
    called. *)
Theorem emergency_path_evaluates_twice (user_input : string)
    (session_id : option string) (w w1 : world E) (evaluation : dict) :
  MultiAgentSystem.mentions_emergency user_input = true ->
  evaluate user_input w = (Ok evaluation, w1) ->
  EmergencyAgent.is_emergency evaluation = true ->
  process user_input session_id w = handle user_input w1
  /\ List.filter is_model_call (calls_of (process user_input session_id) w)
     = [InvokeModel (EmergencyPrompt user_input);
        InvokeModel (EmergencyPrompt user_input)]
  /\ List.filter is_agent_call (calls_of (process user_input session_id) w)
     = [].
Proof.
  intros Hcheck Hev Hem.
  assert (Hrun : process user_input session_id w = handle user_input w1).
  { unfold MultiAgentSystem.process_request, bind.
    by rewrite Hcheck, Hev, Hem. }
  split; [exact Hrun|].
  destruct (EmergencyResponses.evaluate_calls C L ecfg user_input w)
    as (p1 & Hc1 & Hp1 & _).
  destruct (EmergencyResponses.evaluate_calls C L ecfg user_input w1)
    as (p2 & Hc2 & Hp2 & _).
  destruct (EmergencyFacts.evaluate_run C L ecfg user_input w1)
    as (w2 & Hrun2 & _).
  assert (Hcalls : calls_of (process user_input session_id) w
                   = (InvokeModel (EmergencyPrompt user_input) :: p1)
                     ++ InvokeModel (EmergencyPrompt user_input) :: p2).
  { unfold calls_of in *. rewrite Hrun, (EmergencyResponses.handle_run
                                           C L ecfg _ _ _ _ Hrun2).
    rewrite Hev in Hc1. rewrite Hrun2 in Hc2. cbn [snd] in *.
    assert (H1 : trace w1 = trace w ++ InvokeModel (EmergencyPrompt user_input) :: p1).
    { destruct (Growth.grows_evaluate_emergency C L ecfg user_input w)
        as [l Hl]. rewrite Hev in Hl. cbn [snd] in Hl.
      rewrite Hl, drop_app_length in Hc1. by rewrite Hl, Hc1. }
    assert (H2 : trace w2 = trace w1 ++ InvokeModel (EmergencyPrompt user_input) :: p2).
    { destruct (Growth.grows_evaluate_emergency C L ecfg user_input w1)
        as [l Hl]. rewrite Hrun2 in Hl. cbn [snd] in Hl.
      rewrite Hl, drop_app_length in Hc2. by rewrite Hl, Hc2. }
    rewrite H2, H1, <- app_assoc. by rewrite drop_app_length. }
  rewrite Hcalls, !List.filter_app.
  destruct (model_calls_of_evaluation (EmergencyPrompt user_input) p1 Hp1)
    as [-> ->].
  destruct (model_calls_of_evaluation (EmergencyPrompt user_input) p2 Hp2)
    as [-> ->].
  by split.
Qed.

End WithWorld.

Lemma emergency_path_evaluates_twice_witness :
  List.filter is_model_call
    (calls_of (MultiAgentSystem.process_request (Sample.collab Sample.quiet)
                 Sample.lib (Sample.system Sample.topic) "There is a fire"
                 None) Sample.start)
  = [InvokeModel (EmergencyPrompt "There is a fire");
     InvokeModel (EmergencyPrompt "There is a fire")].
Proof.
  apply (emergency_path_evaluates_twice (Sample.collab Sample.quiet)
           Sample.lib (Sample.system Sample.topic) "There is a fire" None
           Sample.start
           (snd (EmergencyAgent.evaluate_emergency
                   (Sample.collab Sample.quiet) Sample.lib Sample.topic
                   "There is a fire" Sample.start))
           [("is_emergency", VBool true); ("severity", VStr "critical");
            ("recommended_actions", VList [VStr "Evacuate"]);
            ("reasoning", VStr "Fire reported")]).
  - reflexivity.
  - vm_compute. reflexivity.
  - reflexivity.
Defined.

End EmergencyRouting.

(** ** Dictionaries *)

Module DictFacts.

Lemma get_set_eq k v d : Dict.get k (Dict.set k v d) = Some v.
Proof.
  induction d as [|[k' v'] d IH]; cbn [Dict.set Dict.get].
  - by rewrite String.eqb_refl.
  - destruct (String.eqb k' k) eqn:Hk; cbn [Dict.get].
    + by rewrite String.eqb_refl.
    + by rewrite Hk.
Qed.

Lemma get_set_ne k k' v d :
  k <> k' -> Dict.get k' (Dict.set k v d) = Dict.get k' d.
Proof.
  intros Hne. induction d as [|[k0 v0] d IH]; cbn [Dict.set Dict.get].
  - by apply String.eqb_neq in Hne as ->.
  - destruct (String.eqb k0 k) eqn:Hk; cbn [Dict.get].
    + apply String.eqb_eq in Hk as ->.
      by apply String.eqb_neq in Hne as ->.
    + by rewrite IH.
Qed.

Lemma set_get_id k v d : Dict.get k d = Some v -> Dict.set k v d = d.
Proof.
  induction d as [|[k' v'] d IH]; cbn [Dict.set Dict.get]; [discriminate|].
  destruct (String.eqb k' k) eqn:Hk.
  - apply String.eqb_eq in Hk as ->. by intros [= ->].
  - intros Hget. by rewrite IH.
Qed.

Lemma mem_get k d : Dict.mem k d = true -> exists v, Dict.get k d = Some v.
Proof. unfold Dict.mem. destruct (Dict.get k d); [eauto | discriminate]. Qed.

Lemma mem_set k k' v d :
  Dict.mem k' (Dict.set k v d) = (String.eqb k k' || Dict.mem k' d).
Proof.
  unfold Dict.mem. destruct (String.eqb k k') eqn:Hk.
  - apply String.eqb_eq in Hk as ->. by rewrite get_set_eq.
  - apply String.eqb_neq in Hk. by rewrite get_set_ne.
Qed.

End DictFacts.

(** ** The gate and the text of a response *)

Module GateTexts.

Import GateShapes.

Lemma extract_field (L : pylib) (response : dict) (v : value) :
  has_text response = true ->
  Dict.get (text_field response) response = Some v ->
  SecureMultiAgentSystem._extract_response_text L response = v.
Proof.
  unfold has_text, text_field, SecureMultiAgentSystem._extract_response_text,
    Dict.mem.
  destruct (Dict.get "message" response) eqn:H1; [intros _; congruence|].
  destruct (Dict.get "answer" response) eqn:H2; [intros _; congruence|].
  destruct (Dict.get "response" response) eqn:H3; [intros _; congruence|].
  discriminate.
Qed.

Lemma update_field (response : dict) (t : value) :
  SecureMultiAgentSystem._update_response_text response t
  = Dict.set (text_field response) t response.
Proof.
  unfold SecureMultiAgentSystem._update_response_text, text_field.
  destruct (Dict.mem "message" response); [reflexivity|].
  destruct (Dict.mem "answer" response); [reflexivity|].
  by destruct (Dict.mem "response" response).
Qed.

Lemma text_field_update (response : dict) (t : value) :
  text_field (SecureMultiAgentSystem._update_response_text response t)
  = text_field response
  /\ (has_text response = true ->
      has_text (SecureMultiAgentSystem._update_response_text response t)
      = true).
Proof.
  rewrite update_field. unfold text_field, has_text.
  rewrite !DictFacts.mem_set.
  destruct (Dict.mem "message" response); [by split|].
  destruct (Dict.mem "answer" response); [by split|].
  destruct (Dict.mem "response" response); by split.
Qed.

(** Writing a filtered text into a response and reading the text back gives
    the filtered text, when the response has one of the fields message,
    answer, response; the write touches that one field only (or adds
    filtered_response when there is none). *)
Theorem filtered_text_round_trip (L : pylib) (response : dict) (t : value) :
  (has_text response = true ->
   SecureMultiAgentSystem._extract_response_text L
     (SecureMultiAgentSystem._update_response_text response t) = t)
  /\ Dict.get (text_field response)
       (SecureMultiAgentSystem._update_response_text response t) = Some t
  /\ (forall k, k <> text_field response ->
        Dict.get k (SecureMultiAgentSystem._update_response_text response t)
        = Dict.get k response).
Proof.
  assert (Hget : Dict.get (text_field response)
                   (SecureMultiAgentSystem._update_response_text response t)
                 = Some t)
    by (rewrite update_field; apply DictFacts.get_set_eq).
  split; [|split; [exact Hget|]].
  - intros Htext. destruct (text_field_update response t) as [Hf Hh].
    apply extract_field; [by apply Hh | by rewrite Hf].
  - intros k Hk. rewrite update_field.
    apply DictFacts.get_set_ne. congruence.
Qed.

(** Writing back the text that was read changes nothing. *)
Theorem unfiltered_text_is_kept (L : pylib) (response : dict) :
  has_text response = true ->
  SecureMultiAgentSystem._update_response_text response
    (SecureMultiAgentSystem._extract_response_text L response)
  = response.
Proof.
  intros Htext. rewrite update_field. apply DictFacts.set_get_id.
  assert (Hsome : exists v, Dict.get (text_field response) response = Some v).
  { apply DictFacts.mem_get. revert Htext. unfold has_text, text_field.
    destruct (Dict.mem "message" response) eqn:H1; [done|].
    destruct (Dict.mem "answer" response) eqn:H2; [done|].
    destruct (Dict.mem "response" response) eqn:H3; [done|discriminate]. }
  destruct Hsome as [v Hv]. rewrite Hv. f_equal.
  symmetry. by apply extract_field.
Qed.

Section WithWorld.
Context {E : Type} (C : collaborators E) (L : pylib)
        (cfg : SecureMultiAgentSystem.config).

Abbreviation gcfg := (SecureMultiAgentSystem.guardrails_cfg cfg).
Abbreviation router :=
  (MultiAgentSystem.process_request C L
     (SecureMultiAgentSystem.system_cfg cfg)).
Abbreviation secure := (SecureMultiAgentSystem.process_request C L cfg).

(** Without the identifiers of the filter policy the gate neither calls the
    filter nor changes the world; it returns the router's response as it
    is when that has a text field, and otherwise the response with its
    JSON text added under filtered_response. An exception of the router
    passes through. *)
Theorem unguarded_gate_is_transparent (user_input : string)
    (session_id : option string) (w : world E) :
  GuardrailSpec.absent gcfg ->
  secure user_input session_id w
  = match router user_input session_id w with
    | (Ok response, w') =>
        (Ok (if has_text response then response
             else Dict.set "filtered_response"
                    (VStr (json_dumps L (VDict response))) response), w')
    | (Raised e, w') => (Raised e, w')
    end.
Proof.
  intros Habs.
  assert (Hpass : forall d field text w0,
            GuardrailsManager.apply C L gcfg d field text w0
            = (Ok (GuardrailsManager.pass_through field text), w0)).
  { intros d field text w0.
    destruct (GuardrailFacts.apply_run C L gcfg d field text w0)
      as (r & w' & -> & Hcase).
    unfold GuardrailSpec.absent in Habs.
    destruct (SupervisorAgentClient.present
                (GuardrailsManager.guardrail_id gcfg));
      [destruct (SupervisorAgentClient.present
                   (GuardrailsManager.guardrail_version gcfg))|].
    - destruct Habs; discriminate.
    - by destruct Hcase as [-> ->].
    - by destruct Hcase as [-> ->]. }
  unfold SecureMultiAgentSystem.process_request,
    SecureMultiAgentSystem.filter_output,
    GuardrailsManager.apply_guardrails,
    GuardrailsManager.apply_guardrails_to_output.
  unfold bind at 1. rewrite Hpass.
  cbn [truthy Dict.get_or Dict.get GuardrailsManager.pass_through
       String.eqb Ascii.eqb Bool.eqb SecureMultiAgentSystem.route].
  unfold bind at 1.
  destruct (router user_input session_id w) as [[response|e] w'];
    [|reflexivity].
  unfold bind. rewrite Hpass.
  cbn [truthy Dict.get_or Dict.get GuardrailsManager.pass_through
       String.eqb Ascii.eqb Bool.eqb].
  unfold ret. f_equal. f_equal.
  destruct (has_text response) eqn:Htext.
  - by apply unfiltered_text_is_kept.
  - rewrite update_field. revert Htext.
    unfold has_text, text_field,
      SecureMultiAgentSystem._extract_response_text, Dict.mem.
    destruct (Dict.get "message" response); [discriminate|].
    destruct (Dict.get "answer" response); [discriminate|].
    by destruct (Dict.get "response" response).
Qed.

(** When the output filter reports blocked, the router's response is
    dropped: the answer is the fixed output_blocked_by_guardrails result
    with the reasons of the filter, whatever the response was. *)
Theorem blocked_output_is_discarded (response : dict) (w w1 : world E)
    (r : dict) :
  GuardrailsManager.apply_guardrails_to_output C L gcfg
    (SecureMultiAgentSystem._extract_response_text L response) w
  = (Ok r, w1) ->
  truthy (Dict.get_or "is_blocked" (VBool false) r) = true ->
  SecureMultiAgentSystem.filter_output C L cfg response w
  = (Ok [("status", VStr "output_blocked_by_guardrails");
         ("message", VStr "I'm sorry, but I cannot provide the generated response as it violates our content policies.");
         ("blocked_reasons", Dict.get_or "blocked_reasons" (VList []) r)],
     w1).
Proof.
  intros Hpass Hblocked.
  unfold SecureMultiAgentSystem.filter_output, bind.
  by rewrite Hpass, Hblocked.
Qed.

End WithWorld.

Lemma filtered_text_round_trip_witness :
  SecureMultiAgentSystem._extract_response_text Sample.lib
    (SecureMultiAgentSystem._update_response_text
       [("answer", VStr "It is 30 days."); ("sources", VList [])]
       (VStr "It is [redacted]."))
  = VStr "It is [redacted].".
Proof.
  apply (proj1 (filtered_text_round_trip Sample.lib
                  [("answer", VStr "It is 30 days."); ("sources", VList [])]
                  (VStr "It is [redacted]."))).
  reflexivity.
Defined.

Lemma unfiltered_text_is_kept_witness :
  SecureMultiAgentSystem._update_response_text
    [("response", VStr "Hello"); ("session_id", VStr "session-7")]
    (SecureMultiAgentSystem._extract_response_text Sample.lib
       [("response", VStr "Hello"); ("session_id", VStr "session-7")])
  = [("response", VStr "Hello"); ("session_id", VStr "session-7")].
Proof.
  apply (unfiltered_text_is_kept Sample.lib
           [("response", VStr "Hello"); ("session_id", VStr "session-7")]).
  reflexivity.
Defined.

Lemma unguarded_gate_is_transparent_witness :
  SecureMultiAgentSystem.process_request (Sample.collab Sample.small_talk)
    Sample.lib (Sample.secure Sample.unguarded) "Good morning" None
    Sample.start
  = (Ok [("response", VStr "Hello, how can I assist?");
         ("session_id", VStr "session-7")],
     World 1%nat
       [InvokeAgent (AgentRequest "Good morning" "AGENT1" "ALIAS1" None)]).
Proof.
  rewrite (unguarded_gate_is_transparent (Sample.collab Sample.small_talk)
             Sample.lib (Sample.secure Sample.unguarded) "Good morning" None
             Sample.start); [reflexivity|].
  left. reflexivity.
Defined.

Lemma blocked_output_is_discarded_witness :
  fst (SecureMultiAgentSystem.filter_output (Sample.collab Sample.blocking)
         Sample.lib (Sample.secure Sample.guarded)
         [("answer", VStr "It is 30 days."); ("sources", VList [])]
         Sample.start)
  = Ok [("status", VStr "output_blocked_by_guardrails");
        ("message", VStr "I'm sorry, but I cannot provide the generated response as it violates our content policies.");
        ("blocked_reasons", VList [VStr "violence"])].
Proof.
  rewrite (blocked_output_is_discarded (Sample.collab Sample.blocking)
             Sample.lib (Sample.secure Sample.guarded)
             [("answer", VStr "It is 30 days."); ("sources", VList [])]
             Sample.start
             (World 1%nat [ApplyGuardrail "gr-1" "1" Output
                             (VStr "It is 30 days.")])
             [("is_blocked", VBool true);
              ("filtered_output", VStr "It is 30 days.");
              ("blocked_reasons", VList [VStr "violence"])]);
    reflexivity.
Defined.

End GateTexts.

(** ** The supervisor client *)

Module SupervisorFacts.
Section WithWorld.
Context {E : Type} (C : collaborators E) (L : pylib)
        (cfg : SupervisorAgentClient.config).

Abbreviation invoke := (SupervisorAgentClient.invoke_agent C L cfg).

(** The chunks parse one by one, in the order of the stream. *)
Lemma collect_all (events : list (option string)) (parsed acc : list value) :
  Forall2 (fun bytes v => json_loads L bytes = inl v)
    (omap id events) parsed ->
  SupervisorAgentClient.collect L events acc = Ok (acc ++ parsed).
Proof.
  revert parsed acc. induction events as [|[bytes|] rest IH];
    intros parsed acc Hall; cbn [omap list_omap id option_bind] in Hall.
  - apply Forall2_nil_inv_l in Hall as ->. cbn. by rewrite app_nil_r.
  - apply Forall2_cons_inv_l in Hall as (v & parsed' & Hv & Hrest & ->).
    cbn [SupervisorAgentClient.collect]. unfold Json.loads. rewrite Hv.
    cbn [Py.bind]. rewrite (IH parsed' _ Hrest). by rewrite <- app_assoc.
  - cbn [SupervisorAgentClient.collect]. by apply IH.
Qed.

(** Without an agent id or an alias id, [invoke_agent] raises a
    [ValueError] and calls nothing. *)
Theorem invoke_agent_needs_ids (message : string)
    (session_id : option string) (w : world E) :
  SupervisorAgentClient.present (SupervisorAgentClient.agent_id cfg) = None
  \/ SupervisorAgentClient.present (SupervisorAgentClient.agent_alias_id cfg)
     = None ->
  invoke message session_id w
  = (Raised (Exn ValueError "Agent ID and Agent Alias ID must be provided"),
     w).
Proof.
  unfold SupervisorAgentClient.invoke_agent.
  destruct (SupervisorAgentClient.present (SupervisorAgentClient.agent_id cfg));
    [destruct (SupervisorAgentClient.present
                 (SupervisorAgentClient.agent_alias_id cfg))|];
    intros [?|?]; try discriminate; reflexivity.
Qed.

(** With both ids, [invoke_agent] calls the runtime once and always
    returns: an exception of the runtime, or of the parsing of a chunk, comes
    back as a result with the field error. *)
Theorem invoke_agent_reports_errors (message : string)
    (session_id : option string) (w : world E) (aid alias : string) :
  SupervisorAgentClient.present (SupervisorAgentClient.agent_id cfg)
  = Some aid ->
  SupervisorAgentClient.present (SupervisorAgentClient.agent_alias_id cfg)
  = Some alias ->
  let request :=
    AgentRequest message aid alias (SupervisorAgentClient.present session_id)
  in
  calls_of (invoke message session_id) w = [InvokeAgent request]
  /\ returns (fst (invoke message session_id w))
  /\ forall e,
       (fst (invoke_agent_runtime C request (env w)) = Raised e
        \/ exists reply,
             fst (invoke_agent_runtime C request (env w)) = Ok reply
             /\ SupervisorAgentClient.collect L (completion reply) []
                = Raised e) ->
       fst (invoke message session_id w) = Ok [("error", VStr (exn_str e))].
Proof.
  intros Haid Halias request. subst request.
  unfold SupervisorAgentClient.invoke_agent, calls_of. rewrite Haid, Halias.
  run.
  destruct (invoke_agent_runtime C _ (env w)) as [[reply|e0] e1];
    cbn [fst snd trace].
  - destruct (SupervisorAgentClient.collect L (completion reply) [])
      as [messages|e0] eqn:Hcollect; cbn [fst snd trace].
    + split; [|split].
      * destruct (reply_sessionId reply); cbn; by rewrite drop_app_length.
      * destruct (reply_sessionId reply); eexists; reflexivity.
      * intros e [He|(reply' & [= <-] & He)]; [discriminate He|].
        rewrite Hcollect in He. discriminate He.
    + split; [|split].
      * by rewrite drop_app_length.
      * eexists; reflexivity.
      * intros e [He|(reply' & [= <-] & He)]; [discriminate He|].
        rewrite Hcollect in He. by injection He as ->.
  - split; [|split].
    + by rewrite drop_app_length.
    + eexists; reflexivity.
    + intros e [[= ->]|(reply' & Hr & _)]; [reflexivity | discriminate Hr].
Qed.

(** When every chunk parses, the messages of the result are the parsed
    chunks in the order of the stream, events without a chunk being
    skipped; the session id of the reply is added when there is one. *)
Theorem invoke_agent_collects (message : string)
    (session_id : option string) (w : world E) (aid alias : string)
    (reply : agent_reply) (parsed : list value) :
  SupervisorAgentClient.present (SupervisorAgentClient.agent_id cfg)
  = Some aid ->
  SupervisorAgentClient.present (SupervisorAgentClient.agent_alias_id cfg)
  = Some alias ->
  fst (invoke_agent_runtime C
         (AgentRequest message aid alias
            (SupervisorAgentClient.present session_id)) (env w))
  = Ok reply ->
  Forall2 (fun bytes v => json_loads L bytes = inl v)
    (omap id (completion reply)) parsed ->
  fst (invoke message session_id w)
  = Ok (("messages", VList parsed)
          :: match reply_sessionId reply with
             | Some sid => [("sessionId", sid)]
             | None => []
             end).
Proof.
  intros Haid Halias Hreply Hparsed.
  unfold SupervisorAgentClient.invoke_agent. rewrite Haid, Halias. run.
  destruct (invoke_agent_runtime C _ (env w)) as [r e1]. cbn in Hreply.
  subst r. cbn. rewrite (collect_all _ parsed [] Hparsed). cbn.
  by destruct (reply_sessionId reply).
Qed.

End WithWorld.

Lemma invoke_agent_needs_ids_witness :
  SupervisorAgentClient.invoke_agent (Sample.collab Sample.quiet) Sample.lib
    (SupervisorAgentClient.Config (Some "AGENT1") None) "Hello" None
    Sample.start
  = (Raised (Exn ValueError "Agent ID and Agent Alias ID must be provided"),
     Sample.start).
Proof.
  apply (invoke_agent_needs_ids (Sample.collab Sample.quiet) Sample.lib
           (SupervisorAgentClient.Config (Some "AGENT1") None)).
  right. reflexivity.
Defined.

Lemma invoke_agent_reports_errors_witness :
  fst (SupervisorAgentClient.invoke_agent
         (Sample.collab (Sample.with_agent (Raised Sample.boom) Sample.quiet))
         Sample.lib
         (SupervisorAgentClient.Config (Some "AGENT1") (Some "ALIAS1"))
         "Hello" None Sample.start)
  = Ok [("error", VStr "connection reset")].
Proof.
  apply (proj2 (proj2
           (invoke_agent_reports_errors
              (Sample.collab
                 (Sample.with_agent (Raised Sample.boom) Sample.quiet))
              Sample.lib
              (SupervisorAgentClient.Config (Some "AGENT1") (Some "ALIAS1"))
              "Hello" None Sample.start "AGENT1" "ALIAS1" eq_refl eq_refl))
         Sample.boom).
  left. reflexivity.
Defined.

Lemma invoke_agent_collects_witness :
  fst (SupervisorAgentClient.invoke_agent (Sample.collab Sample.small_talk)
         Sample.lib
         (SupervisorAgentClient.Config (Some "AGENT1") (Some "ALIAS1"))
         "Good morning" None Sample.start)
  = Ok [("messages", VList [Sample.chunk_value "Hello, how can I assist?"]);
        ("sessionId", VStr "session-7")].
Proof.
  apply (invoke_agent_collects (Sample.collab Sample.small_talk) Sample.lib
           (SupervisorAgentClient.Config (Some "AGENT1") (Some "ALIAS1"))
           "Good morning" None Sample.start "AGENT1" "ALIAS1"
           (AgentReply [Some (Sample.chunk_text "Hello, how can I assist?")]
              (Some (VStr "session-7")))
           [Sample.chunk_value "Hello, how can I assist?"]);
    try reflexivity.
  repeat constructor.
Defined.

End SupervisorFacts.

(** ** The Lambda entry point of the ticketing agent *)

Module AppFacts.
Section WithWorld.
Context {E : Type} (C : collaborators E) (L : pylib).

(** A request whose body has no input, or an empty one, is answered with
    status 400 before any collaborator is called. *)
Theorem empty_input_is_rejected (event body : dict) (w : world E) :
  App.loads_value L (Dict.get_or "body" (VStr "{}") event) = Ok (VDict body) ->
  truthy (Dict.get_or "input" (VStr "") body) = false ->
  App.lambda_handler C L event w
  = (Ok [("statusCode", VInt 400);
         ("body",
          VStr (json_dumps L (VDict [("error", VStr "No input provided")])))],
     w).
Proof.
  intros Hbody Hinput. unfold App.lambda_handler. run.
  rewrite Hbody. cbn. by rewrite Hinput.
Qed.

(** A body that is not JSON, or not a JSON object, is not handled: the
    handler raises. *)
Theorem malformed_body_raises (event : dict) (w : world E) :
  (forall body,
     App.loads_value L (Dict.get_or "body" (VStr "{}") event)
     <> Ok (VDict body)) ->
  exists e, App.lambda_handler C L event w = (Raised e, w).
Proof.
  intros Hbad. unfold App.lambda_handler. run.
  destruct (App.loads_value L (Dict.get_or "body" (VStr "{}") event))
    as [body|e]; [|by exists e].
  destruct body as [| | | | |d]; cbn; try (eexists; reflexivity).
  by destruct (Hbad d).
Qed.

End WithWorld.

Lemma empty_input_is_rejected_witness :
  App.lambda_handler (Sample.collab Sample.quiet) MoreSamples.lib [] Sample.start
  = (Ok [("statusCode", VInt 400); ("body", VStr "<json>")], Sample.start).
Proof.
  apply (empty_input_is_rejected (Sample.collab Sample.quiet) MoreSamples.lib
           [] [] Sample.start); reflexivity.
Defined.

Lemma malformed_body_raises_witness :
  exists e,
    App.lambda_handler (Sample.collab Sample.quiet) MoreSamples.lib
      [("body", VStr "input=hello")] Sample.start
    = (Raised e, Sample.start).
Proof.
  apply (malformed_body_raises (Sample.collab Sample.quiet) MoreSamples.lib
           [("body", VStr "input=hello")] Sample.start).
  intros body. discriminate.
Defined.

End AppFacts.

(** ** Tickets in a table *)

Module TicketStore.

Lemma get_list_to_map (k : string) (d : dict) :
  (list_to_map d : gmap string value) !! k = Dict.get k d.
Proof.
  induction d as [|[k' v] d IH]; [reflexivity|].
  cbn [list_to_map foldr Dict.get uncurry fst snd].
  destruct (String.eqb k' k) eqn:Hk.
  - apply String.eqb_eq in Hk as ->. apply lookup_insert_eq.
  - apply String.eqb_neq in Hk. by rewrite lookup_insert_ne.
Qed.

Lemma get_map_to_list (k : string) (m : gmap string value) :
  Dict.get k (map_to_list m) = m !! k.
Proof. by rewrite <- get_list_to_map, list_to_map_to_list. Qed.

Section WithWorld.
Context {E : Type} (C : collaborators E).

(** [create_ticket] stores one item and returns that very item, or None
    when the store fails; the item is open, carries the fresh identifier,
    the same time as creation and update time, and the arguments as they
    were given. *)
Theorem create_ticket_returns_what_it_stores
    (subject description user_id emergency priority assigned_to : value)
    (w : world E) :
  let ticket_id := fst (uuid4 C (env w)) in
  let e1 := snd (uuid4 C (env w)) in
  let timestamp := fst (utcnow C e1) in
  let e2 := snd (utcnow C e1) in
  exists item,
    calls_of (TicketingAgent.create_ticket C subject description user_id
                emergency priority assigned_to) w
    = [PutItem item]
    /\ fst (TicketingAgent.create_ticket C subject description user_id
              emergency priority assigned_to w)
       = match fst (put_item C item e2) with
         | Ok _ => Ok (VDict item)
         | Raised e => if is_ClientError e then Ok VNone else Raised e
         end
    /\ item = [("ticket_id", VStr ticket_id); ("subject", subject);
               ("user_id", user_id); ("assigned_to", assigned_to);
               ("description", description); ("status", VStr "open");
               ("priority", priority); ("created_at", VStr timestamp);
               ("updated_at", VStr timestamp); ("emergency", emergency)].
Proof.
  intros ticket_id e1 timestamp e2. subst ticket_id e1 timestamp e2.
  unfold TicketingAgent.create_ticket, calls_of. run.
  destruct (uuid4 C (env w)) as [ticket_id e1]. cbn [fst snd env trace].
  destruct (utcnow C e1) as [timestamp e2]. cbn [fst snd env trace].
  eexists. split; [|split]; [| |reflexivity].
  - destruct (truthy assigned_to); cbn [Dict.set String.eqb Ascii.eqb Bool.eqb];
      (destruct (put_item C _ e2) as [[[]|e] e3]; cbn;
       [|destruct (is_ClientError e); cbn]; by rewrite drop_app_length).
  - destruct (truthy assigned_to); cbn [Dict.set String.eqb Ascii.eqb Bool.eqb];
      (destruct (put_item C _ e2) as [[[]|e] e3]; cbn; [reflexivity|];
       by destruct (is_ClientError e)).
Qed.

(** [get_ticket_status] asks the store once; it answers the item found,
    and None when there is none or when the store fails. *)
Theorem get_ticket_status_answer (ticket_id : value) (w : world E) :
  calls_of (TicketingAgent.get_ticket_status C ticket_id) w
  = [GetItem ticket_id]
  /\ fst (TicketingAgent.get_ticket_status C ticket_id w)
     = match fst (get_item C ticket_id (env w)) with
       | Ok (Some item) => Ok item
       | Ok None => Ok VNone
       | Raised e => if is_ClientError e then Ok VNone else Raised e
       end.
Proof.
  unfold TicketingAgent.get_ticket_status, calls_of. run.
  destruct (get_item C ticket_id (env w)) as [[[item|]|e] e1]; cbn;
    [| |destruct (is_ClientError e); cbn]; by rewrite drop_app_length.
Qed.

End WithWorld.

Section WithTable.
Context (time_at id_at : nat -> string).

Abbreviation D := (Dynamo.collab time_at id_at).

(** Over a table: a ticket that was created is found under the identifier
    it was given, with every attribute as it was stored. *)
Theorem created_ticket_is_found
    (subject description user_id emergency priority assigned_to : value)
    (w : world Dynamo.state) :
  exists ticket found w1 w2,
    TicketingAgent.create_ticket D subject description user_id emergency
      priority assigned_to w = (Ok (VDict ticket), w1)
    /\ TicketingAgent.get_ticket_status D
         (Dict.get_or "ticket_id" VNone ticket) w1 = (Ok (VDict found), w2)
    /\ (forall field, Dict.get field found = Dict.get field ticket)
    /\ Dict.get "subject" found = Some subject
    /\ Dict.get "description" found = Some description
    /\ Dict.get "priority" found = Some priority
    /\ Dict.get "status" found = Some (VStr "open").
Proof.
  set (ticket :=
         [("ticket_id", VStr (id_at (Dynamo.tick (env w))));
          ("subject", subject); ("user_id", user_id);
          ("assigned_to", assigned_to); ("description", description);
          ("status", VStr "open"); ("priority", priority);
          ("created_at", VStr (time_at (S (Dynamo.tick (env w)))));
          ("updated_at", VStr (time_at (S (Dynamo.tick (env w)))));
          ("emergency", emergency)]).
  set (w1 := World
               (Dynamo.State
                  (<[id_at (Dynamo.tick (env w)) := list_to_map ticket]>
                     (Dynamo.table (env w)))
                  (S (S (Dynamo.tick (env w)))))
               (trace w ++ [PutItem ticket])).
  assert (Hcreate :
            TicketingAgent.create_ticket D subject description user_id
              emergency priority assigned_to w = (Ok (VDict ticket), w1)).
  { unfold TicketingAgent.create_ticket. run.
    cbn [uuid4 utcnow Dynamo.collab put_item fst snd env trace
         Dynamo.tick Dynamo.table].
    replace (if truthy assigned_to then _ else _) with ticket
      by (by destruct (truthy assigned_to)).
    reflexivity. }
  assert (Hget :
            TicketingAgent.get_ticket_status D
              (Dict.get_or "ticket_id" VNone ticket) w1
            = (Ok (VDict (map_to_list
                            (list_to_map ticket : gmap string value))),
               World (env w1)
                 (trace w1
                    ++ [GetItem (VStr (id_at (Dynamo.tick (env w))))]))).
  { unfold TicketingAgent.get_ticket_status. run.
    cbn [get_item Dynamo.collab Dynamo.get Dict.get_or Dict.get ticket
         String.eqb Ascii.eqb Bool.eqb].
    subst w1. cbn [env Dynamo.table]. rewrite lookup_insert_eq.
    reflexivity. }
  assert (Hfields : forall field,
            Dict.get field (map_to_list
                              (list_to_map ticket : gmap string value))
            = Dict.get field ticket)
    by (intros field; by rewrite get_map_to_list, get_list_to_map).
  eexists _, _, _, _. split; [exact Hcreate|]. split; [exact Hget|].
  split; [exact Hfields|].
  rewrite !Hfields. repeat split; reflexivity.
Qed.

End WithTable.
End TicketStore.

Module TicketCancellation.
Section WithTable.
Context (time_at id_at : nat -> string).

Abbreviation D := (Dynamo.collab time_at id_at).

(** Over a table: cancelling succeeds whether or not the ticket exists, and
    the ticket read back afterwards is cancelled, stamped with the time of
    the cancellation, carries the reason when one was given, and has every
    other attribute as before. For a ticket that did not exist this leaves
    a record with nothing but its key, status and time. *)
Theorem cancelled_ticket_reads_back (id : string) (reason : value)
    (w : world Dynamo.state) :
  let old := default {["ticket_id" := VStr id]} (Dynamo.table (env w) !! id) in
  exists found w1 w2,
    TicketingAgent.cancel_ticket D (VStr id) reason w = (Ok true, w1)
    /\ TicketingAgent.get_ticket_status D (VStr id) w1 = (Ok (VDict found), w2)
    /\ Dict.get "status" found = Some (VStr "cancelled")
    /\ Dict.get "updated_at" found
       = Some (VStr (time_at (Dynamo.tick (env w))))
    /\ Dict.get "cancellation_reason" found
       = (if truthy reason then Some reason
          else old !! "cancellation_reason")
    /\ (forall field, field <> "status" -> field <> "updated_at" ->
          field <> "cancellation_reason" ->
          Dict.get field found = old !! field).
Proof.
  intros old.
  set (timestamp := time_at (Dynamo.tick (env w))).
  set (stamped := <["updated_at" := VStr timestamp]>
                    (<["status" := VStr "cancelled"]> old)).
  set (new := if truthy reason
              then <["cancellation_reason" := reason]> stamped
              else stamped).
  set (w1 := World
               (Dynamo.State (<[id := new]> (Dynamo.table (env w)))
                  (S (Dynamo.tick (env w))))
               (trace w ++ [UpdateItem (TicketingAgent.cancel_request
                                          (VStr id) reason timestamp)])).
  assert (Hcancel : TicketingAgent.cancel_ticket D (VStr id) reason w
                    = (Ok true, w1)).
  { unfold TicketingAgent.cancel_ticket. run.
    cbn [utcnow update_item Dynamo.collab Dynamo.update fst snd env trace
         Dynamo.table Dynamo.tick].
    fold timestamp. unfold Dynamo.update. cbn [Dynamo.table Dynamo.tick].
    rewrite TicketClaims.cancel_update. reflexivity. }
  assert (Hget : TicketingAgent.get_ticket_status D (VStr id) w1
                 = (Ok (VDict (map_to_list new)),
                    World (env w1) (trace w1 ++ [GetItem (VStr id)]))).
  { unfold TicketingAgent.get_ticket_status. run.
    cbn [get_item Dynamo.collab Dynamo.get]. subst w1.
    cbn [env Dynamo.table]. rewrite lookup_insert_eq. reflexivity. }
  exists (map_to_list new), w1, (World (env w1) (trace w1 ++ [GetItem (VStr id)])).
  split; [exact Hcancel|]. split; [exact Hget|].
  rewrite !TicketStore.get_map_to_list. subst new stamped.
  destruct (truthy reason).
  - repeat split.
    + by rewrite lookup_insert_ne, lookup_insert_ne, lookup_insert_eq.
    + by rewrite lookup_insert_ne, lookup_insert_eq.
    + by rewrite lookup_insert_eq.
    + intros field H1 H2 H3. rewrite TicketStore.get_map_to_list.
      by rewrite !lookup_insert_ne.
  - repeat split.
    + by rewrite lookup_insert_ne, lookup_insert_eq.
    + by rewrite lookup_insert_eq.
    + by rewrite !lookup_insert_ne.
    + intros field H1 H2 H3. rewrite TicketStore.get_map_to_list.
      by rewrite !lookup_insert_ne.
Qed.

End WithTable.

Lemma cancelled_ticket_reads_back_witness :
  exists found w1 w2,
    TicketingAgent.cancel_ticket
      (Dynamo.collab (fun _ => "2024-05-01T12:00:00") (fun _ => "t-2"))
      (VStr "t-1") (VStr "duplicate")
      (World (Dynamo.State
                {["t-1" := {["ticket_id" := VStr "t-1";
                             "subject" := VStr "Printer";
                             "status" := VStr "open"]}]} 5%nat) [])
    = (Ok true, w1)
    /\ TicketingAgent.get_ticket_status
         (Dynamo.collab (fun _ => "2024-05-01T12:00:00") (fun _ => "t-2"))
         (VStr "t-1") w1
       = (Ok (VDict found), w2)
    /\ Dict.get "status" found = Some (VStr "cancelled")
    /\ Dict.get "subject" found = Some (VStr "Printer").
Proof.
  destruct (cancelled_ticket_reads_back (fun _ => "2024-05-01T12:00:00")
              (fun _ => "t-2") "t-1" (VStr "duplicate")
              (World (Dynamo.State
                        {["t-1" := {["ticket_id" := VStr "t-1";
                                     "subject" := VStr "Printer";
                                     "status" := VStr "open"]}]} 5%nat) []))
    as (found & w1 & w2 & Hcancel & Hget & Hstatus & _ & _ & Hframe).
  exists found, w1, w2.
  split; [exact Hcancel|]. split; [exact Hget|]. split; [exact Hstatus|].
  rewrite Hframe; [|done..]. reflexivity.
Defined.

End TicketCancellation.

(** ** Retrieval at the edges *)

Module RetrievalEdges.

Lemma lower_char_space (c : ascii) :
  Text.is_space (Text.lower_char c) = Text.is_space c.
Proof. destruct c as [[] [] [] [] [] [] [] []]; reflexivity. Qed.

Lemma lower_char_idempotent (c : ascii) :
  Text.lower_char (Text.lower_char c) = Text.lower_char c.
Proof. destruct c as [[] [] [] [] [] [] [] []]; reflexivity. Qed.

Lemma lower_idempotent (s : string) : Text.lower (Text.lower s) = Text.lower s.
Proof.
  induction s as [|c s IH]; cbn [Text.lower]; [reflexivity|].
  by rewrite lower_char_idempotent, IH.
Qed.

(** A blank text has no terms. *)
Lemma blank_has_no_terms (s : string) :
  Forall (fun c => Text.is_space c = true) (list_ascii_of_string s) ->
  FAQAgent.terms s = ∅.
Proof.
  intros Hblank. unfold FAQAgent.terms, Text.split.
  assert (Hsplit : Text.split_from [] (Text.lower s) = []).
  { induction s as [|c s IH]; [reflexivity|].
    cbn [list_ascii_of_string] in Hblank.
    apply Forall_cons in Hblank as [Hc Hs].
    cbn [Text.lower Text.split_from]. rewrite lower_char_space, Hc.
    cbn [Text.flush app]. by apply IH. }
  by rewrite Hsplit.
Qed.

(** Relevance does not depend on letter case or on the side, and is at most
    the number of distinct terms of the query. *)
Theorem relevance_is_symmetric_and_bounded (query text : string) :
  FAQAgent.overlap (FAQAgent.terms (Text.lower query))
    (FAQAgent.terms (Text.lower text))
  = FAQAgent.overlap (FAQAgent.terms query) (FAQAgent.terms text)
  /\ FAQAgent.overlap (FAQAgent.terms query) (FAQAgent.terms text)
     = FAQAgent.overlap (FAQAgent.terms text) (FAQAgent.terms query)
  /\ (FAQAgent.overlap (FAQAgent.terms query) (FAQAgent.terms text)
      <= size (FAQAgent.terms query))%nat
  /\ (size (FAQAgent.terms query)
      <= length (Text.split (Text.lower query)))%nat.
Proof.
  unfold FAQAgent.overlap, FAQAgent.terms. rewrite !lower_idempotent.
  split; [reflexivity|]. split; [|split].
  - f_equal. apply (comm_L (∩)).
  - apply subseteq_size. set_solver.
  - generalize (Text.split (Text.lower query)). intros l.
    induction l as [|x l IH];
      [cbn [list_to_set length]; by rewrite size_empty|].
    cbn [list_to_set length].
    rewrite size_union_alt, size_singleton.
    assert (Hsub : (size ((list_to_set l : gset string) ∖ {[x]})
                    <= size (list_to_set l : gset string))%nat)
      by (apply subseteq_size; set_solver).
    lia.
Qed.

Section WithWorld.
Context {E : Type} (C : collaborators E) (cfg : FAQAgent.config).

Abbreviation bucket := (FAQAgent.s3_bucket cfg).
Abbreviation retrieve := (FAQAgent.retrieve_relevant_documents C cfg).

(** With no term in the query the loop never keeps a document. *)
Lemma scan_without_terms max_docs keys (w : world E) :
  match fst (FAQAgent.scan C cfg ∅ max_docs keys [] w) with
  | Ok docs => docs = []
  | Raised _ => True
  end.
Proof.
  revert w. induction keys as [|key rest IH]; intros w; [reflexivity|].
  cbn [FAQAgent.scan].
  destruct (Z.of_nat (length []) >=? max_docs); [reflexivity|].
  destruct (negb (FAQAgent.supported key)); [apply IH|].
  run. destruct (get_object C bucket key (env w)) as [[text|e] e1]; [|done].
  unfold FAQAgent.overlap.
  replace (∅ ∩ FAQAgent.terms text) with (∅ : gset string) by set_solver.
  rewrite size_empty. cbn [Nat.ltb Nat.leb]. apply IH.
Qed.

(** Retrieval answers the empty list, without reading any object, when the
    listing has no contents, when the cap is not positive and when listing
    the store fails with a [ClientError]; a blank query never retrieves
    anything; and no [ClientError] ever leaves retrieval. *)
Theorem retrieval_edges (query : string) (max_docs : Z) (w : world E) :
  let listing :=
    fst (list_objects_v2 C bucket (FAQAgent.s3_prefix cfg) (env w)) in
  ((listing = Ok None
    \/ (exists e, listing = Raised e /\ is_ClientError e = true)
    \/ ((exists keys, listing = Ok (Some keys)) /\ max_docs <= 0)) ->
   fst (retrieve query max_docs w) = Ok []
   /\ calls_of (retrieve query max_docs) w
      = [ListObjects bucket (FAQAgent.s3_prefix cfg)])
  /\ (Forall (fun c => Text.is_space c = true) (list_ascii_of_string query) ->
      match fst (retrieve query max_docs w) with
      | Ok docs => docs = []
      | Raised _ => True
      end)
  /\ (forall e, fst (retrieve query max_docs w) = Raised e ->
        is_ClientError e = false).
Proof.
  intros listing. subst listing. split; [|split].
  - unfold FAQAgent.retrieve_relevant_documents, calls_of. run.
    destruct (list_objects_v2 C bucket (FAQAgent.s3_prefix cfg) (env w))
      as [[[keys|]|e] e1]; cbn [fst snd trace].
    + intros [Hl|[(e & Hl & _)|[_ Hmax]]]; try discriminate Hl.
      assert (Hscan : forall w0,
                FAQAgent.scan C cfg (FAQAgent.terms query) max_docs keys [] w0
                = (Ok [], w0)).
      { intros w0. destruct keys as [|key rest]; [reflexivity|].
        cbn [FAQAgent.scan length].
        replace (Z.of_nat 0 >=? max_docs) with true
          by (symmetry; apply Z.geb_le; lia).
        reflexivity. }
      rewrite Hscan. cbn [fst snd trace FAQAgent.sort_by_relevance].
      split; [|by rewrite drop_app_length].
      unfold FAQAgent.slice_to. destruct (max_docs <? 0); by rewrite take_nil.
    + intros _. cbn [fst snd trace].
      split; [reflexivity | by rewrite drop_app_length].
    + intros [Hl|[(e0 & [= <-] & He)|[[keys Hl] _]]]; try discriminate Hl.
      rewrite He. cbn [fst snd trace].
      split; [reflexivity | by rewrite drop_app_length].
  - intros Hblank. unfold FAQAgent.retrieve_relevant_documents. run.
    rewrite (blank_has_no_terms query Hblank).
    destruct (list_objects_v2 C bucket (FAQAgent.s3_prefix cfg) (env w))
      as [[[keys|]|e] e1]; cbn [fst snd trace].
    + match goal with
      | |- context [FAQAgent.scan _ _ _ _ _ _ ?w0] =>
          pose proof (scan_without_terms max_docs keys w0) as Hscan;
          destruct (FAQAgent.scan C cfg ∅ max_docs keys [] w0)
            as [[docs|e] w1]
      end; cbn in Hscan |- *.
      * subst docs. unfold FAQAgent.slice_to. cbn [FAQAgent.sort_by_relevance].
        destruct (max_docs <? 0); by rewrite take_nil.
      * by destruct (is_ClientError e).
    + reflexivity.
    + by destruct (is_ClientError e).
  - intros e. unfold FAQAgent.retrieve_relevant_documents. run.
    destruct (list_objects_v2 C bucket (FAQAgent.s3_prefix cfg) (env w))
      as [[[keys|]|e0] e1]; cbn [fst snd trace].
    + match goal with
      | |- context [FAQAgent.scan _ _ ?q ?m ?k ?d ?w0] =>
          destruct (FAQAgent.scan C cfg q m k d w0) as [[docs|e2] w1]
      end; cbn; [discriminate|].
      destruct (is_ClientError e2) eqn:He2; cbn; [discriminate|].
      by intros [= <-].
    + discriminate.
    + destruct (is_ClientError e0) eqn:He0; cbn; [discriminate|].
      by intros [= <-].
Qed.

End WithWorld.

Lemma retrieval_edges_witness :
  fst (FAQAgent.retrieve_relevant_documents (Sample.collab Sample.kb)
         Sample.faq "what is your return policy" 0 Sample.start)
  = Ok []
  /\ calls_of (FAQAgent.retrieve_relevant_documents (Sample.collab Sample.kb)
                 Sample.faq "what is your return policy" 0) Sample.start
     = [ListObjects (Some "kb-bucket") "knowledge_base/"].
Proof.
  apply (proj1 (retrieval_edges (Sample.collab Sample.kb) Sample.faq
                  "what is your return policy" 0 Sample.start)).
  right. right. split; [by eexists | lia].
Defined.

End RetrievalEdges.

(** ** Answers *)

Module AnswerFacts.
Section WithWorld.
Context {E : Type} (C : collaborators E) (L : pylib) (cfg : FAQAgent.config).

Abbreviation retrieve := (FAQAgent.retrieve_relevant_documents C cfg).
Abbreviation answer := (FAQAgent.answer_question C L cfg).

(** Once retrieval has returned documents, [answer_question] asks the model
    exactly once, with the documents as context, and always returns: the
    model's text with the keys of the documents, in their ranking order, as
    sources; or, when the model call or the reading of its reply fails, the
    fixed apology with no sources. *)
Theorem answer_cites_retrieved_documents (query : string)
    (docs : list FAQAgent.doc) (w w1 : world E) :
  retrieve query 3 w = (Ok docs, w1) ->
  docs <> [] ->
  let context :=
    String.concat (FAQAgent.newline +:+ FAQAgent.newline)
      (map FAQAgent.doc_block docs) in
  let p := AnswerPrompt context query in
  trace (snd (answer query w)) = trace w1 ++ [InvokeModel p]
  /\ fst (answer query w)
     = Ok match Py.bind (fst (invoke_model C p (env w1)))
                  (fun body => Json.reply_text L body "") with
          | Ok text =>
              [("answer", text);
               ("sources",
                VList (map (fun d => VStr (FAQAgent.source d)) docs))]
          | Raised _ =>
              [("answer",
                VStr "I encountered an error while trying to answer your question.");
               ("sources", VList [])]
          end.
Proof.
  intros Hdocs Hne context p. subst p context.
  unfold FAQAgent.answer_question. run. rewrite Hdocs.
  destruct docs as [|d docs]; [done|].
  destruct (invoke_model C _ (env w1)) as [[body|e] e1];
    cbn [fst snd trace Py.bind]; [|by split].
  destruct (Json.reply_text L body ""); by split.
Qed.

End WithWorld.

Lemma answer_cites_retrieved_documents_witness :
  fst (FAQAgent.answer_question (Sample.collab Sample.kb) Sample.lib
         Sample.faq "what is your return policy" Sample.start)
  = Ok [("answer", VStr "It is 30 days.");
        ("sources", VList [VStr "knowledge_base/policy.json";
                           VStr "knowledge_base/returns.txt";
                           VStr "knowledge_base/hours.txt"])].
Proof.
  apply (proj2 (answer_cites_retrieved_documents (Sample.collab Sample.kb)
                  Sample.lib Sample.faq "what is your return policy"
                  [FAQAgent.Doc "What is the privacy policy"
                     "knowledge_base/policy.json" 3;
                   FAQAgent.Doc "Our return policy lasts 30 days"
                     "knowledge_base/returns.txt" 2;
                   FAQAgent.Doc "Opening hours: return tomorrow"
                     "knowledge_base/hours.txt" 1]
                  Sample.start
                  (snd (FAQAgent.retrieve_relevant_documents
                          (Sample.collab Sample.kb) Sample.faq
                          "what is your return policy" 3 Sample.start))
                  ltac:(vm_compute; reflexivity) ltac:(discriminate))).
Defined.

End AnswerFacts.

(** ** Nothing stores a ticket *)

Module NoTicketStored.
Section WithWorld.
Context {E : Type} (C : collaborators E) (L : pylib).

Abbreviation quiet := (fun ev : event => negb (is_put ev)).

Lemma emits_of_reads {A} (m : M E A) :
  (forall w, exists reads,
     trace (snd (m w)) = trace w ++ reads
     /\ Forall (fun ev => is_store_read ev = true) reads) ->
  emits quiet m.
Proof.
  intros Hm w. destruct (Hm w) as (reads & Htr & Hreads). exists reads.
  split; [exact Htr|]. eapply Forall_impl; [exact Hreads|].
  by intros [].
Qed.

Lemma quiet_evaluate cfg message :
  emits quiet (EmergencyAgent.evaluate_emergency C L cfg message).
Proof.
  unfold EmergencyAgent.evaluate_emergency,
    EmergencyAgent._escalate_emergency. emit.
Qed.

Lemma quiet_handle cfg message :
  emits quiet (EmergencyAgent.handle_emergency_request C L cfg message).
Proof.
  unfold EmergencyAgent.handle_emergency_request.
  apply emits_bind; [apply quiet_evaluate|intros ?]. emit.
Qed.

Lemma quiet_answer cfg query :
  emits quiet (FAQAgent.answer_question C L cfg query).
Proof.
  unfold FAQAgent.answer_question. apply emits_bind.
  - apply emits_of_reads. intros w.
    destruct (FAQFacts.retrieve_reads C cfg query 3 w)
      as (reads & Htr & Hreads).
    eexists. split; [exact Htr|]. by constructor.
  - intros ?. emit.
Qed.

Lemma quiet_ticket user_input :
  emits quiet (BedrockTicketingAgent.process_request C L user_input).
Proof.
  unfold BedrockTicketingAgent.process_request,
    BedrockTicketingAgent._determine_intent.
  apply emits_bind; [emit|intros intent_v].
  apply emits_bind; [emit|intros action].
  apply emits_bind; [emit|intros intent].
  destruct (is_str "create_ticket" action).
  { rewrite TicketRequests.creation_call_raises. emit. }
  unfold TicketingAgent.get_ticket_status, TicketingAgent.cancel_ticket.
  emit.
Qed.

Lemma quiet_router cfg user_input session_id :
  emits quiet (MultiAgentSystem.process_request C L cfg user_input session_id).
Proof.
  assert (Hask : emits quiet (MultiAgentSystem.ask_supervisor C L cfg
                                user_input session_id)).
  { unfold MultiAgentSystem.ask_supervisor.
    apply emits_bind;
      [unfold SupervisorAgentClient.invoke_agent; emit|intros ?].
    apply emits_bind; [emit|intros ?].
    apply emits_bind; [emit|intros ?].
    destruct (is_str "ticketing" _); [apply quiet_ticket|].
    destruct (is_str "faq" _); [apply quiet_answer|].
    destruct (is_str "emergency" _); [apply quiet_handle|].
    emit. }
  unfold MultiAgentSystem.process_request.
  destruct (MultiAgentSystem.mentions_emergency user_input); [|exact Hask].
  apply emits_bind; [apply quiet_evaluate|intros ?].
  destruct (EmergencyAgent.is_emergency _); [apply quiet_handle | exact Hask].
Qed.

(** Whatever the input and whatever the collaborators answer, a request to
    the guarded system never reaches [put_item]: no ticket is ever
    stored. *)
Theorem no_request_stores_a_ticket (cfg : SecureMultiAgentSystem.config)
    (user_input : string) (session_id : option string) (w : world E) :
  Forall (fun ev => is_put ev = false)
    (calls_of (SecureMultiAgentSystem.process_request C L cfg user_input
                 session_id) w).
Proof.
  assert (H : emits quiet (SecureMultiAgentSystem.process_request C L cfg
                             user_input session_id)).
  { unfold SecureMultiAgentSystem.process_request,
      SecureMultiAgentSystem.filter_output,
      GuardrailsManager.apply_guardrails,
      GuardrailsManager.apply_guardrails_to_output, GuardrailsManager.apply.
    apply emits_bind; [emit|intros ?].
    destruct (truthy _); [emit|].
    apply emits_bind; [|intros ?; emit].
    unfold SecureMultiAgentSystem.route.
    destruct (Dict.get_or "filtered_input" _ _); try (by emit).
    apply quiet_router. }
  eapply Forall_impl; [apply (emits_calls _ _ w H)|].
  intros ev Hev. by apply negb_true_iff.
Qed.

End WithWorld.
End NoTicketStored.

(** ** One handler per request *)

Module Dispatch.
Section WithWorld.
Context {E : Type} (C : collaborators E) (L : pylib)
        (cfg : MultiAgentSystem.config).

Import Handlers.








End WithWorld.


End Dispatch.
